(** * The kaplay-native graphics core: [src/gfx/gfx.ts] and [src/gfx/FrameBuffer.ts]

    A shallow embedding of the GPU state stacks ([genStack], [initGfx]), the
    resource wrappers ([Texture], [Mesh], [FrameBuffer]) and the
    [BatchRenderer], followed by the properties of the written specification
    that are checked against them.

    Conventions of the embedding.
    - The WebGL context is an explicit machine state ([GLState]): the
      bindings, the viewport, the blend function, the sizes of the buffer
      objects, the handle allocator and the sequence of calls issued so far.
    - Objects that the TypeScript code mutates in place ([GfxCtx],
      [BatchRenderer], [Texture], ...) are passed in and returned.
    - A constructor that can [throw] returns a [Result].
    - [null] and [undefined] are [None]. *)

From Stdlib Require Import ZArith QArith Qreduction Lia.
From stdpp Require Import gmap strings list.

Set Default Proof Using "Type".

(* ================================================================== *)
(** ** JavaScript numbers used for index arithmetic *)
(* ================================================================== *)

(** [push] computes [length / stride] and adds the quotient to every index.
    The quotient need not be an integer and the divisor may be zero, so the
    values are exact rationals (kept in lowest terms, so that equal numbers
    are equal terms) together with [Infinity] and [NaN].  Doubles agree with
    this on every integer below 2^53 and on every exact quotient of such
    integers; rounding of inexact quotients is not modelled. *)
Module JsNum.

Inductive number : Type :=
| Fin (num : Z) (den : positive)
| Infinity
| NaN.

Definition of_Q (q : Q) : number :=
  let r := Qred q in Fin (Qnum r) (Qden r).

Definition int (z : Z) : number := Fin z 1.

(** [a / b] where [a] and [b] are array lengths or a stride. *)
Definition div (a b : nat) : number :=
  match b, a with
  | O, O => NaN
  | O, S _ => Infinity
  | S _, _ => of_Q (Z.of_nat a # Pos.of_nat b)
  end.

(** [x + y] *)
Definition add (x y : number) : number :=
  match x, y with
  | NaN, _ | _, NaN => NaN
  | Infinity, _ | _, Infinity => Infinity
  | Fin a b, Fin c d => of_Q (Qplus (a # b) (c # d))
  end.

#[global] Instance number_eq_dec : EqDecision number.
Proof. solve_decision. Defined.

End JsNum.
Export JsNum.

(* ================================================================== *)
(** ** The WebGL machine *)
(* ================================================================== *)

Definition handle := nat.
Definition GLenum := Z.

(** The binding points the code goes through. *)
Inductive Kind : Type :=
| Texture2D | ArrayBuffer | ElementArrayBuffer | Framebuffer | Renderbuffer | Program.

#[global] Instance Kind_eq_dec : EqDecision Kind.
Proof. solve_decision. Defined.

(** The viewport object [{ x, y, w, h }]. *)
Module Rect.
Record t : Type := { x : Z; y : Z; w : Z; h : Z }.

#[global] Instance eq_dec : EqDecision t.
Proof. solve_decision. Defined.
End Rect.

Inductive Factor : Type :=
| ZERO | ONE | ONE_MINUS_SRC_ALPHA | DST_COLOR | ONE_MINUS_DST_COLOR.

Inductive Filter : Type := LINEAR | NEAREST.
Inductive Wrap : Type := REPEAT | CLAMP_TO_EDGE.

Inductive TexParam : Type :=
| TEXTURE_MIN_FILTER (f : Filter) | TEXTURE_MAG_FILTER (f : Filter)
| TEXTURE_WRAP_S (v : Wrap) | TEXTURE_WRAP_T (v : Wrap).

(** The calls that reach the driver, and those made on the shader
    collaborator, in the order they are issued. *)
Inductive GLCall : Type :=
| Create (result : option handle)
| Bind (k : Kind) (item : option handle)
| Viewport (r : Rect.t)
| TexImage2D (width height : Z)
| TexSubImage2D (xoff yoff width height : Z) (data : list Z)
| TexParameteri (p : TexParam)
| PixelStorei
| BufferData (k : Kind) (bytes : nat)
| BufferSubData (k : Kind) (data : list number)
| BlendFuncSeparate (srcRGB dstRGB srcAlpha dstAlpha : Factor)
| DisableVertexAttribArray (i : nat)
| EnableVertexAttribArray (i : nat)
| VertexAttribPointer (i size stride offset : nat)
| DrawElements (primitive : GLenum) (count : nat) (offset : Z)
| RenderbufferStorage (width height : Z)
| FramebufferTexture2D (tex : handle)
| FramebufferRenderbuffer (rb : handle)
| Delete (item : option handle)
| ShaderBind (shader : nat)
| ShaderSend (uniform : nat)
| ShaderSendSystem (width height : Z) (identityCamera : bool)
| ShaderUnbind (shader : nat).

Record GLState : Type := {
  next_handle : handle;          (* the next object name the driver hands out *)
  alloc_script : list bool;      (* outcome of the coming create* calls; [] = all succeed *)
  bound : Kind -> option handle;
  viewport : Rect.t;
  blendFunc : Factor * Factor * Factor * Factor;
  bufferSize : handle -> nat;    (* BUFFER_SIZE of each buffer object, in bytes *)
  MAX_VERTEX_ATTRIBS : nat;
  drawingBufferWidth : Z;
  drawingBufferHeight : Z;
  calls : list GLCall
}.

Definition upd {A B : Type} `{EqDecision A} (k : A) (v : B) (f : A -> B) : A -> B :=
  fun k' => if decide (k = k') then v else f k'.

Definition emit (e : GLCall) (g : GLState) : GLState :=
  {| next_handle := next_handle g; alloc_script := alloc_script g;
     bound := bound g; viewport := viewport g; blendFunc := blendFunc g;
     bufferSize := bufferSize g; MAX_VERTEX_ATTRIBS := MAX_VERTEX_ATTRIBS g;
     drawingBufferWidth := drawingBufferWidth g;
     drawingBufferHeight := drawingBufferHeight g;
     calls := calls g ++ [e] |}.

Definition set_bound (k : Kind) (v : option handle) (g : GLState) : GLState :=
  {| next_handle := next_handle g; alloc_script := alloc_script g;
     bound := upd k v (bound g); viewport := viewport g; blendFunc := blendFunc g;
     bufferSize := bufferSize g; MAX_VERTEX_ATTRIBS := MAX_VERTEX_ATTRIBS g;
     drawingBufferWidth := drawingBufferWidth g;
     drawingBufferHeight := drawingBufferHeight g;
     calls := calls g |}.

Definition set_viewport (r : Rect.t) (g : GLState) : GLState :=
  {| next_handle := next_handle g; alloc_script := alloc_script g;
     bound := bound g; viewport := r; blendFunc := blendFunc g;
     bufferSize := bufferSize g; MAX_VERTEX_ATTRIBS := MAX_VERTEX_ATTRIBS g;
     drawingBufferWidth := drawingBufferWidth g;
     drawingBufferHeight := drawingBufferHeight g;
     calls := calls g |}.

Definition set_blendFunc (f : Factor * Factor * Factor * Factor) (g : GLState) : GLState :=
  {| next_handle := next_handle g; alloc_script := alloc_script g;
     bound := bound g; viewport := viewport g; blendFunc := f;
     bufferSize := bufferSize g; MAX_VERTEX_ATTRIBS := MAX_VERTEX_ATTRIBS g;
     drawingBufferWidth := drawingBufferWidth g;
     drawingBufferHeight := drawingBufferHeight g;
     calls := calls g |}.

Definition set_bufferSize (b : handle) (n : nat) (g : GLState) : GLState :=
  {| next_handle := next_handle g; alloc_script := alloc_script g;
     bound := bound g; viewport := viewport g; blendFunc := blendFunc g;
     bufferSize := upd b n (bufferSize g); MAX_VERTEX_ATTRIBS := MAX_VERTEX_ATTRIBS g;
     drawingBufferWidth := drawingBufferWidth g;
     drawingBufferHeight := drawingBufferHeight g;
     calls := calls g |}.

Definition set_allocator (n : handle) (s : list bool) (g : GLState) : GLState :=
  {| next_handle := n; alloc_script := s;
     bound := bound g; viewport := viewport g; blendFunc := blendFunc g;
     bufferSize := bufferSize g; MAX_VERTEX_ATTRIBS := MAX_VERTEX_ATTRIBS g;
     drawingBufferWidth := drawingBufferWidth g;
     drawingBufferHeight := drawingBufferHeight g;
     calls := calls g |}.

(** [gl.createTexture()], [gl.createBuffer()], [gl.createFramebuffer()],
    [gl.createRenderbuffer()]: a fresh object name, or [null] when the
    driver refuses. *)
Definition gl_create (g : GLState) : option handle * GLState :=
  match alloc_script g with
  | false :: rest => (None, emit (Create None) (set_allocator (next_handle g) rest g))
  | _ :: rest =>
      (Some (next_handle g),
       emit (Create (Some (next_handle g))) (set_allocator (S (next_handle g)) rest g))
  | [] =>
      (Some (next_handle g),
       emit (Create (Some (next_handle g))) (set_allocator (S (next_handle g)) [] g))
  end.

(** [gl.bindTexture], [gl.bindBuffer], [gl.bindFramebuffer],
    [gl.bindRenderbuffer], [gl.useProgram]. *)
Definition gl_bind (k : Kind) (item : option handle) (g : GLState) : GLState :=
  emit (Bind k item) (set_bound k item g).

Definition gl_viewport (r : Rect.t) (g : GLState) : GLState :=
  emit (Viewport r) (set_viewport r g).

Definition gl_blendFuncSeparate (a b c d : Factor) (g : GLState) : GLState :=
  emit (BlendFuncSeparate a b c d) (set_blendFunc (a, b, c, d) g).

(** [gl.bufferData(target, new ArrayBuffer(bytes), usage)]: sizes the buffer
    bound to [target]; an error, and no effect, when none is bound. *)
Definition gl_bufferData (k : Kind) (bytes : nat) (g : GLState) : GLState :=
  match bound g k with
  | Some b => emit (BufferData k bytes) (set_bufferSize b bytes g)
  | None => emit (BufferData k bytes) g
  end.

(** [gl.getBufferParameter(target, gl.BUFFER_SIZE)]: [null] when no buffer
    is bound to [target]. *)
Definition gl_getBufferParameter (k : Kind) (g : GLState) : option nat :=
  match bound g k with
  | Some b => Some (bufferSize g b)
  | None => None
  end.

(* ================================================================== *)
(** ** [genStack] and the graphics context of [initGfx] *)
(* ================================================================== *)

(** A stack is the closure variable [stack] of [genStack]; the last array
    element (the top) is the head of the list.  [cur()] is [undefined] on the
    empty stack, and [cur() ?? null] turns that into [null]. *)
Module genStack.
Section genStack.
Context {T : Type}.
Variable setFunc : option T -> GLState -> GLState.

Definition cur (stack : list (option T)) : option (option T) := head stack.

Definition nullish (v : option (option T)) : option T :=
  match v with Some item => item | None => None end.

Definition push (item : option T) (s : list (option T) * GLState)
  : list (option T) * GLState :=
  (item :: fst s, setFunc item (snd s)).

Definition pop (s : list (option T) * GLState) : list (option T) * GLState :=
  let stack := tail (fst s) in
  (stack, setFunc (nullish (cur stack)) (snd s)).
End genStack.
End genStack.

Definition VertexFormat := list (string * nat).

(** The closures registered with [onDestroy]. *)
Inductive DestroyAction : Type :=
| FreeTexture (glTex : handle)
| FreeFrameBuffer.

Record GfxCtx : Type := {
  gl : GLState;
  texFilter : option Filter;                 (* opts.texFilter *)
  gc : list DestroyAction;
  curVertexFormat : option VertexFormat;
  stacks : Kind -> list (option handle);
  viewportStack : list (option Rect.t)
}.

Definition with_gl (g : GLState) (c : GfxCtx) : GfxCtx :=
  {| gl := g; texFilter := texFilter c; gc := gc c;
     curVertexFormat := curVertexFormat c; stacks := stacks c;
     viewportStack := viewportStack c |}.

Definition with_stack (k : Kind) (st : list (option handle)) (g : GLState) (c : GfxCtx)
  : GfxCtx :=
  {| gl := g; texFilter := texFilter c; gc := gc c;
     curVertexFormat := curVertexFormat c; stacks := upd k st (stacks c);
     viewportStack := viewportStack c |}.

Definition with_viewportStack (st : list (option Rect.t)) (g : GLState) (c : GfxCtx)
  : GfxCtx :=
  {| gl := g; texFilter := texFilter c; gc := gc c;
     curVertexFormat := curVertexFormat c; stacks := stacks c;
     viewportStack := st |}.

Definition with_format (f : option VertexFormat) (c : GfxCtx) : GfxCtx :=
  {| gl := gl c; texFilter := texFilter c; gc := gc c;
     curVertexFormat := f; stacks := stacks c;
     viewportStack := viewportStack c |}.

Definition onDestroy (a : DestroyAction) (c : GfxCtx) : GfxCtx :=
  {| gl := gl c; texFilter := texFilter c; gc := gc c ++ [a];
     curVertexFormat := curVertexFormat c; stacks := stacks c;
     viewportStack := viewportStack c |}.

(** The bind callbacks handed to [genStack] by [initGfx]. *)
Definition setFunc (k : Kind) (item : option handle) (g : GLState) : GLState :=
  match k, item with
  | Texture2D, Some t => gl_bind Texture2D (Some t) g
  | Texture2D, None =>
      (* t || gl.createTexture()! *)
      let '(dummy, g') := gl_create g in gl_bind Texture2D dummy g'
  | _, Some b => gl_bind k (Some b) g      (* if (b) gl.bind...(b) *)
  | _, None => g
  end.

Definition setViewport (item : option Rect.t) (g : GLState) : GLState :=
  match item with
  | None => g                               (* if (!stack) return *)
  | Some r => gl_viewport r g
  end.

Definition pushOn (k : Kind) (item : option handle) (c : GfxCtx) : GfxCtx :=
  let s := genStack.push (setFunc k) item (stacks c k, gl c) in
  with_stack k (fst s) (snd s) c.

Definition popOn (k : Kind) (c : GfxCtx) : GfxCtx :=
  let s := genStack.pop (setFunc k) (stacks c k, gl c) in
  with_stack k (fst s) (snd s) c.

Definition pushTexture2D := pushOn Texture2D.
Definition popTexture2D := popOn Texture2D.
Definition pushArrayBuffer := pushOn ArrayBuffer.
Definition popArrayBuffer := popOn ArrayBuffer.
Definition pushElementArrayBuffer := pushOn ElementArrayBuffer.
Definition popElementArrayBuffer := popOn ElementArrayBuffer.
Definition pushFramebuffer := pushOn Framebuffer.
Definition popFramebuffer := popOn Framebuffer.
Definition pushRenderbuffer := pushOn Renderbuffer.
Definition popRenderbuffer := popOn Renderbuffer.
Definition pushProgram := pushOn Program.
Definition popProgram := popOn Program.

Definition pushViewport (item : option Rect.t) (c : GfxCtx) : GfxCtx :=
  let s := genStack.push setViewport item (viewportStack c, gl c) in
  with_viewportStack (fst s) (snd s) c.

Definition popViewport (c : GfxCtx) : GfxCtx :=
  let s := genStack.pop setViewport (viewportStack c, gl c) in
  with_viewportStack (fst s) (snd s) c.

(** [fmt.reduce((sum, f) => sum + f.size, 0)] *)
Definition stride_of (fmt : VertexFormat) : nat :=
  fold_left (fun sum f => sum + snd f) fmt 0.

(** The second [reduce] of [setVertexFormat]: attribute [i] is enabled and
    pointed at byte [offset]. *)
Fixpoint enableAttribs (stride : nat) (fmt : VertexFormat) (i offset : nat) (g : GLState)
  : GLState :=
  match fmt with
  | [] => g
  | f :: rest =>
      enableAttribs stride rest (S i) (offset + snd f * 4)
        (emit (VertexAttribPointer i (snd f) (stride * 4) offset)
           (emit (EnableVertexAttribArray i) g))
  end.

(** [for (let i = fmt.length; i < maxAttribs; i++) gl.disableVertexAttribArray(i)] *)
Definition disableAttribs (from upto : nat) (g : GLState) : GLState :=
  fold_left (fun g i => emit (DisableVertexAttribArray i) g) (seq from (upto - from)) g.

(** Modelled from the spec: [deepEq] of [../utils/deepEq] is not among the
    sources; the specification gives it as "a structural-equality comparator
    for uniforms and vertex formats".  On two formats it compares the arrays
    element by element. *)
Definition setVertexFormat (fmt : VertexFormat) (c : GfxCtx) : GfxCtx :=
  if bool_decide (curVertexFormat c = Some fmt) then c
  else
    let c := with_format (Some fmt) c in
    let stride := stride_of fmt in
    let g := disableAttribs (length fmt) (MAX_VERTEX_ATTRIBS (gl c)) (gl c) in
    with_gl (enableAttribs stride fmt 0 0 g) c.

Definition initGfx (g : GLState) (texFilter : option Filter) : GfxCtx :=
  pushViewport
    (Some {| Rect.x := 0; Rect.y := 0;
            Rect.w := drawingBufferWidth g; Rect.h := drawingBufferHeight g |})
    {| gl := g; texFilter := texFilter; gc := []; curVertexFormat := None;
       stacks := fun _ => []; viewportStack := [] |}.

(** One view of the seven stacks, to talk about all of them at once. *)
Inductive StackId : Type :=
| HandleStack (k : Kind)
| ViewportStack.

#[global] Instance StackId_eq_dec : EqDecision StackId.
Proof. solve_decision. Defined.

Inductive Item : Type :=
| HandleItem (item : option handle)
| RectItem (item : option Rect.t).

(** What the driver has bound for a resource kind. *)
Inductive Resource : Type :=
| BoundHandle (item : option handle)
| ViewportRect (r : Rect.t).

Definition bound_resource (s : StackId) (c : GfxCtx) : Resource :=
  match s with
  | HandleStack k => BoundHandle (bound (gl c) k)
  | ViewportStack => ViewportRect (viewport (gl c))
  end.

Definition stack_items (s : StackId) (c : GfxCtx) : list Item :=
  match s with
  | HandleStack k => map HandleItem (stacks c k)
  | ViewportStack => map RectItem (viewportStack c)
  end.

(** A call on one of the stacks. *)
Inductive StackOp : Type :=
| PushHandle (k : Kind) (item : option handle)
| PopHandle (k : Kind)
| PushRect (item : option Rect.t)
| PopRect.

Definition op_stack (o : StackOp) : StackId :=
  match o with
  | PushHandle k _ | PopHandle k => HandleStack k
  | PushRect _ | PopRect => ViewportStack
  end.

Definition run_op (o : StackOp) (c : GfxCtx) : GfxCtx :=
  match o with
  | PushHandle k item => pushOn k item c
  | PopHandle k => popOn k c
  | PushRect item => pushViewport item c
  | PopRect => popViewport c
  end.

Definition run_ops (os : list StackOp) (c : GfxCtx) : GfxCtx :=
  fold_left (fun c o => run_op o c) os c.

(* ================================================================== *)
(** ** Constructors that may throw *)
(* ================================================================== *)

(** A computation over the graphics context that either returns a value or
    throws an [Error] with a message; the context reached is kept in both
    cases, since the calls made before the [throw] are not undone. *)
Inductive Result (A : Type) : Type :=
| Ok (a : A) (c : GfxCtx)
| Throw (msg : string) (c : GfxCtx).
Arguments Ok {A} a c.
Arguments Throw {A} msg c.

Definition Ex (A : Type) : Type := GfxCtx -> Result A.

Definition ret {A : Type} (a : A) : Ex A := fun c => Ok a c.

Definition throw {A : Type} (msg : string) : Ex A := fun c => Throw msg c.

Definition and_then {A B : Type} (m : Ex A) (k : A -> Ex B) : Ex B :=
  fun c => match m c with
           | Ok a c' => k a c'
           | Throw msg c' => Throw msg c'
           end.

(** A context update that cannot fail. *)
Definition run (f : GfxCtx -> GfxCtx) : Ex unit := fun c => Ok tt (f c).

(** A driver call that cannot fail. *)
Definition call (f : GLState -> GLState) : Ex unit :=
  fun c => Ok tt (with_gl (f (gl c)) c).

Definition ask : Ex GfxCtx := fun c => Ok c c.

(** [gl.create...()] *)
Definition create : Ex (option handle) :=
  fun c => let '(r, g) := gl_create (gl c) in Ok r (with_gl g c).

Declare Scope ex_scope.
Delimit Scope ex_scope with ex.
Notation "x <- m ;; k" := (and_then m (fun x => k))
  (at level 100, m at next level, right associativity) : ex_scope.
Notation "m ;;; k" := (and_then m (fun _ => k))
  (at level 100, right associativity) : ex_scope.

Definition is_ok {A : Type} (r : Result A) : bool :=
  match r with Ok _ _ => true | Throw _ _ => false end.

(** A driver call outside a constructor. *)
Definition gl_do (e : GLCall) (c : GfxCtx) : GfxCtx := with_gl (emit e (gl c)) c.

(* ================================================================== *)
(** ** Texture *)
(* ================================================================== *)

Inductive PixelData : Type :=
| RawPixels (bytes : list Z)
| LazyPixels (decode : unit -> list Z).

Module ImageSource.
Record t : Type := { width : Z; height : Z; data : PixelData }.
End ImageSource.

Module TextureOpt.
Record t : Type := { filter : option Filter; wrap : option Wrap }.
End TextureOpt.

(** [if (n)] on a number: zero is falsy. *)
Definition truthy (n : Z) : bool := negb (n =? 0)%Z.

(** A [Texture] object.  Every object gets its own [glTex] from the driver in
    the constructor and the field is never assigned again, so two [Texture]
    values denote the same object exactly when their [glTex] agree; that is
    how [===] on textures is read ([same] below). *)
Module Texture.

Record t : Type := {
  src : option ImageSource.t;
  glTex : handle;
  width : Z;
  height : Z;
  _allocated : bool
}.

Definition set_allocated (b : bool) (this : t) : t :=
  {| src := src this; glTex := glTex this; width := width this;
     height := height this; _allocated := b |}.

Definition set_src (s : option ImageSource.t) (this : t) : t :=
  {| src := s; glTex := glTex this; width := width this;
     height := height this; _allocated := _allocated this |}.

Definition bind (this : t) (c : GfxCtx) : GfxCtx := pushTexture2D (Some (glTex this)) c.

Definition unbind (this : t) (c : GfxCtx) : GfxCtx := popTexture2D c.

Definition constructor (w h : Z) (opt : TextureOpt.t) : Ex t :=
  (glText <- create ;;
   match glText with
   | None => throw "[rendering] Failed to create texture"
   | Some glText =>
       run (onDestroy (FreeTexture glText)) ;;;
       ctx <- ask ;;
       let this :=
         {| src := None; glTex := glText; width := w; height := h;
            _allocated := false |} in
       let filter :=
         match TextureOpt.filter opt with
         | Some f => f
         | None => match texFilter ctx with Some f => f | None => NEAREST end
         end in
       let wrap :=
         match TextureOpt.wrap opt with Some v => v | None => CLAMP_TO_EDGE end in
       run (bind this) ;;;
       this <- (if truthy w && truthy h
                then call (emit (TexImage2D w h)) ;;; ret (set_allocated true this)
                else ret this) ;;
       call (emit (TexParameteri (TEXTURE_MIN_FILTER filter))) ;;;
       call (emit (TexParameteri (TEXTURE_MAG_FILTER filter))) ;;;
       call (emit (TexParameteri (TEXTURE_WRAP_S wrap))) ;;;
       call (emit (TexParameteri (TEXTURE_WRAP_T wrap))) ;;;
       call (emit PixelStorei) ;;;
       run (unbind this) ;;;
       ret this
   end)%ex.

Definition update (img : ImageSource.t) (x y : Z) (this : t) (c : GfxCtx) : t * GfxCtx :=
  let c := bind this c in
  let '(this, c) :=
    if _allocated this then (this, c)
    else (set_allocated true this,
          gl_do (TexImage2D (ImageSource.width img) (ImageSource.height img)) c) in
  let data :=
    match ImageSource.data img with
    | LazyPixels decode => decode tt
    | RawPixels bytes => bytes
    end in
  let c :=
    gl_do (TexSubImage2D x y (ImageSource.width img) (ImageSource.height img) data) c in
  (this, unbind this c).

Definition fromImage (img : ImageSource.t) (opt : TextureOpt.t) : Ex t :=
  (tex <- constructor (ImageSource.width img) (ImageSource.height img) opt ;;
   fun c => let '(tex, c) := update img 0 0 tex c in
            Ok (set_src (Some img) tex) c)%ex.

Definition free (this : t) (c : GfxCtx) : GfxCtx :=
  gl_do (Delete (Some (glTex this))) c.

(** [a === b] on [Texture | null]. *)
Definition same (a b : option t) : bool :=
  match a, b with
  | None, None => true
  | Some a, Some b => Nat.eqb (glTex a) (glTex b)
  | _, _ => false
  end.

End Texture.

(* ================================================================== *)
(** ** Mesh *)
(* ================================================================== *)

Definition TRIANGLES : GLenum := 4%Z.

Module Mesh.

(** [glIBuf] is declared [WebGLBuffer], but it is assigned
    [gl.createBuffer()!], and the non-null assertion is erased when the
    code runs: the field holds whatever the driver returned. *)
Record t : Type := {
  glVBuf : handle;
  glIBuf : option handle;
  vertexFormat : VertexFormat;
  count : nat
}.

Definition constructor (format : VertexFormat) (vertices indices : list number) : Ex t :=
  (glVBuf <- create ;;
   match glVBuf with
   | None => throw "Failed to create vertex buffer"
   | Some glVBuf =>
       run (pushArrayBuffer (Some glVBuf)) ;;;
       call (gl_bufferData ArrayBuffer (length vertices * 4)) ;;;
       run popArrayBuffer ;;;
       glIBuf <- create ;;
       run (pushElementArrayBuffer glIBuf) ;;;
       call (gl_bufferData ElementArrayBuffer (length indices * 2)) ;;;
       run popElementArrayBuffer ;;;
       ret {| glVBuf := glVBuf; glIBuf := glIBuf; vertexFormat := format;
              count := length indices |}
   end)%ex.

Definition draw (primitive : option GLenum) (index : option Z) (count' : option nat)
    (this : t) (c : GfxCtx) : GfxCtx :=
  let c := pushArrayBuffer (Some (glVBuf this)) c in
  let c := pushElementArrayBuffer (glIBuf this) c in
  let c := setVertexFormat (vertexFormat this) c in
  let c := gl_do (DrawElements (default TRIANGLES primitive)
                    (default (count this) count') (default 0%Z index)) c in
  let c := popArrayBuffer c in
  popElementArrayBuffer c.

Definition free (this : t) (c : GfxCtx) : GfxCtx :=
  gl_do (Delete (glIBuf this)) (gl_do (Delete (Some (glVBuf this))) c).

End Mesh.

(* ================================================================== *)
(** ** FrameBuffer *)
(* ================================================================== *)

(** The frame buffer owns its texture, which is held here by value: a call
    [fb.tex.update(img)] is [with_tex] of the updated texture. *)
Module FrameBuffer.

Record t : Type := {
  tex : Texture.t;
  glFramebuffer : handle;
  glRenderbuffer : handle;
  _attached : bool
}.

Definition set_attached (b : bool) (this : t) : t :=
  {| tex := tex this; glFramebuffer := glFramebuffer this;
     glRenderbuffer := glRenderbuffer this; _attached := b |}.

Definition with_tex (tx : Texture.t) (this : t) : t :=
  {| tex := tx; glFramebuffer := glFramebuffer this;
     glRenderbuffer := glRenderbuffer this; _attached := _attached this |}.

Definition width (this : t) : Z := Texture.width (tex this).
Definition height (this : t) : Z := Texture.height (tex this).

(** The attachment calls shared by the constructor and [bind]; the
    completeness check only reports on the console. *)
Definition attach (w h : Z) (this : t) (c : GfxCtx) : GfxCtx :=
  let c := gl_do (RenderbufferStorage w h) c in
  let c := gl_do (FramebufferTexture2D (Texture.glTex (tex this))) c in
  gl_do (FramebufferRenderbuffer (glRenderbuffer this)) c.

Definition bind (this : t) (c : GfxCtx) : t * GfxCtx :=
  let '(this, c) :=
    if _attached this then (this, c)
    else
      let c := with_gl (gl_bind Framebuffer (Some (glFramebuffer this)) (gl c)) c in
      let c := with_gl (gl_bind Renderbuffer (Some (glRenderbuffer this)) (gl c)) c in
      let c := attach (width this) (height this) this c in
      let c := with_gl (gl_bind Framebuffer None (gl c)) c in
      let c := with_gl (gl_bind Renderbuffer None (gl c)) c in
      (set_attached true this, c) in
  let c := pushFramebuffer (Some (glFramebuffer this)) c in
  let c := pushRenderbuffer (Some (glRenderbuffer this)) c in
  let c := pushViewport
             (Some {| Rect.x := 0; Rect.y := 0;
                      Rect.w := width this; Rect.h := height this |}) c in
  (this, c).

Definition unbind (this : t) (c : GfxCtx) : GfxCtx :=
  popViewport (popRenderbuffer (popFramebuffer c)).

Definition constructor (w h : Z) (opt : TextureOpt.t) : Ex t :=
  (run (onDestroy FreeFrameBuffer) ;;;
   tex <- Texture.constructor w h opt ;;
   frameBuffer <- create ;;
   renderBuffer <- create ;;
   match frameBuffer, renderBuffer with
   | Some frameBuffer, Some renderBuffer =>
       let this :=
         {| tex := tex; glFramebuffer := frameBuffer;
            glRenderbuffer := renderBuffer; _attached := false |} in
       if Texture._allocated tex then
         fun c =>
           let '(this, c) := bind this c in
           let c := attach w h this c in
           let c := unbind this c in
           Ok (set_attached true this) c
       else ret this
   | _, _ => throw "Failed to create framebuffer"
   end)%ex.

Definition draw (action : GfxCtx -> GfxCtx) (this : t) (c : GfxCtx) : t * GfxCtx :=
  let '(this, c) := bind this c in
  let c := action c in
  (this, unbind this c).

Definition free (this : t) (c : GfxCtx) : GfxCtx :=
  Texture.free (tex this)
    (gl_do (Delete (Some (glRenderbuffer this)))
       (gl_do (Delete (Some (glFramebuffer this))) c)).

End FrameBuffer.

(* ================================================================== *)
(** ** BatchRenderer *)
(* ================================================================== *)

Module BlendMode.
Inductive t : Type := Normal | Add | Multiply | Screen | Overlay.

#[global] Instance eq_dec : EqDecision t.
Proof. solve_decision. Defined.
End BlendMode.

(** Modelled from the spec: the shader class of [../assets/shader] is not
    among the sources.  The specification gives it as "a shader object
    exposing bind/unbind/send(uniformObject)"; an object is its identity
    [ref], and its three methods are recorded as calls. *)
Module Shader.
Record t : Type := { ref : nat }.

Definition same (a b : option t) : bool :=
  match a, b with
  | None, None => true
  | Some a, Some b => Nat.eqb (ref a) (ref b)
  | _, _ => false
  end.
End Shader.

(** A uniform object: a JavaScript object used as a map from uniform names
    to values (numbers, vectors, colours and matrices, all flattened to
    their components), with the identity [ref] of the object. *)
Module Uniform.
Record t : Type := { ref : nat; fields : gmap string (list number) }.

(** [a == b] on [Uniform | null | undefined]: the same object, or both
    absent. *)
Definition same (a b : option t) : bool :=
  match a, b with
  | None, None => true
  | Some a, Some b => Nat.eqb (ref a) (ref b)
  | _, _ => false
  end.

(** Modelled from the spec: [deepEq] of [../utils/deepEq] is not among the
    sources.  The specification gives it as "a structural-equality
    comparator for uniforms": an object equals itself, and two objects are
    equal when they have the same keys with equal values. *)
Definition deepEq (a b : option t) : bool :=
  match a, b with
  | None, None => true
  | Some a, Some b => Nat.eqb (ref a) (ref b) || bool_decide (fields a = fields b)
  | _, _ => false
  end.
End Uniform.

(** The recording target of [../gfx/draw/drawPicture], as far as [push]
    reads and writes it: the material literal built by [push], a command
    [{ material, index, count }], and the three arrays of a picture. *)
Module Picture.

Record Material : Type := {
  tex : option Texture.t;
  shader : Shader.t;
  uniform : option Uniform.t;
  blend : BlendMode.t
}.

Record Command : Type := { material : Material; index : nat; count : nat }.

Record t : Type := {
  vertices : list number;
  indices : list number;
  commands : list Command
}.

(** The four [==] comparisons of [push] on two materials. *)
Definition same_material (a b : Material) : bool :=
  Texture.same (tex a) (tex b)
  && Nat.eqb (Shader.ref (shader a)) (Shader.ref (shader b))
  && Uniform.same (uniform a) (uniform b)
  && bool_decide (blend a = blend b).

Definition add_count (n : nat) (cmd : Command) : Command :=
  {| material := material cmd; index := index cmd; count := count cmd + n |}.

End Picture.

Module BatchRenderer.

(** Method entries, kept only to observe which calls [push] makes. *)
Inductive Entered : Type :=
| EnterFlush (width height : Z)
| EnterSetBlend (blend : BlendMode.t).

Record t : Type := {
  glVBuf : handle;
  glIBuf : handle;
  vqueue : list number;
  iqueue : list number;
  stride : nat;
  maxVertices : nat;
  maxIndices : nat;
  vertexFormat : VertexFormat;
  numDraws : nat;
  curPrimitive : option GLenum;
  curTex : option Texture.t;
  curShader : option Shader.t;
  curUniform : option Uniform.t;
  curBlend : BlendMode.t;
  curFixed : option bool;
  picture : option Picture.t;
  entered : list Entered          (* not a field of the class: the entry log *)
}.

Definition enter (e : Entered) (r : t) : t :=
  {| glVBuf := glVBuf r; glIBuf := glIBuf r; vqueue := vqueue r; iqueue := iqueue r;
     stride := stride r; maxVertices := maxVertices r; maxIndices := maxIndices r;
     vertexFormat := vertexFormat r; numDraws := numDraws r;
     curPrimitive := curPrimitive r; curTex := curTex r; curShader := curShader r;
     curUniform := curUniform r; curBlend := curBlend r; curFixed := curFixed r;
     picture := picture r; entered := entered r ++ [e] |}.

Definition set_curBlend (b : BlendMode.t) (r : t) : t :=
  {| glVBuf := glVBuf r; glIBuf := glIBuf r; vqueue := vqueue r; iqueue := iqueue r;
     stride := stride r; maxVertices := maxVertices r; maxIndices := maxIndices r;
     vertexFormat := vertexFormat r; numDraws := numDraws r;
     curPrimitive := curPrimitive r; curTex := curTex r; curShader := curShader r;
     curUniform := curUniform r; curBlend := b; curFixed := curFixed r;
     picture := picture r; entered := entered r |}.

Definition set_picture (p : option Picture.t) (r : t) : t :=
  {| glVBuf := glVBuf r; glIBuf := glIBuf r; vqueue := vqueue r; iqueue := iqueue r;
     stride := stride r; maxVertices := maxVertices r; maxIndices := maxIndices r;
     vertexFormat := vertexFormat r; numDraws := numDraws r;
     curPrimitive := curPrimitive r; curTex := curTex r; curShader := curShader r;
     curUniform := curUniform r; curBlend := curBlend r; curFixed := curFixed r;
     picture := p; entered := entered r |}.

(** [this.vqueue.length = 0; this.iqueue.length = 0; this.numDraws++] *)
Definition reset_queues (r : t) : t :=
  {| glVBuf := glVBuf r; glIBuf := glIBuf r; vqueue := []; iqueue := [];
     stride := stride r; maxVertices := maxVertices r; maxIndices := maxIndices r;
     vertexFormat := vertexFormat r; numDraws := S (numDraws r);
     curPrimitive := curPrimitive r; curTex := curTex r; curShader := curShader r;
     curUniform := curUniform r; curBlend := curBlend r; curFixed := curFixed r;
     picture := picture r; entered := entered r |}.

Definition constructor (format : VertexFormat) (maxVertices maxIndices : nat) : Ex t :=
  (glVBuf <- create ;;
   match glVBuf with
   | None => throw "Failed to create vertex buffer"
   | Some glVBuf =>
       run (pushArrayBuffer (Some glVBuf)) ;;;
       call (gl_bufferData ArrayBuffer (maxVertices * 4)) ;;;
       run popArrayBuffer ;;;
       glIBuf <- create ;;
       match glIBuf with
       | None => throw "Failed to create index buffer"
       | Some glIBuf =>
           run (pushElementArrayBuffer (Some glIBuf)) ;;;
           call (gl_bufferData ElementArrayBuffer (maxIndices * 2)) ;;;
           run popElementArrayBuffer ;;;
           ret {| glVBuf := glVBuf; glIBuf := glIBuf; vqueue := []; iqueue := [];
                  stride := stride_of format;
                  maxVertices := maxVertices; maxIndices := maxIndices;
                  vertexFormat := format; numDraws := 0;
                  curPrimitive := None; curTex := None; curShader := None;
                  curUniform := None; curBlend := BlendMode.Normal; curFixed := None;
                  picture := None; entered := [] |}
       end
   end)%ex.

(** [!this.curPrimitive]: [null] and the enum value 0 are both falsy. *)
Definition no_primitive (p : option GLenum) : bool :=
  match p with
  | None => true
  | Some v => (v =? 0)%Z
  end.

Definition too_small (size : option nat) (required : nat) : bool :=
  match size with
  | Some n => n <? required           (* size !== null && size < required *)
  | None => false
  end.

(** The first half of [flush], up to the buffer-size check: bind and fill
    the two buffers, set the vertex format, bind the shader and send the
    uniforms, bind the texture. *)
Definition bind_and_upload (width height : Z) (shader : Shader.t) (r : t) (c : GfxCtx)
  : GfxCtx :=
  let c := pushArrayBuffer (Some (glVBuf r)) c in
  let c := gl_do (BufferSubData ArrayBuffer (vqueue r)) c in
  let c := pushElementArrayBuffer (Some (glIBuf r)) c in
  let c := gl_do (BufferSubData ElementArrayBuffer (iqueue r)) c in
  let c := setVertexFormat (vertexFormat r) c in
  let c := gl_do (ShaderBind (Shader.ref shader)) c in
  let c := match curUniform r with
           | Some u => gl_do (ShaderSend (Uniform.ref u)) c
           | None => c
           end in
  let c := gl_do (ShaderSendSystem width height
                    (match curFixed r with Some true => true | _ => false end)) c in
  match curTex r with
  | Some tx => Texture.bind tx c
  | None => c
  end.

(** The second half of [flush]: the draw call and the unbinding. *)
Definition draw_and_unbind (shader : Shader.t) (r : t) (c : GfxCtx) : GfxCtx :=
  let c := gl_do (DrawElements (default 0%Z (curPrimitive r)) (length (iqueue r)) 0) c in
  let c := match curTex r with
           | Some tx => Texture.unbind tx c
           | None => c
           end in
  let c := gl_do (ShaderUnbind (Shader.ref shader)) c in
  let c := popArrayBuffer c in
  popElementArrayBuffer c.

(** The [getError] probes of [flush] only write to the console and are left
    out. *)
Definition flush (width height : Z) (s : t * GfxCtx) : t * GfxCtx :=
  let r := enter (EnterFlush width height) (fst s) in
  let c := snd s in
  match curShader r with
  | None => (r, c)
  | Some shader =>
      if no_primitive (curPrimitive r)
         || bool_decide (length (vqueue r) = 0)
         || bool_decide (length (iqueue r) = 0)
      then (r, c)
      else
        let c := bind_and_upload width height shader r c in
        let arrayBufSize := gl_getBufferParameter ArrayBuffer (gl c) in
        let elemBufSize := gl_getBufferParameter ElementArrayBuffer (gl c) in
        let requiredArrayBytes := length (vqueue r) * 4 in
        let requiredElemBytes := length (iqueue r) * 2 in
        if too_small arrayBufSize requiredArrayBytes
           || too_small elemBufSize requiredElemBytes
        then
          let c := popArrayBuffer c in
          let c := popElementArrayBuffer c in
          (r, c)
        else (reset_queues r, draw_and_unbind shader r c)
  end.

Definition setBlend (blend : BlendMode.t) (s : t * GfxCtx) : t * GfxCtx :=
  let r := enter (EnterSetBlend blend) (fst s) in
  let c := snd s in
  if bool_decide (blend <> curBlend r) then
    let r := set_curBlend blend r in
    let g := gl c in
    let g :=
      match curBlend r with
      | BlendMode.Normal =>
          gl_blendFuncSeparate ONE ONE_MINUS_SRC_ALPHA ONE ONE_MINUS_SRC_ALPHA g
      | BlendMode.Add =>
          gl_blendFuncSeparate ONE ONE ONE ONE_MINUS_SRC_ALPHA g
      | BlendMode.Multiply =>
          gl_blendFuncSeparate DST_COLOR ZERO ONE ONE_MINUS_SRC_ALPHA g
      | BlendMode.Screen =>
          gl_blendFuncSeparate ONE_MINUS_DST_COLOR ONE ONE ONE_MINUS_SRC_ALPHA g
      | BlendMode.Overlay =>
          gl_blendFuncSeparate DST_COLOR ONE_MINUS_SRC_ALPHA ONE ONE_MINUS_SRC_ALPHA g
      end in
    (r, with_gl g c)
  else (r, c).

(** The branch of [push] taken while a picture is recorded. *)
Definition record (vertices indices : list number) (shader : Shader.t)
    (tex : option Texture.t) (uniform : option Uniform.t) (blend : BlendMode.t)
    (stride : nat) (p : Picture.t) : Picture.t :=
  let index := length (Picture.indices p) in
  let count := length indices in
  let indexOffset := JsNum.div (length (Picture.vertices p)) stride in
  let vertices' := Picture.vertices p ++ vertices in
  let indices' := Picture.indices p ++ map (fun i => JsNum.add i indexOffset) indices in
  let material :=
    {| Picture.tex := tex; Picture.shader := shader;
       Picture.uniform := uniform; Picture.blend := blend |} in
  let command :=
    {| Picture.material := material; Picture.index := index; Picture.count := count |} in
  let commands' :=
    match last (Picture.commands p) with
    | Some lastCommand =>
        if Picture.same_material (Picture.material lastCommand) material
        then removelast (Picture.commands p) ++ [Picture.add_count count lastCommand]
        else Picture.commands p ++ [command]
    | None => Picture.commands p ++ [command]
    end in
  {| Picture.vertices := vertices'; Picture.indices := indices';
     Picture.commands := commands' |}.

(** The condition of the [if] in the live branch of [push]. *)
Definition must_flush (primitive : GLenum) (vertices indices : list number)
    (shader : Shader.t) (tex : option Texture.t) (uniform : option Uniform.t)
    (blend : BlendMode.t) (fixed : bool) (r : t) : bool :=
  negb (bool_decide (Some primitive = curPrimitive r))
  || negb (Texture.same tex (curTex r))
  || negb (Shader.same (Some shader) (curShader r))
  || (negb (Uniform.same (curUniform r) uniform)
      && negb (Uniform.deepEq (curUniform r) uniform))
  || negb (bool_decide (blend = curBlend r))
  || negb (bool_decide (Some fixed = curFixed r))
  || (maxVertices r <? length (vqueue r) + length vertices)
  || (maxIndices r <? length (iqueue r) + length indices).

(** The tail of the live branch: the two copy loops and the five
    assignments. *)
Definition append (primitive : GLenum) (vertices indices : list number)
    (shader : Shader.t) (tex : option Texture.t) (uniform : option Uniform.t)
    (fixed : bool) (r : t) : t :=
  let indexOffset := JsNum.div (length (vqueue r)) (stride r) in
  {| glVBuf := glVBuf r; glIBuf := glIBuf r;
     vqueue := vqueue r ++ vertices;
     iqueue := iqueue r ++ map (fun i => JsNum.add i indexOffset) indices;
     stride := stride r; maxVertices := maxVertices r; maxIndices := maxIndices r;
     vertexFormat := vertexFormat r; numDraws := numDraws r;
     curPrimitive := Some primitive; curTex := tex; curShader := Some shader;
     curUniform := uniform; curBlend := curBlend r; curFixed := Some fixed;
     picture := picture r; entered := entered r |}.

Definition push (primitive : GLenum) (vertices indices : list number)
    (shader : Shader.t) (tex : option Texture.t) (uniform : option Uniform.t)
    (blend : BlendMode.t) (width height : Z) (fixed : bool)
    (s : t * GfxCtx) : t * GfxCtx :=
  match picture (fst s) with
  | Some p =>
      (set_picture
         (Some (record vertices indices shader tex uniform blend (stride (fst s)) p))
         (fst s),
       snd s)
  | None =>
      let s :=
        if must_flush primitive vertices indices shader tex uniform blend fixed (fst s)
        then setBlend blend (flush width height s)
        else s in
      (append primitive vertices indices shader tex uniform fixed (fst s), snd s)
  end.

Definition free (r : t) (c : GfxCtx) : GfxCtx :=
  gl_do (Delete (Some (glIBuf r))) (gl_do (Delete (Some (glVBuf r))) c).

(** The arguments of one [push] call. *)
Record Submission : Type := {
  primitive : GLenum;
  vertices : list number;
  indices : list number;
  shader : Shader.t;
  tex : option Texture.t;
  uniform : option Uniform.t;
  blend : BlendMode.t;
  width : Z;
  height : Z;
  fixed : bool
}.

Definition submit (a : Submission) (s : t * GfxCtx) : t * GfxCtx :=
  push (primitive a) (vertices a) (indices a) (shader a) (tex a) (uniform a)
    (blend a) (width a) (height a) (fixed a) s.

Definition submit_all (l : list Submission) (s : t * GfxCtx) : t * GfxCtx :=
  fold_left (fun s a => submit a s) l s.

Definition is_flush (e : Entered) : bool :=
  match e with EnterFlush _ _ => true | EnterSetBlend _ => false end.

(** How many times [flush] has been entered. *)
Definition flush_calls (r : t) : nat :=
  length (List.filter is_flush (entered r)).

End BatchRenderer.


(* ================================================================== *)
(** ** Notions used by the properties *)
(* ================================================================== *)

Definition is_push (o : StackOp) : bool :=
  match o with
  | PushHandle _ _ | PushRect _ => true
  | PopHandle _ | PopRect => false
  end.

Definition pop_op (s : StackId) : StackOp :=
  match s with
  | HandleStack k => PopHandle k
  | ViewportStack => PopRect
  end.

(** The stack is not empty, its top is an object (not [null]), and that
    object is what the driver has bound. *)
Definition settled (s : StackId) (c : GfxCtx) : bool :=
  match s with
  | HandleStack k =>
      match stacks c k with
      | Some top :: _ => bool_decide (bound (gl c) k = Some top)
      | _ => false
      end
  | ViewportStack =>
      match viewportStack c with
      | Some top :: _ => bool_decide (viewport (gl c) = top)
      | _ => false
      end
  end.

(** [push] on stack [op_stack o], then calls [others], then [pop] on the
    same stack. *)
Definition push_then_pop (o : StackOp) (others : list StackOp) (c : GfxCtx) : GfxCtx :=
  run_op (pop_op (op_stack o)) (run_ops others (run_op o c)).

Definition is_storage_allocation (e : GLCall) : bool :=
  match e with TexImage2D _ _ => true | _ => false end.

(** The [texImage2D] calls issued so far. *)
Definition storage_allocations (c : GfxCtx) : list GLCall :=
  List.filter is_storage_allocation (calls (gl c)).


(** The table of section 6 of the specification:
    (srcRGB, dstRGB, srcAlpha, dstAlpha) per mode. *)
Definition blend_table (m : BlendMode.t) : Factor * Factor * Factor * Factor :=
  match m with
  | BlendMode.Normal => (ONE, ONE_MINUS_SRC_ALPHA, ONE, ONE_MINUS_SRC_ALPHA)
  | BlendMode.Add => (ONE, ONE, ONE, ONE_MINUS_SRC_ALPHA)
  | BlendMode.Multiply => (DST_COLOR, ZERO, ONE, ONE_MINUS_SRC_ALPHA)
  | BlendMode.Screen => (ONE_MINUS_DST_COLOR, ONE, ONE, ONE_MINUS_SRC_ALPHA)
  | BlendMode.Overlay => (DST_COLOR, ONE_MINUS_SRC_ALPHA, ONE, ONE_MINUS_SRC_ALPHA)
  end.

(** The [blendFuncSeparate] call with the four factors of a table row. *)
Definition blend_call (row : Factor * Factor * Factor * Factor) : GLCall :=
  let '(srcRGB, dstRGB, srcAlpha, dstAlpha) := row in
  BlendFuncSeparate srcRGB dstRGB srcAlpha dstAlpha.

(** The material tuple of the specification and its equality: texture and
    shader by identity, uniform by deep value, primitive, blend and fixed by
    value. *)
Definition same_tuple (a b : BatchRenderer.Submission) : bool :=
  bool_decide (BatchRenderer.primitive a = BatchRenderer.primitive b)
  && Texture.same (BatchRenderer.tex a) (BatchRenderer.tex b)
  && Shader.same (Some (BatchRenderer.shader a)) (Some (BatchRenderer.shader b))
  && Uniform.deepEq (BatchRenderer.uniform a) (BatchRenderer.uniform b)
  && bool_decide (BatchRenderer.blend a = BatchRenderer.blend b)
  && bool_decide (BatchRenderer.fixed a = BatchRenderer.fixed b).

(** Appending the submission keeps both queues within the maxima. *)
Definition fits (a : BatchRenderer.Submission) (r : BatchRenderer.t) : Prop :=
  length (BatchRenderer.vqueue r) + length (BatchRenderer.vertices a)
    <= BatchRenderer.maxVertices r
  /\ length (BatchRenderer.iqueue r) + length (BatchRenderer.indices a)
    <= BatchRenderer.maxIndices r.

(** The material that the recording branch of [push] stores. *)
Definition recorded_material (a : BatchRenderer.Submission) : Picture.Material :=
  {| Picture.tex := BatchRenderer.tex a; Picture.shader := BatchRenderer.shader a;
     Picture.uniform := BatchRenderer.uniform a; Picture.blend := BatchRenderer.blend a |}.

Definition index_count (l : list BatchRenderer.Submission) : nat :=
  sum_list (map (fun a => length (BatchRenderer.indices a)) l).

(** A submission that a fresh renderer of the given capacity can take
    without losing track of its queue: it fits on its own, its primitive is
    not the enum value 0, and it brings indices exactly when it brings
    vertices. *)
Definition admissible (maxVertices maxIndices : nat) (a : BatchRenderer.Submission) : Prop :=
  length (BatchRenderer.vertices a) <= maxVertices
  /\ length (BatchRenderer.indices a) <= maxIndices
  /\ BatchRenderer.primitive a <> 0%Z
  /\ (BatchRenderer.vertices a = [] <-> BatchRenderer.indices a = []).

(** [c'] has the same stack [s], and the same resource bound for it, as [c]. *)
Definition agree_on (s : StackId) (c c' : GfxCtx) : Prop :=
  bound_resource s c' = bound_resource s c
  /\ match s with
     | HandleStack k => stacks c' k = stacks c k
     | ViewportStack => viewportStack c' = viewportStack c
     end.

(** The context in which a buffer constructor asks for its index buffer:
    after the vertex buffer [vb] was bound, sized and unbound. *)
Definition after_vertex_buffer (vb : handle) (bytes : nat) (g1 : GLState) (c : GfxCtx)
  : GfxCtx :=
  let c := pushArrayBuffer (Some vb) (with_gl g1 c) in
  popArrayBuffer (with_gl (gl_bufferData ArrayBuffer bytes (gl c)) c).

(** [c'] has the same array and element-array buffer bound as [c], and the
    same buffer sizes. *)
Definition same_buffers (c c' : GfxCtx) : Prop :=
  bound (gl c') ArrayBuffer = bound (gl c) ArrayBuffer
  /\ bound (gl c') ElementArrayBuffer = bound (gl c) ElementArrayBuffer
  /\ bufferSize (gl c') = bufferSize (gl c).

(** The state of a renderer whose queues are under control: live, within
    the maxima, holding indices exactly when it holds vertices, with a usable
    current material when it holds anything, and with its two buffers sized
    to the maxima. *)
Definition tracked (maxVertices maxIndices : nat) (s : BatchRenderer.t * GfxCtx) : Prop :=
  let r := fst s in
  BatchRenderer.picture r = None
  /\ BatchRenderer.maxVertices r = maxVertices
  /\ BatchRenderer.maxIndices r = maxIndices
  /\ length (BatchRenderer.vqueue r) <= maxVertices
  /\ length (BatchRenderer.iqueue r) <= maxIndices
  /\ (BatchRenderer.vqueue r = [] <-> BatchRenderer.iqueue r = [])
  /\ (BatchRenderer.vqueue r <> [] ->
      BatchRenderer.no_primitive (BatchRenderer.curPrimitive r) = false
      /\ BatchRenderer.curShader r <> None)
  /\ bufferSize (gl (snd s)) (BatchRenderer.glVBuf r) = maxVertices * 4
  /\ bufferSize (gl (snd s)) (BatchRenderer.glIBuf r) = maxIndices * 2.

(* ================================================================== *)
(** ** The rest of the two files: notions for their properties *)
(* ================================================================== *)

(** One pass of the loop of [FrameBuffer.toImageData] that turns the rows
    read bottom-up into rows top-down: row [y] goes to [temp], row
    [height - y - 1] is copied over row [y] ([copyWithin]), and [temp] is
    written over row [height - y - 1] ([set]).  [data] is the buffer of
    [width * height * 4] bytes that the method allocates and [readPixels]
    fills, so every range below lies inside it. *)
Definition swapRows (bytesPerRow height : nat) (data : list Z) (y : nat) : list Z :=
  let topOffset := y * bytesPerRow in
  let bottomOffset := (height - y - 1) * bytesPerRow in
  let temp := take bytesPerRow (drop topOffset data) in
  let data :=
    take topOffset data
    ++ take bytesPerRow (drop bottomOffset data)
    ++ drop (topOffset + bytesPerRow) data in
  take bottomOffset data ++ temp ++ drop (bottomOffset + bytesPerRow) data.

(** [for (let y = 0; y < (this.height / 2 | 0); y++) ...] with
    [bytesPerRow = this.width * 4]. *)
Definition flipRows (width height : nat) (data : list Z) : list Z :=
  fold_left (swapRows (width * 4) height) (seq 0 (height / 2)) data.

(** All seven stacks of [c'] hold what they hold in [c]. *)
Definition same_stacks (c c' : GfxCtx) : Prop :=
  (forall k, stacks c' k = stacks c k) /\ viewportStack c' = viewportStack c.

Definition is_draw (e : GLCall) : bool :=
  match e with DrawElements _ _ _ => true | _ => false end.

(** The [drawElements] calls issued so far. *)
Definition draw_calls (c : GfxCtx) : list GLCall :=
  List.filter is_draw (calls (gl c)).







(** Byte offset of attribute [i] in a tightly packed vertex of 32-bit
    floats: four times the sizes of the attributes before it. *)
Definition attrib_offset (fmt : VertexFormat) (i : nat) : nat :=
  sum_list (map snd (take i fmt)) * 4.

(** The calls that enable and point the attributes of [fmt]: attribute [j]
    has the size of entry [j], the stride of the whole vertex in bytes, and
    its byte offset in the vertex. *)
Definition layout_calls (fmt : VertexFormat) : list GLCall :=
  concat
    (imap (fun j f =>
             [EnableVertexAttribArray j;
              VertexAttribPointer j (snd f) (sum_list (map snd fmt) * 4)
                (attrib_offset fmt j)])
       fmt).

(** Every submission of the list has the same material tuple as the one
    before it, starting from [a]. *)
Fixpoint same_tuple_chain (a : BatchRenderer.Submission)
    (l : list BatchRenderer.Submission) : Prop :=
  match l with
  | [] => True
  | b :: l' => same_tuple a b = true /\ same_tuple_chain b l'
  end.

(** The commands of a picture tile its index array: each command starts
    where the one before it ends, and the last one ends at the end. *)
Fixpoint commands_tile (from : nat) (cmds : list Picture.Command) (upto : nat) : Prop :=
  match cmds with
  | [] => from = upto
  | cmd :: rest =>
      Picture.index cmd = from
      /\ commands_tile (from + Picture.count cmd) rest upto
  end.

(* ================================================================== *)
(** ** Concrete values for the examples *)
(* ================================================================== *)

(** A driver that has handed out nothing yet, on a 640 x 480 canvas. *)
Definition gl0 : GLState :=
  {| next_handle := 1; alloc_script := [];
     bound := fun _ => None;
     viewport := {| Rect.x := 0; Rect.y := 0; Rect.w := 640; Rect.h := 480 |};
     blendFunc := (ONE, ZERO, ONE, ZERO);
     bufferSize := fun _ => 0;
     MAX_VERTEX_ATTRIBS := 16;
     drawingBufferWidth := 640; drawingBufferHeight := 480;
     calls := [] |}.

Definition ctx0 : GfxCtx := initGfx gl0 None.

(** The fresh context after one [gl.create...()] call, which returned 1. *)
Definition ctx_with_handle : GfxCtx := with_gl (snd (gl_create (gl ctx0))) ctx0.

Definition rect4x4 : Rect.t := {| Rect.x := 0; Rect.y := 0; Rect.w := 4; Rect.h := 4 |}.

(** The same driver, about to accept one allocation and refuse the next. *)
Definition ctx_refusing_second : GfxCtx :=
  initGfx (set_allocator 1 [true; false] gl0) None.

Definition opt0 : TextureOpt.t := {| TextureOpt.filter := None; TextureOpt.wrap := None |}.

Definition img2x2 : ImageSource.t :=
  {| ImageSource.width := 2; ImageSource.height := 2;
     ImageSource.data := RawPixels (repeat 255%Z 16) |}.

Definition format0 : VertexFormat := [("a_pos"%string, 2)].

Definition shader0 : Shader.t := {| Shader.ref := 1 |}.

Definition uniformA : Uniform.t :=
  {| Uniform.ref := 1; Uniform.fields := {[ "u_time"%string := [int 3] ]} |}.

(** Another object with the same content as [uniformA]. *)
Definition uniformB : Uniform.t :=
  {| Uniform.ref := 2; Uniform.fields := {[ "u_time"%string := [int 3] ]} |}.

(** One vertex of two components and one index. *)
Definition point_sub (primitive : GLenum) (u : option Uniform.t) : BatchRenderer.Submission :=
  {| BatchRenderer.primitive := primitive;
     BatchRenderer.vertices := [int 0; int 0];
     BatchRenderer.indices := [int 0];
     BatchRenderer.shader := shader0;
     BatchRenderer.tex := None;
     BatchRenderer.uniform := u;
     BatchRenderer.blend := BlendMode.Normal;
     BatchRenderer.width := 640; BatchRenderer.height := 480;
     BatchRenderer.fixed := false |}.

(** A renderer for [format0] with room for [maxVertices] floats and
    [maxIndices] indices, on the fresh context. *)
Definition renderer0 (maxVertices maxIndices : nat) : BatchRenderer.t * GfxCtx :=
  match BatchRenderer.constructor format0 maxVertices maxIndices ctx0 with
  | Ok r c => (r, c)
  | Throw _ c =>
      ({| BatchRenderer.glVBuf := 0; BatchRenderer.glIBuf := 0;
          BatchRenderer.vqueue := []; BatchRenderer.iqueue := [];
          BatchRenderer.stride := 0;
          BatchRenderer.maxVertices := 0; BatchRenderer.maxIndices := 0;
          BatchRenderer.vertexFormat := []; BatchRenderer.numDraws := 0;
          BatchRenderer.curPrimitive := None; BatchRenderer.curTex := None;
          BatchRenderer.curShader := None; BatchRenderer.curUniform := None;
          BatchRenderer.curBlend := BlendMode.Normal; BatchRenderer.curFixed := None;
          BatchRenderer.picture := None; BatchRenderer.entered := [] |}, c)
  end.

(** [renderer0 8 8] after one, and after two, pushes of a point. *)
Abbreviation one_point :=
  (BatchRenderer.submit (point_sub TRIANGLES None) (renderer0 8 8)) (only parsing).

Abbreviation two_points :=
  (BatchRenderer.submit (point_sub TRIANGLES None)
     (BatchRenderer.submit (point_sub TRIANGLES None) (renderer0 8 8))) (only parsing).

(** Three vertices at once: six floats and three indices. *)
Definition triangle_sub : BatchRenderer.Submission :=
  {| BatchRenderer.primitive := TRIANGLES;
     BatchRenderer.vertices := [int 0; int 0; int 1; int 0; int 0; int 1];
     BatchRenderer.indices := [int 0; int 1; int 2];
     BatchRenderer.shader := shader0;
     BatchRenderer.tex := None;
     BatchRenderer.uniform := None;
     BatchRenderer.blend := BlendMode.Normal;
     BatchRenderer.width := 640; BatchRenderer.height := 480;
     BatchRenderer.fixed := false |}.

Definition POINTS : GLenum := 0%Z.
Definition LINES : GLenum := 1%Z.

(** An action for [FrameBuffer.draw] that sets the viewport directly. *)
Definition set_small_viewport (c : GfxCtx) : GfxCtx :=
  with_gl (gl_viewport rect4x4 (gl c)) c.

Definition empty_picture : Picture.t :=
  {| Picture.vertices := []; Picture.indices := []; Picture.commands := [] |}.

(** [renderer0] with an empty picture being recorded. *)
Definition recorder0 : BatchRenderer.t * GfxCtx :=
  (BatchRenderer.set_picture (Some empty_picture) (fst (renderer0 8 8)), snd (renderer0 8 8)).

(* ================================================================== *)
(** ** The driver state under the stack callbacks *)
(* ================================================================== *)

Lemma upd_same {A B : Type} `{EqDecision A} (k : A) (v : B) (f : A -> B) :
  upd k v f k = v.
Proof. unfold upd. destruct (decide (k = k)); congruence. Qed.

Lemma upd_other {A B : Type} `{EqDecision A} (k k' : A) (v : B) (f : A -> B) :
  k <> k' -> upd k v f k' = f k'.
Proof. unfold upd. intros Hne. destruct (decide (k = k')); congruence. Qed.

Lemma gl_create_bound (g : GLState) : bound (snd (gl_create g)) = bound g.
Proof. unfold gl_create. destruct (alloc_script g) as [|[] ?]; reflexivity. Qed.

Lemma gl_create_viewport (g : GLState) : viewport (snd (gl_create g)) = viewport g.
Proof. unfold gl_create. destruct (alloc_script g) as [|[] ?]; reflexivity. Qed.

Lemma gl_create_bufferSize (g : GLState) : bufferSize (snd (gl_create g)) = bufferSize g.
Proof. unfold gl_create. destruct (alloc_script g) as [|[] ?]; reflexivity. Qed.

Lemma setFunc_bound_other (k k' : Kind) (item : option handle) (g : GLState) :
  k <> k' -> bound (setFunc k item g) k' = bound g k'.
Proof.
  intros Hne. unfold setFunc.
  destruct k, item; simpl; try reflexivity; try (apply upd_other; assumption).
  destruct (gl_create g) as [d g'] eqn:E. simpl.
  rewrite upd_other by assumption.
  change g' with (snd (d, g')). rewrite <- E. now rewrite gl_create_bound.
Qed.

Lemma setFunc_viewport (k : Kind) (item : option handle) (g : GLState) :
  viewport (setFunc k item g) = viewport g.
Proof.
  unfold setFunc. destruct k, item; simpl; try reflexivity.
  destruct (gl_create g) as [d g'] eqn:E. simpl.
  change g' with (snd (d, g')). rewrite <- E. apply gl_create_viewport.
Qed.

Lemma setFunc_bufferSize (k : Kind) (item : option handle) (g : GLState) :
  bufferSize (setFunc k item g) = bufferSize g.
Proof.
  unfold setFunc. destruct k, item; simpl; try reflexivity.
  destruct (gl_create g) as [d g'] eqn:E. simpl.
  change g' with (snd (d, g')). rewrite <- E. apply gl_create_bufferSize.
Qed.

Lemma setFunc_bound_some (k : Kind) (top : handle) (g : GLState) :
  bound (setFunc k (Some top) g) k = Some top.
Proof. destruct k; simpl; apply upd_same. Qed.

Lemma setViewport_bound (item : option Rect.t) (g : GLState) :
  bound (setViewport item g) = bound g.
Proof. destruct item; reflexivity. Qed.

(** A call on one stack leaves the other stacks, and what the driver has
    bound for them, alone. *)
Lemma run_op_other (o : StackOp) (s : StackId) (c : GfxCtx) :
  op_stack o <> s -> agree_on s c (run_op o c).
Proof.
  intros Hne. unfold agree_on.
  destruct o as [k item|k|item|], s as [k'|]; simpl in *; try congruence.
  - assert (k <> k') by congruence.
    rewrite setFunc_bound_other, upd_other by assumption. auto.
  - rewrite setFunc_viewport. auto.
  - assert (k <> k') by congruence.
    rewrite setFunc_bound_other, upd_other by assumption. auto.
  - rewrite setFunc_viewport. auto.
  - rewrite setViewport_bound. auto.
  - rewrite setViewport_bound. auto.
Qed.

Lemma run_ops_other (os : list StackOp) (s : StackId) (c : GfxCtx) :
  Forall (fun o => op_stack o <> s) os -> agree_on s c (run_ops os c).
Proof.
  intros Hos. revert c. induction Hos as [|o os Ho _ IH]; intros c; simpl.
  - split; [reflexivity | destruct s; reflexivity].
  - destruct (IH (run_op o c)) as [Hb Hs].
    destruct (run_op_other o s c Ho) as [Hb' Hs'].
    split; [congruence | destruct s; congruence].
Qed.

(* ================================================================== *)
(** ** The GPU state stacks *)
(* ================================================================== *)

(** C5 (as amended).  On a stack whose top is an object that the driver has
    bound, [push(item)] followed by [pop()] leaves the bound resource of that
    kind, and the stack, as they were before the [push]; calls on the stacks
    of other kinds in between do not change this. *)
Theorem stack_restore (o : StackOp) (others : list StackOp) (c : GfxCtx) :
  is_push o = true ->
  settled (op_stack o) c = true ->
  Forall (fun o' => op_stack o' <> op_stack o) others ->
  bound_resource (op_stack o) (push_then_pop o others c) = bound_resource (op_stack o) c
  /\ stack_items (op_stack o) (push_then_pop o others c) = stack_items (op_stack o) c.
Proof.
  intros Hpush Hset Hothers. unfold push_then_pop.
  destruct (run_ops_other others (op_stack o) (run_op o c) Hothers) as [_ Hst].
  destruct o as [k item|k|item|]; try discriminate; simpl in *.
  - rewrite Hst, upd_same. simpl.
    destruct (stacks c k) as [|[top|] rest] eqn:Hk; try discriminate.
    apply bool_decide_eq_true in Hset. simpl.
    rewrite setFunc_bound_some, upd_same. now rewrite Hset.
  - rewrite Hst. simpl.
    destruct (viewportStack c) as [|[top|] rest] eqn:Hk; try discriminate.
    apply bool_decide_eq_true in Hset. simpl. now rewrite Hset.
Qed.

Lemma stack_restore_witness :
  is_push (PushRect (Some rect4x4)) = true
  /\ settled ViewportStack ctx_with_handle = true
  /\ bound_resource ViewportStack
       (push_then_pop (PushRect (Some rect4x4))
          [PushHandle ArrayBuffer (Some 1); PopHandle ArrayBuffer] ctx_with_handle)
     = bound_resource ViewportStack ctx_with_handle
  /\ stack_items ViewportStack
       (push_then_pop (PushRect (Some rect4x4))
          [PushHandle ArrayBuffer (Some 1); PopHandle ArrayBuffer] ctx_with_handle)
     = stack_items ViewportStack ctx_with_handle.
Proof.
  split; [reflexivity|]. split; [reflexivity|].
  apply (stack_restore (PushRect (Some rect4x4))
           [PushHandle ArrayBuffer (Some 1); PopHandle ArrayBuffer] ctx_with_handle).
  - reflexivity.
  - reflexivity.
  - repeat constructor; discriminate.
Defined.

(** C5 (as stated) fails on a stack that is empty before the [push]: with
    buffer 1 created and no array buffer bound,
    [pushArrayBuffer(1); popArrayBuffer()] leaves buffer 1 bound. *)
Lemma stack_restore_fails_on_empty_stack :
  stacks ctx_with_handle ArrayBuffer = []
  /\ bound_resource (HandleStack ArrayBuffer) ctx_with_handle = BoundHandle None
  /\ bound_resource (HandleStack ArrayBuffer)
       (push_then_pop (PushHandle ArrayBuffer (Some 1)) [] ctx_with_handle)
     = BoundHandle (Some 1)
  /\ bound_resource (HandleStack ArrayBuffer)
       (push_then_pop (PushHandle ArrayBuffer (Some 1)) [] ctx_with_handle)
     <> bound_resource (HandleStack ArrayBuffer) ctx_with_handle.
Proof. repeat split; try reflexivity. discriminate. Qed.

(** What [pop] does to the driver once the top is removed: the callback on
    the new top, or on [null] when there is none. *)
Lemma popOn_gl (k : Kind) (c : GfxCtx) :
  stacks (popOn k c) k = tail (stacks c k)
  /\ gl (popOn k c) = setFunc k (genStack.nullish (head (tail (stacks c k)))) (gl c).
Proof. unfold popOn. simpl. now rewrite upd_same. Qed.

Lemma popViewport_gl (c : GfxCtx) :
  viewportStack (popViewport c) = tail (viewportStack c)
  /\ gl (popViewport c)
     = setViewport (genStack.nullish (head (tail (viewportStack c)))) (gl c).
Proof. unfold popViewport. simpl. auto. Qed.

(** [gl.createTexture()] returns [null] when the driver refuses, and
    otherwise a handle that was never handed out before. *)
Lemma gl_create_result (g : GLState) :
  fst (gl_create g)
  = (if bool_decide (head (alloc_script g) = Some false) then None
     else Some (next_handle g))
  /\ next_handle (snd (gl_create g))
     = (if bool_decide (head (alloc_script g) = Some false) then next_handle g
        else S (next_handle g)).
Proof. unfold gl_create. destruct (alloc_script g) as [|[] rest]; auto. Qed.

(** C7 (as amended).  [pop()] removes the top and invokes the bind callback
    with the new top.  When no object is left to bind, the array-buffer and
    element-array-buffer stacks (and the framebuffer, renderbuffer and
    program stacks) leave the driver untouched, the viewport stack issues no
    [viewport] call, and the texture stack asks the driver for a new texture
    and binds what it gets: [null] when the driver refuses, and otherwise a
    handle that was never handed out before. *)
Theorem pop_binds_new_top_or_default (s : StackId) (c : GfxCtx) :
  stack_items s (run_op (pop_op s) c) = tail (stack_items s c)
  /\ match s with
     | HandleStack k =>
         match head (tail (stacks c k)) with
         | Some (Some top) => gl (popOn k c) = gl_bind k (Some top) (gl c)
         | _ =>
             match k with
             | Texture2D =>
                 gl (popOn k c)
                 = gl_bind Texture2D (fst (gl_create (gl c))) (snd (gl_create (gl c)))
                 /\ bound (gl (popOn k c)) Texture2D
                    = (if bool_decide (head (alloc_script (gl c)) = Some false)
                       then None else Some (next_handle (gl c)))
                 /\ next_handle (gl (popOn k c))
                    = (if bool_decide (head (alloc_script (gl c)) = Some false)
                       then next_handle (gl c) else S (next_handle (gl c)))
             | _ => gl (popOn k c) = gl c
             end
         end
     | ViewportStack =>
         match head (tail (viewportStack c)) with
         | Some (Some top) => gl (popViewport c) = gl_viewport top (gl c)
         | _ => gl (popViewport c) = gl c
         end
     end.
Proof.
  destruct s as [k|]; cbn [pop_op run_op stack_items].
  - destruct (popOn_gl k c) as [Hs Hg]. split.
    { rewrite Hs. now destruct (stacks c k). }
    rewrite Hg. clear Hs Hg.
    assert (Hnull :
      match k with
      | Texture2D =>
          setFunc k None (gl c)
          = gl_bind Texture2D (fst (gl_create (gl c))) (snd (gl_create (gl c)))
          /\ bound (setFunc k None (gl c)) Texture2D
             = (if bool_decide (head (alloc_script (gl c)) = Some false)
                then None else Some (next_handle (gl c)))
          /\ next_handle (setFunc k None (gl c))
             = (if bool_decide (head (alloc_script (gl c)) = Some false)
                then next_handle (gl c) else S (next_handle (gl c)))
      | _ => setFunc k None (gl c) = gl c
      end).
    { destruct k; try reflexivity. simpl.
      destruct (gl_create_result (gl c)) as [Hfst Hnext].
      destruct (gl_create (gl c)) as [d g'] eqn:E. simpl in *.
      split; [reflexivity|]. split; [now rewrite upd_same | exact Hnext]. }
    destruct (head (tail (stacks c k))) as [[top|]|]; simpl; try exact Hnull.
    now destruct k.
  - destruct (popViewport_gl c) as [Hs Hg]. split.
    { rewrite Hs. now destruct (viewportStack c). }
    rewrite Hg. now destruct (head (tail (viewportStack c))) as [[top|]|].
Qed.

(** C7 (as stated) fails for the texture stack: the handle bound on an empty
    stack is not one reserved handle.  With texture 1 created, two rounds of
    [pushTexture2D(1); popTexture2D()] each end with an empty stack, the
    first with handle 2 bound and the second with handle 3. *)
Lemma texture_dummy_is_not_reserved :
  let c1 := popTexture2D (pushTexture2D (Some 1) ctx_with_handle) in
  let c2 := popTexture2D (pushTexture2D (Some 1) c1) in
  stacks c1 Texture2D = [] /\ stacks c2 Texture2D = []
  /\ bound (gl c1) Texture2D = Some 2
  /\ bound (gl c2) Texture2D = Some 3
  /\ bound (gl c1) Texture2D <> bound (gl c2) Texture2D.
Proof. repeat split; try reflexivity. discriminate. Qed.

(* ================================================================== *)
(** ** Texture storage *)
(* ================================================================== *)

Arguments setFunc : simpl never.
Arguments gl_create : simpl never.

Lemma gl_create_storage_allocations (g : GLState) :
  List.filter is_storage_allocation (calls (snd (gl_create g)))
  = List.filter is_storage_allocation (calls g).
Proof.
  unfold gl_create.
  destruct (alloc_script g) as [|[] rest]; simpl;
    rewrite List.filter_app; simpl; apply app_nil_r.
Qed.

Lemma setFunc_storage_allocations (k : Kind) (item : option handle) (g : GLState) :
  List.filter is_storage_allocation (calls (setFunc k item g))
  = List.filter is_storage_allocation (calls g).
Proof.
  assert (Hbind : forall k' it g',
             List.filter is_storage_allocation (calls (gl_bind k' it g'))
             = List.filter is_storage_allocation (calls g')).
  { intros. simpl. rewrite List.filter_app. simpl. apply app_nil_r. }
  unfold setFunc. destruct k, item; try apply Hbind; try reflexivity.
  rewrite <- (gl_create_storage_allocations g).
  destruct (gl_create g) as [d g']. apply Hbind.
Qed.

(** Rewriting the [texImage2D] calls of a context built from driver calls
    and stack operations down to those of the context it started from. *)
Ltac count_allocations :=
  unfold storage_allocations; cbn;
  repeat (rewrite ?setFunc_storage_allocations, ?List.filter_app; cbn);
  rewrite ?app_nil_r.

(** [update] allocates storage exactly when the flag is not set, with the
    size of the image, sets the flag, and assigns no other field. *)
Lemma Texture_update_effect (img : ImageSource.t) (x y : Z) (this : Texture.t) (c : GfxCtx) :
  fst (Texture.update img x y this c) = Texture.set_allocated true this
  /\ storage_allocations (snd (Texture.update img x y this c))
     = storage_allocations c
       ++ (if Texture._allocated this then []
           else [TexImage2D (ImageSource.width img) (ImageSource.height img)]).
Proof.
  unfold Texture.update.
  destruct (Texture._allocated this) eqn:Ha; split.
  - destruct this; simpl in *; now subst.
  - now count_allocations.
  - reflexivity.
  - now count_allocations.
Qed.


(** What a successful construction returns. *)
Lemma Texture_constructor_ok (w h : Z) (opt : TextureOpt.t) (c c1 : GfxCtx) (this : Texture.t) :
  Texture.constructor w h opt c = Ok this c1 ->
  fst (gl_create (gl c)) = Some (Texture.glTex this)
  /\ Texture.src this = None
  /\ Texture.width this = w /\ Texture.height this = h
  /\ Texture._allocated this = truthy w && truthy h
  /\ storage_allocations c1
     = storage_allocations c ++ (if truthy w && truthy h then [TexImage2D w h] else []).
Proof.
  unfold Texture.constructor, and_then, create, run, call, ask, ret, throw.
  pose proof (gl_create_storage_allocations (gl c)) as Hg1.
  destruct (gl_create (gl c)) as [[glText|] g1]; [|discriminate].
  simpl in Hg1.
  destruct (truthy w && truthy h); intros [= <- <-];
    (repeat split; try reflexivity); count_allocations; now rewrite Hg1.
Qed.

Lemma truthy_zero (w h : Z) : (w = 0 \/ h = 0)%Z -> truthy w && truthy h = false.
Proof. unfold truthy. intros [-> | ->]; simpl; [reflexivity | apply andb_false_r]. Qed.



(** C10.  For a texture constructed with zero width or height, the [update]
    that allocates the deferred storage does so with the dimensions of the
    image, and leaves the [width] and [height] fields at the values given to
    the constructor; the [width] and [height] of a frame buffer that owns the
    texture, which read these fields, are unchanged as well. *)
Theorem update_keeps_dimensions (w h : Z) (opt : TextureOpt.t) (c c1 : GfxCtx)
    (this : Texture.t) (c2 : GfxCtx) (img : ImageSource.t) (x y : Z) (fb : FrameBuffer.t) :
  (w = 0 \/ h = 0)%Z ->
  Texture.constructor w h opt c = Ok this c1 ->
  FrameBuffer.tex fb = this ->
  let updated := Texture.update img x y this c2 in
  storage_allocations (snd updated)
  = storage_allocations c2 ++ [TexImage2D (ImageSource.width img) (ImageSource.height img)]
  /\ Texture.width (fst updated) = w /\ Texture.height (fst updated) = h
  /\ Texture.width this = w /\ Texture.height this = h
  /\ FrameBuffer.width (FrameBuffer.with_tex (fst updated) fb) = FrameBuffer.width fb
  /\ FrameBuffer.height (FrameBuffer.with_tex (fst updated) fb) = FrameBuffer.height fb.
Proof.
  intros Hzero Hnew Hfb updated.
  destruct (Texture_constructor_ok w h opt c c1 this Hnew)
    as (_ & _ & Hw & Hh & Ha & _).
  rewrite (truthy_zero w h Hzero) in Ha.
  destruct (Texture_update_effect img x y this c2) as [Hfst Hsnd].
  rewrite Ha in Hsnd. fold updated in Hfst, Hsnd.
  unfold FrameBuffer.width, FrameBuffer.height. rewrite Hfst, Hfb. simpl.
  repeat split; assumption.
Qed.

Lemma update_keeps_dimensions_witness :
  exists (fb : FrameBuffer.t) (c1 : GfxCtx),
    FrameBuffer.constructor 0 5 opt0 ctx0 = Ok fb c1
    /\ (0 = 0 \/ 5 = 0)%Z
    /\ storage_allocations (snd (Texture.update img2x2 0 0 (FrameBuffer.tex fb) c1))
       = storage_allocations c1 ++ [TexImage2D 2 2]
    /\ Texture.width (fst (Texture.update img2x2 0 0 (FrameBuffer.tex fb) c1)) = 0%Z
    /\ Texture.height (fst (Texture.update img2x2 0 0 (FrameBuffer.tex fb) c1)) = 5%Z
    /\ Texture.width (FrameBuffer.tex fb) = 0%Z
    /\ Texture.height (FrameBuffer.tex fb) = 5%Z
    /\ FrameBuffer.width
         (FrameBuffer.with_tex
            (fst (Texture.update img2x2 0 0 (FrameBuffer.tex fb) c1)) fb)
       = FrameBuffer.width fb
    /\ FrameBuffer.height
         (FrameBuffer.with_tex
            (fst (Texture.update img2x2 0 0 (FrameBuffer.tex fb) c1)) fb)
       = FrameBuffer.height fb.
Proof.
  eexists _, _. split; [lazy; reflexivity|].
  split; [left; reflexivity|].
  eapply (update_keeps_dimensions 0 5 opt0 (onDestroy FreeFrameBuffer ctx0) _ _ _ img2x2 0 0).
  - left; reflexivity.
  - lazy; reflexivity.
  - reflexivity.
Defined.

(* ================================================================== *)
(** ** Failed handle allocation in the constructors *)
(* ================================================================== *)

(** [Texture]: construction throws exactly when the driver refuses the
    texture. *)
Lemma Texture_constructor_checks (w h : Z) (opt : TextureOpt.t) (c : GfxCtx) :
  is_ok (Texture.constructor w h opt c)
  = bool_decide (fst (gl_create (gl c)) <> None).
Proof.
  unfold Texture.constructor, and_then, create, run, call, ask, ret, throw.
  destruct (gl_create (gl c)) as [[glText|] g1]; [|reflexivity].
  now destruct (truthy w && truthy h).
Qed.

Lemma setFunc_alloc_script (k : Kind) (item : option handle) (g : GLState) :
  k <> Texture2D ->
  alloc_script (setFunc k item g) = alloc_script g
  /\ next_handle (setFunc k item g) = next_handle g.
Proof. intros Hk. unfold setFunc. destruct k, item; (congruence || auto). Qed.

Lemma gl_bufferData_alloc_script (k : Kind) (n : nat) (g : GLState) :
  alloc_script (gl_bufferData k n g) = alloc_script g
  /\ next_handle (gl_bufferData k n g) = next_handle g.
Proof. unfold gl_bufferData. destruct (bound g k); auto. Qed.




(** [Mesh]: construction throws exactly when the driver refuses the vertex
    buffer; the answer for the index buffer is stored unchecked. *)
Lemma Mesh_constructor_checks (format : VertexFormat) (vertices indices : list number)
    (c : GfxCtx) :
  match gl_create (gl c) with
  | (Some vb, g1) =>
      exists c',
        Mesh.constructor format vertices indices c
        = Ok {| Mesh.glVBuf := vb;
                Mesh.glIBuf :=
                  fst (gl_create (gl (after_vertex_buffer vb (length vertices * 4) g1 c)));
                Mesh.vertexFormat := format;
                Mesh.count := length indices |} c'
  | (None, g1) =>
      Mesh.constructor format vertices indices c
      = Throw "Failed to create vertex buffer" (with_gl g1 c)
  end.
Proof.
  unfold Mesh.constructor, and_then, create, run, call, ret, throw.
  destruct (gl_create (gl c)) as [[vb|] g1]; [|reflexivity].
  fold (after_vertex_buffer vb (length vertices * 4) g1 c).
  destruct (gl_create (gl (after_vertex_buffer vb (length vertices * 4) g1 c)))
    as [ib g2].
  eexists. reflexivity.
Qed.

Lemma FrameBuffer_bind_fields (this : FrameBuffer.t) (c : GfxCtx) :
  FrameBuffer.tex (fst (FrameBuffer.bind this c)) = FrameBuffer.tex this
  /\ FrameBuffer.glFramebuffer (fst (FrameBuffer.bind this c))
     = FrameBuffer.glFramebuffer this
  /\ FrameBuffer.glRenderbuffer (fst (FrameBuffer.bind this c))
     = FrameBuffer.glRenderbuffer this.
Proof. unfold FrameBuffer.bind. now destruct (FrameBuffer._attached this). Qed.

(** [FrameBuffer]: an object is returned only when the texture, the
    framebuffer and the renderbuffer were all granted. *)
Lemma FrameBuffer_constructor_checks (w h : Z) (opt : TextureOpt.t) (c c' : GfxCtx)
    (fb : FrameBuffer.t) :
  FrameBuffer.constructor w h opt c = Ok fb c' ->
  exists c1,
    Texture.constructor w h opt (onDestroy FreeFrameBuffer c) = Ok (FrameBuffer.tex fb) c1
    /\ fst (gl_create (gl c1)) = Some (FrameBuffer.glFramebuffer fb)
    /\ fst (gl_create (snd (gl_create (gl c1)))) = Some (FrameBuffer.glRenderbuffer fb).
Proof.
  unfold FrameBuffer.constructor.
  unfold and_then at 1. unfold run at 1. unfold and_then at 1.
  destruct (Texture.constructor w h opt (onDestroy FreeFrameBuffer c)) as [tx c1|];
    [|discriminate].
  unfold and_then, create, ret, throw.
  destruct (gl_create (gl c1)) as [[f|] g2] eqn:E1; cbn [gl with_gl fst snd];
    destruct (gl_create g2) as [[rb|] g3] eqn:E2; try discriminate.
  destruct (Texture._allocated tx).
  - pose proof (FrameBuffer_bind_fields
                  {| FrameBuffer.tex := tx; FrameBuffer.glFramebuffer := f;
                     FrameBuffer.glRenderbuffer := rb; FrameBuffer._attached := false |}
                  (with_gl g3 (with_gl g2 c1))) as (Ht & Hf & Hr).
    destruct (FrameBuffer.bind _ _) as [this' cb]. cbn [fst] in Ht, Hf, Hr.
    intros [= <- _]. exists c1. rewrite E1. cbn [fst snd]. rewrite E2.
    cbn [FrameBuffer.set_attached FrameBuffer.tex FrameBuffer.glFramebuffer
           FrameBuffer.glRenderbuffer fst].
    rewrite Ht, Hf, Hr. auto.
  - intros [= <- _]. exists c1. rewrite E1. cbn [fst snd]. rewrite E2. auto.
Qed.

(** C8 fails for [Mesh]: with the vertex buffer granted and the index buffer
    refused, the constructor does not throw; it returns a mesh whose
    [glIBuf] is [null]. *)
Lemma Mesh_constructor_returns_partial_object :
  exists (m : Mesh.t) (c : GfxCtx),
    Mesh.constructor format0 [int 0; int 0] [int 0] ctx_refusing_second = Ok m c
    /\ Mesh.glVBuf m = 1
    /\ Mesh.glIBuf m = None
    /\ In (Create None) (calls (gl c)).
Proof.
  eexists _, _. split; [lazy; reflexivity|].
  split; [reflexivity|]. split; [reflexivity|].
  simpl. auto 10.
Qed.

(** The sibling constructor checks the same allocation. *)
Lemma BatchRenderer_constructor_throws_on_refused_index_buffer :
  exists c : GfxCtx,
    BatchRenderer.constructor format0 8 8 ctx_refusing_second
    = Throw "Failed to create index buffer" c.
Proof. eexists. lazy. reflexivity. Qed.

(* ================================================================== *)
(** ** BatchRenderer: blend modes *)
(* ================================================================== *)

(** C6.  [setBlend(mode)] leaves the renderer and the driver alone when
    [mode] is the current blend mode; otherwise it makes [mode] current and
    issues one [blendFuncSeparate] call with the four factors that the table
    of the specification gives for [mode]. *)
Theorem setBlend_follows_table (mode : BlendMode.t) (r : BatchRenderer.t) (c : GfxCtx) :
  let s' := BatchRenderer.setBlend mode (r, c) in
  if bool_decide (mode = BatchRenderer.curBlend r)
  then snd s' = c
       /\ fst s' = BatchRenderer.enter (BatchRenderer.EnterSetBlend mode) r
  else blendFunc (gl (snd s')) = blend_table mode
       /\ calls (gl (snd s')) = calls (gl c) ++ [blend_call (blend_table mode)]
       /\ BatchRenderer.curBlend (fst s') = mode.
Proof.
  unfold BatchRenderer.setBlend. cbn [fst snd BatchRenderer.curBlend BatchRenderer.enter].
  destruct (decide (mode = BatchRenderer.curBlend r)) as [Heq|Hne].
  - rewrite (bool_decide_eq_true_2 _ Heq).
    rewrite bool_decide_eq_false_2 by (intros H; now apply H).
    auto.
  - rewrite (bool_decide_eq_false_2 _ Hne), (bool_decide_eq_true_2 _ Hne).
    destruct mode; repeat split.
Qed.

(* ================================================================== *)
(** ** BatchRenderer: the live branch of [push] *)
(* ================================================================== *)

(** [flush] either returns early or draws and empties the queues; in both
    cases nothing else of the renderer changes. *)
Lemma flush_cases (width height : Z) (s : BatchRenderer.t * GfxCtx) :
  exists c',
    BatchRenderer.flush width height s
    = (BatchRenderer.enter (BatchRenderer.EnterFlush width height) (fst s), c')
    \/ BatchRenderer.flush width height s
       = (BatchRenderer.reset_queues
            (BatchRenderer.enter (BatchRenderer.EnterFlush width height) (fst s)), c').
Proof.
  unfold BatchRenderer.flush.
  destruct (BatchRenderer.curShader _); [|eauto].
  destruct (_ || _ || _); [eauto|].
  destruct (_ || _); eauto.
Qed.

Lemma setBlend_cases (blend : BlendMode.t) (s : BatchRenderer.t * GfxCtx) :
  exists c',
    BatchRenderer.setBlend blend s
    = (BatchRenderer.set_curBlend blend
         (BatchRenderer.enter (BatchRenderer.EnterSetBlend blend) (fst s)), c')
    \/ (BatchRenderer.setBlend blend s
        = (BatchRenderer.enter (BatchRenderer.EnterSetBlend blend) (fst s), snd s)
        /\ BatchRenderer.curBlend (fst s) = blend).
Proof.
  unfold BatchRenderer.setBlend. cbn [BatchRenderer.curBlend BatchRenderer.enter].
  destruct (decide (blend = BatchRenderer.curBlend (fst s))) as [Heq|Hne].
  - rewrite bool_decide_eq_false_2 by (intros H; now apply H).
    exists (snd s). right. auto.
  - rewrite (bool_decide_eq_true_2 _ Hne). eauto.
Qed.

(** The renderer after [flush] and [setBlend], field by field. *)
Lemma flush_setBlend_fields (blend : BlendMode.t) (width height : Z)
    (s : BatchRenderer.t * GfxCtx) :
  let r := fst s in
  let r' := fst (BatchRenderer.setBlend blend (BatchRenderer.flush width height s)) in
  BatchRenderer.curBlend r' = blend
  /\ BatchRenderer.entered r'
     = BatchRenderer.entered r
       ++ [BatchRenderer.EnterFlush width height; BatchRenderer.EnterSetBlend blend]
  /\ BatchRenderer.picture r' = BatchRenderer.picture r
  /\ BatchRenderer.maxVertices r' = BatchRenderer.maxVertices r
  /\ BatchRenderer.maxIndices r' = BatchRenderer.maxIndices r
  /\ BatchRenderer.stride r' = BatchRenderer.stride r
  /\ BatchRenderer.glVBuf r' = BatchRenderer.glVBuf r
  /\ BatchRenderer.glIBuf r' = BatchRenderer.glIBuf r.
Proof.
  destruct (flush_cases width height s) as [c1 [Hf|Hf]];
    destruct (setBlend_cases blend (BatchRenderer.flush width height s))
      as [c2 [Hb|[Hb Hcur]]];
    cbn zeta; rewrite Hb; rewrite Hf in *; cbn in *;
    rewrite <- ?app_assoc; auto 10.
Qed.


Lemma Texture_same_sym (a b : option Texture.t) : Texture.same a b = Texture.same b a.
Proof. destruct a, b; simpl; auto using Nat.eqb_sym. Qed.

Lemma Shader_same_sym (a b : option Shader.t) : Shader.same a b = Shader.same b a.
Proof. destruct a, b; simpl; auto using Nat.eqb_sym. Qed.

(** An object is deeply equal to itself. *)
Lemma Uniform_same_deepEq (a b : option Uniform.t) :
  Uniform.same a b = true -> Uniform.deepEq a b = true.
Proof. destruct a, b; simpl; auto. intros ->. reflexivity. Qed.

(** After a live [push] the current material is the one just pushed. *)
Lemma submit_live_current (a : BatchRenderer.Submission) (s : BatchRenderer.t * GfxCtx) :
  BatchRenderer.picture (fst s) = None ->
  let r1 := fst (BatchRenderer.submit a s) in
  BatchRenderer.curPrimitive r1 = Some (BatchRenderer.primitive a)
  /\ BatchRenderer.curTex r1 = BatchRenderer.tex a
  /\ BatchRenderer.curShader r1 = Some (BatchRenderer.shader a)
  /\ BatchRenderer.curUniform r1 = BatchRenderer.uniform a
  /\ BatchRenderer.curFixed r1 = Some (BatchRenderer.fixed a)
  /\ BatchRenderer.curBlend r1 = BatchRenderer.blend a
  /\ BatchRenderer.picture r1 = None.
Proof.
  intros Hlive. unfold BatchRenderer.submit, BatchRenderer.push. rewrite Hlive.
  destruct (BatchRenderer.must_flush _ _ _ _ _ _ _ _ _) eqn:Hm; cbn.
  - destruct (flush_setBlend_fields (BatchRenderer.blend a) (BatchRenderer.width a)
                (BatchRenderer.height a) s) as (Hb & _ & Hp & _).
    cbn zeta in *. rewrite Hb, Hp. auto 10.
  - unfold BatchRenderer.must_flush in Hm.
    rewrite !orb_false_iff, !negb_false_iff in Hm.
    destruct Hm as [[[[[_ _] Hb] _] _] _].
    apply bool_decide_eq_true in Hb. auto 10.
Qed.

(** Right after a live [push] of [a], the condition under which the next
    [push] flushes is: the tuples differ, or a queue would overflow. *)
Lemma must_flush_after_submit (a b : BatchRenderer.Submission)
    (s : BatchRenderer.t * GfxCtx) :
  BatchRenderer.picture (fst s) = None ->
  let r1 := fst (BatchRenderer.submit a s) in
  BatchRenderer.must_flush (BatchRenderer.primitive b) (BatchRenderer.vertices b)
    (BatchRenderer.indices b) (BatchRenderer.shader b) (BatchRenderer.tex b)
    (BatchRenderer.uniform b) (BatchRenderer.blend b) (BatchRenderer.fixed b) r1
  = negb (same_tuple a b)
    || (BatchRenderer.maxVertices r1
        <? length (BatchRenderer.vqueue r1) + length (BatchRenderer.vertices b))
    || (BatchRenderer.maxIndices r1
        <? length (BatchRenderer.iqueue r1) + length (BatchRenderer.indices b)).
Proof.
  intros Hlive r1.
  destruct (submit_live_current a s Hlive) as (Hp & Ht & Hs & Hu & Hf & Hb & _).
  fold r1 in Hp, Ht, Hs, Hu, Hf, Hb.
  unfold BatchRenderer.must_flush, same_tuple. rewrite Hp, Ht, Hs, Hu, Hf, Hb.
  rewrite (bool_decide_ext (Some (BatchRenderer.primitive b) = Some (BatchRenderer.primitive a))
             (BatchRenderer.primitive a = BatchRenderer.primitive b))
    by (split; congruence).
  rewrite (bool_decide_ext (BatchRenderer.blend b = BatchRenderer.blend a)
             (BatchRenderer.blend a = BatchRenderer.blend b))
    by (split; congruence).
  rewrite (bool_decide_ext (Some (BatchRenderer.fixed b) = Some (BatchRenderer.fixed a))
             (BatchRenderer.fixed a = BatchRenderer.fixed b))
    by (split; congruence).
  rewrite (Texture_same_sym (BatchRenderer.tex b)).
  rewrite (Shader_same_sym (Some (BatchRenderer.shader b))).
  assert (Hdeep :
            negb (Uniform.same (BatchRenderer.uniform a) (BatchRenderer.uniform b))
            && negb (Uniform.deepEq (BatchRenderer.uniform a) (BatchRenderer.uniform b))
            = negb (Uniform.deepEq (BatchRenderer.uniform a) (BatchRenderer.uniform b))).
  { destruct (Uniform.same _ _) eqn:E; [|reflexivity].
    now rewrite (Uniform_same_deepEq _ _ E). }
  rewrite Hdeep.
  destruct (bool_decide (BatchRenderer.primitive a = _)), (Texture.same _ _),
    (Shader.same _ _), (Uniform.deepEq _ _), (bool_decide (BatchRenderer.blend a = _)),
    (bool_decide (BatchRenderer.fixed a = _)); reflexivity.
Qed.

Lemma fits_no_overflow (b : BatchRenderer.Submission) (r : BatchRenderer.t) :
  fits b r <->
  (BatchRenderer.maxVertices r
   <? length (BatchRenderer.vqueue r) + length (BatchRenderer.vertices b)) = false
  /\ (BatchRenderer.maxIndices r
      <? length (BatchRenderer.iqueue r) + length (BatchRenderer.indices b)) = false.
Proof. unfold fits. rewrite !Nat.ltb_ge. reflexivity. Qed.

(** What a live [push] returns, by the outcome of its test. *)
Lemma submit_live (b : BatchRenderer.Submission) (s : BatchRenderer.t * GfxCtx) :
  BatchRenderer.picture (fst s) = None ->
  let flushed :=
    BatchRenderer.setBlend (BatchRenderer.blend b)
      (BatchRenderer.flush (BatchRenderer.width b) (BatchRenderer.height b) s) in
  let s' :=
    if BatchRenderer.must_flush (BatchRenderer.primitive b) (BatchRenderer.vertices b)
         (BatchRenderer.indices b) (BatchRenderer.shader b) (BatchRenderer.tex b)
         (BatchRenderer.uniform b) (BatchRenderer.blend b) (BatchRenderer.fixed b) (fst s)
    then flushed else s in
  BatchRenderer.submit b s
  = (BatchRenderer.append (BatchRenderer.primitive b) (BatchRenderer.vertices b)
       (BatchRenderer.indices b) (BatchRenderer.shader b) (BatchRenderer.tex b)
       (BatchRenderer.uniform b) (BatchRenderer.fixed b) (fst s'),
     snd s').
Proof.
  intros Hlive. unfold BatchRenderer.submit, BatchRenderer.push. now rewrite Hlive.
Qed.



(* ================================================================== *)
(** ** BatchRenderer: index rebasing *)
(* ================================================================== *)

(** An exact quotient of two lengths is the integer one expects. *)
Lemma div_exact (k s : nat) : s <> 0 -> JsNum.div (k * s) s = int (Z.of_nat k).
Proof.
  intros Hs. unfold JsNum.div, JsNum.of_Q, int.
  destruct s as [|s']; [congruence|].
  assert (Hq : Qred (Z.of_nat (k * S s') # Pos.of_nat (S s')) = inject_Z (Z.of_nat k)).
  { rewrite <- inject_Z_Qred. apply Qred_complete.
    unfold Qeq, inject_Z. cbn [Qnum Qden].
    rewrite Nat2Z.inj_mul.
    replace (Z.pos (Pos.of_nat (S s'))) with (Z.of_nat (S s')) by lia. lia. }
  now rewrite Hq.
Qed.

Lemma add_int (i k : Z) : JsNum.add (int i) (int k) = int (i + k).
Proof.
  unfold JsNum.add, JsNum.of_Q, int.
  assert (Hq : Qred (Qplus (i # 1) (k # 1)) = inject_Z (i + k)).
  { rewrite <- inject_Z_Qred. apply Qred_complete.
    unfold Qeq, Qplus, inject_Z. cbn [Qnum Qden]. lia. }
  now rewrite Hq.
Qed.

(** With a queue of [k] whole vertices before it, index [i] is stored as
    [i + k]. *)
Lemma rebased_index_exact (i : Z) (k s : nat) :
  s <> 0 -> JsNum.add (int i) (JsNum.div (k * s) s) = int (i + Z.of_nat k).
Proof. intros Hs. now rewrite div_exact, add_int. Qed.

(** A push into an empty vertex queue leaves exactly its own vertices
    there, flushed or not. *)
Lemma submit_opens_batch (a : BatchRenderer.Submission) (s : BatchRenderer.t * GfxCtx) :
  BatchRenderer.picture (fst s) = None ->
  BatchRenderer.vqueue (fst s) = [] ->
  BatchRenderer.vqueue (fst (BatchRenderer.submit a s)) = BatchRenderer.vertices a.
Proof.
  intros Hlive Hempty. rewrite (submit_live a s Hlive). cbn [fst].
  destruct (BatchRenderer.must_flush _ _ _ _ _ _ _ _ _); cbn.
  - destruct (flush_cases (BatchRenderer.width a) (BatchRenderer.height a) s)
      as [c1 [Hf|Hf]];
      destruct (setBlend_cases (BatchRenderer.blend a)
                  (BatchRenderer.flush (BatchRenderer.width a) (BatchRenderer.height a) s))
        as [c2 [Hb|[Hb _]]];
      rewrite Hb, Hf; cbn; now rewrite ?Hempty.
  - now rewrite Hempty.
Qed.

(** C3 (as amended).  When [b] is pushed right after [a] into the same
    batch, every index of [b] is stored as its original value plus the
    length of the vertex queue before [b], divided by the stride.  That
    offset is [n / s], for the [n] vertex floats of [a] and the stride [s],
    when the vertices of [a] are all that the queue holds, that is, when [a]
    opened the batch. *)
Theorem indices_rebased_by_queue_length (a b : BatchRenderer.Submission)
    (s : BatchRenderer.t * GfxCtx) :
  BatchRenderer.picture (fst s) = None ->
  let s1 := BatchRenderer.submit a s in
  let s2 := BatchRenderer.submit b s1 in
  same_tuple a b = true ->
  fits b (fst s1) ->
  BatchRenderer.iqueue (fst s2)
  = BatchRenderer.iqueue (fst s1)
    ++ map (fun i =>
              JsNum.add i
                (JsNum.div (length (BatchRenderer.vqueue (fst s1)))
                   (BatchRenderer.stride (fst s1))))
        (BatchRenderer.indices b)
  /\ (BatchRenderer.vqueue (fst s1) = BatchRenderer.vertices a ->
      BatchRenderer.iqueue (fst s2)
      = BatchRenderer.iqueue (fst s1)
        ++ map (fun i =>
                  JsNum.add i
                    (JsNum.div (length (BatchRenderer.vertices a))
                       (BatchRenderer.stride (fst s1))))
            (BatchRenderer.indices b)).
Proof.
  intros Hlive s1 s2 Hsame [Hv Hi]%fits_no_overflow.
  assert (Hlive1 : BatchRenderer.picture (fst s1) = None)
    by apply (submit_live_current a s Hlive).
  pose proof (submit_live b s1 Hlive1) as Hs2. cbn zeta in Hs2. fold s2 in Hs2.
  pose proof (must_flush_after_submit a b s Hlive) as Hm. cbn zeta in Hm.
  fold s1 in Hm. rewrite Hm, Hsame, Hv, Hi in Hs2. cbn [negb orb] in Hs2.
  rewrite Hs2. cbn [fst BatchRenderer.append BatchRenderer.iqueue].
  split; [reflexivity|]. intros ->. reflexivity.
Qed.

Lemma indices_rebased_by_queue_length_witness :
  BatchRenderer.picture (fst (renderer0 8 8)) = None
  /\ same_tuple (point_sub TRIANGLES None) (point_sub TRIANGLES None) = true
  /\ fits (point_sub TRIANGLES None) (fst one_point)
  /\ BatchRenderer.vqueue (fst one_point)
     = BatchRenderer.vertices (point_sub TRIANGLES None)
  /\ BatchRenderer.iqueue (fst (BatchRenderer.submit (point_sub TRIANGLES None) one_point))
     = BatchRenderer.iqueue (fst one_point)
       ++ map (fun i =>
                 JsNum.add i
                   (JsNum.div (length (BatchRenderer.vertices (point_sub TRIANGLES None)))
                      (BatchRenderer.stride (fst one_point))))
           (BatchRenderer.indices (point_sub TRIANGLES None)).
Proof.
  assert (Hlive : BatchRenderer.picture (fst (renderer0 8 8)) = None)
    by (vm_compute; reflexivity).
  assert (Hsame : same_tuple (point_sub TRIANGLES None) (point_sub TRIANGLES None) = true)
    by (vm_compute; reflexivity).
  assert (Hfits : fits (point_sub TRIANGLES None) (fst one_point))
    by (split; vm_compute; lia).
  assert (Hopen : BatchRenderer.vqueue (fst one_point)
                  = BatchRenderer.vertices (point_sub TRIANGLES None))
    by (vm_compute; reflexivity).
  split; [exact Hlive|]. split; [exact Hsame|].
  split; [exact Hfits|]. split; [exact Hopen|].
  pose proof (indices_rebased_by_queue_length (point_sub TRIANGLES None)
                (point_sub TRIANGLES None) (renderer0 8 8) Hlive) as H.
  cbv zeta in H.
  exact (proj2 (H Hsame Hfits) Hopen).
Defined.

(** C3 (as stated) fails when [a] is not the first geometry of the batch.
    Three pushes of one vertex (two floats, stride 2) with index 0 and the
    same material go into one batch; the index of the third is stored as
    2 = 0 + 4/2, the whole queue before it, not as 1 = 0 + 2/2. *)
Lemma index_offset_counts_the_whole_queue :
  let a := point_sub TRIANGLES None in
  let s2 := BatchRenderer.submit a two_points in
  same_tuple a a = true
  /\ BatchRenderer.flush_calls (fst s2) = BatchRenderer.flush_calls (fst two_points)
  /\ BatchRenderer.stride (fst two_points) = 2
  /\ length (BatchRenderer.vertices a) = 2
  /\ BatchRenderer.iqueue (fst s2) = BatchRenderer.iqueue (fst two_points) ++ [int 2]
  /\ map (fun i => JsNum.add i (JsNum.div 2 2)) (BatchRenderer.indices a) = [int 1]
  /\ BatchRenderer.iqueue (fst s2)
     <> BatchRenderer.iqueue (fst two_points)
        ++ map (fun i => JsNum.add i (JsNum.div 2 2)) (BatchRenderer.indices a).
Proof.
  cbv zeta.
  do 6 (split; [vm_compute; reflexivity|]).
  vm_compute. discriminate.
Qed.

(* ================================================================== *)
(** ** BatchRenderer: queue capacity *)
(* ================================================================== *)

Arguments setVertexFormat : simpl never.

Lemma enableAttribs_frame (stride : nat) (fmt : VertexFormat) (i offset : nat) (g : GLState) :
  bound (enableAttribs stride fmt i offset g) = bound g
  /\ bufferSize (enableAttribs stride fmt i offset g) = bufferSize g.
Proof.
  revert i offset g. induction fmt as [|f fmt IH]; intros i offset g; simpl.
  - auto.
  - destruct (IH (S i) (offset + snd f * 4)
                (emit (VertexAttribPointer i (snd f) (stride * 4) offset)
                   (emit (EnableVertexAttribArray i) g))) as [-> ->].
    auto.
Qed.

Lemma disableAttribs_frame (from upto : nat) (g : GLState) :
  bound (disableAttribs from upto g) = bound g
  /\ bufferSize (disableAttribs from upto g) = bufferSize g.
Proof.
  unfold disableAttribs. generalize (seq from (upto - from)) as l. intros l.
  revert g. induction l as [|i l IH]; intros g; simpl.
  - auto.
  - destruct (IH (emit (DisableVertexAttribArray i) g)) as [-> ->]. auto.
Qed.

Lemma setVertexFormat_frame (fmt : VertexFormat) (c : GfxCtx) :
  bound (gl (setVertexFormat fmt c)) = bound (gl c)
  /\ bufferSize (gl (setVertexFormat fmt c)) = bufferSize (gl c).
Proof.
  unfold setVertexFormat. destruct (bool_decide _); [auto|]. cbn.
  destruct (enableAttribs_frame (stride_of fmt) fmt 0 0
              (disableAttribs (length fmt) (MAX_VERTEX_ATTRIBS (gl c)) (gl c)))
    as [-> ->].
  apply disableAttribs_frame.
Qed.


Lemma same_buffers_refl (c : GfxCtx) : same_buffers c c.
Proof. repeat split. Qed.

Lemma same_buffers_trans (c1 c2 c3 : GfxCtx) :
  same_buffers c1 c2 -> same_buffers c2 c3 -> same_buffers c1 c3.
Proof. unfold same_buffers. intros (? & ? & ?) (? & ? & ?). repeat split; congruence. Qed.

Lemma same_buffers_gl_do (e : GLCall) (c : GfxCtx) : same_buffers c (gl_do e c).
Proof. repeat split. Qed.

Lemma same_buffers_setVertexFormat (fmt : VertexFormat) (c : GfxCtx) :
  same_buffers c (setVertexFormat fmt c).
Proof.
  destruct (setVertexFormat_frame fmt c) as [Hb Hs].
  unfold same_buffers. now rewrite Hb, Hs.
Qed.

Lemma same_buffers_pushTexture2D (item : option handle) (c : GfxCtx) :
  same_buffers c (pushTexture2D item c).
Proof.
  unfold same_buffers, pushTexture2D, pushOn. cbn.
  rewrite setFunc_bufferSize, !(setFunc_bound_other Texture2D) by discriminate. auto.
Qed.

Lemma same_buffers_popTexture2D (c : GfxCtx) : same_buffers c (popTexture2D c).
Proof.
  unfold same_buffers, popTexture2D, popOn. cbn.
  rewrite setFunc_bufferSize, !(setFunc_bound_other Texture2D) by discriminate. auto.
Qed.

(** At the buffer-size check of [flush] the two buffers of the renderer are
    the bound ones, and no buffer has changed its size. *)
Lemma bind_and_upload_buffers (width height : Z) (shader : Shader.t)
    (r : BatchRenderer.t) (c : GfxCtx) :
  let c' := BatchRenderer.bind_and_upload width height shader r c in
  bound (gl c') ArrayBuffer = Some (BatchRenderer.glVBuf r)
  /\ bound (gl c') ElementArrayBuffer = Some (BatchRenderer.glIBuf r)
  /\ bufferSize (gl c') = bufferSize (gl c).
Proof.
  unfold BatchRenderer.bind_and_upload.
  set (c1 := pushArrayBuffer (Some (BatchRenderer.glVBuf r)) c).
  set (c2 := gl_do (BufferSubData ArrayBuffer (BatchRenderer.vqueue r)) c1).
  set (c3 := pushElementArrayBuffer (Some (BatchRenderer.glIBuf r)) c2).
  set (c4 := gl_do (BufferSubData ElementArrayBuffer (BatchRenderer.iqueue r)) c3).
  set (c5 := setVertexFormat (BatchRenderer.vertexFormat r) c4).
  set (c6 := gl_do (ShaderBind (Shader.ref shader)) c5).
  set (c7 := match BatchRenderer.curUniform r with
             | Some u => gl_do (ShaderSend (Uniform.ref u)) c6
             | None => c6
             end).
  set (c8 := gl_do _ c7).
  assert (H3 : bound (gl c3) ArrayBuffer = Some (BatchRenderer.glVBuf r)
               /\ bound (gl c3) ElementArrayBuffer = Some (BatchRenderer.glIBuf r)
               /\ bufferSize (gl c3) = bufferSize (gl c)).
  { unfold c3, c2, c1, pushElementArrayBuffer, pushArrayBuffer, pushOn, gl_do. cbn.
    rewrite !setFunc_bufferSize, setFunc_bound_some.
    rewrite (setFunc_bound_other ElementArrayBuffer ArrayBuffer) by discriminate.
    cbn. rewrite setFunc_bound_some. auto. }
  assert (H8 : same_buffers c3 c8).
  { apply (same_buffers_trans _ c4); [apply same_buffers_gl_do|].
    apply (same_buffers_trans _ c5); [apply same_buffers_setVertexFormat|].
    apply (same_buffers_trans _ c6); [apply same_buffers_gl_do|].
    apply (same_buffers_trans _ c7); [|apply same_buffers_gl_do].
    unfold c7. destruct (BatchRenderer.curUniform r);
      [apply same_buffers_gl_do | apply same_buffers_refl]. }
  assert (H9 : same_buffers c3
                 match BatchRenderer.curTex r with
                 | Some tx => Texture.bind tx c8
                 | None => c8
                 end).
  { destruct (BatchRenderer.curTex r); [|exact H8].
    apply (same_buffers_trans _ c8); [exact H8|apply same_buffers_pushTexture2D]. }
  destruct H3 as (Ha & He & Hs), H9 as (Ha' & He' & Hs').
  cbv zeta. rewrite Ha', He', Hs'. auto.
Qed.

(** [flush] and [setBlend] never resize a buffer. *)
Lemma flush_bufferSize (width height : Z) (s : BatchRenderer.t * GfxCtx) :
  bufferSize (gl (snd (BatchRenderer.flush width height s))) = bufferSize (gl (snd s)).
Proof.
  unfold BatchRenderer.flush.
  destruct (BatchRenderer.curShader _) as [shader|]; [|reflexivity].
  destruct (_ || _ || _); [reflexivity|].
  destruct (bind_and_upload_buffers width height shader
              (BatchRenderer.enter (BatchRenderer.EnterFlush width height) (fst s)) (snd s))
    as (_ & _ & Hs).
  cbv zeta in Hs.
  destruct (_ || _); cbn [snd].
  - unfold popElementArrayBuffer, popArrayBuffer, popOn. cbn.
    now rewrite !setFunc_bufferSize.
  - unfold BatchRenderer.draw_and_unbind, popElementArrayBuffer, popArrayBuffer, popOn.
    cbn. rewrite !setFunc_bufferSize.
    destruct (BatchRenderer.curTex (fst s)); cbn; rewrite ?setFunc_bufferSize; exact Hs.
Qed.

Lemma setBlend_bufferSize (blend : BlendMode.t) (s : BatchRenderer.t * GfxCtx) :
  bufferSize (gl (snd (BatchRenderer.setBlend blend s))) = bufferSize (gl (snd s)).
Proof.
  unfold BatchRenderer.setBlend. destruct (bool_decide _); [|reflexivity].
  cbn. now destruct blend.
Qed.

(** Binding a buffer, sizing it and unbinding it records the size for that
    buffer and draws no handle from the allocator. *)
Lemma sized_buffer_effect (k : Kind) (b : handle) (bytes : nat) (c : GfxCtx) :
  k <> Texture2D ->
  let c1 := pushOn k (Some b) c in
  let c' := popOn k (with_gl (gl_bufferData k bytes (gl c1)) c1) in
  bufferSize (gl c') = upd b bytes (bufferSize (gl c))
  /\ next_handle (gl c') = next_handle (gl c)
  /\ alloc_script (gl c') = alloc_script (gl c).
Proof.
  intros Hk c1 c'. unfold c', c1, popOn, pushOn. cbn.
  rewrite setFunc_bufferSize.
  rewrite !(proj1 (setFunc_alloc_script k _ _ Hk)), !(proj2 (setFunc_alloc_script k _ _ Hk)).
  rewrite (proj1 (gl_bufferData_alloc_script k bytes _)),
    (proj2 (gl_bufferData_alloc_script k bytes _)).
  rewrite !(proj1 (setFunc_alloc_script k _ _ Hk)), !(proj2 (setFunc_alloc_script k _ _ Hk)).
  unfold gl_bufferData. rewrite setFunc_bound_some. cbn.
  now rewrite setFunc_bufferSize.
Qed.

Lemma gl_create_some (g g' : GLState) (b : handle) :
  gl_create g = (Some b, g') ->
  b = next_handle g /\ next_handle g' = S b /\ bufferSize g' = bufferSize g.
Proof.
  intros E. pose proof (gl_create_bufferSize g) as Hs. rewrite E in Hs.
  unfold gl_create in E.
  destruct (alloc_script g) as [|[] rest]; inversion E; subst; auto.
Qed.

(** What a successful construction of a renderer returns: empty queues, no
    current material, and two distinct buffers of the sizes asked for. *)
Lemma BatchRenderer_constructor_ok (format : VertexFormat) (maxVertices maxIndices : nat)
    (c c0 : GfxCtx) (r : BatchRenderer.t) :
  BatchRenderer.constructor format maxVertices maxIndices c = Ok r c0 ->
  BatchRenderer.vqueue r = [] /\ BatchRenderer.iqueue r = []
  /\ BatchRenderer.picture r = None
  /\ BatchRenderer.maxVertices r = maxVertices
  /\ BatchRenderer.maxIndices r = maxIndices
  /\ BatchRenderer.stride r = stride_of format
  /\ bufferSize (gl c0) (BatchRenderer.glVBuf r) = maxVertices * 4
  /\ bufferSize (gl c0) (BatchRenderer.glIBuf r) = maxIndices * 2.
Proof.
  unfold BatchRenderer.constructor, and_then, create, run, call, ret, throw.
  destruct (gl_create (gl c)) as [[vb|] g1] eqn:E1; [|discriminate].
  unfold pushArrayBuffer, popArrayBuffer, pushElementArrayBuffer, popElementArrayBuffer.
  destruct (sized_buffer_effect ArrayBuffer vb (maxVertices * 4) (with_gl g1 c)
              ltac:(discriminate)) as (Hs1 & Hn1 & _).
  cbv zeta in Hs1, Hn1.
  set (cA := popOn ArrayBuffer _) in *.
  destruct (gl_create (gl cA)) as [[ib|] g2] eqn:E2; [|discriminate].
  destruct (sized_buffer_effect ElementArrayBuffer ib (maxIndices * 2) (with_gl g2 cA)
              ltac:(discriminate)) as (Hs2 & _).
  cbv zeta in Hs2.
  intros [= <- <-]. cbn [BatchRenderer.vqueue BatchRenderer.iqueue BatchRenderer.picture
                          BatchRenderer.maxVertices BatchRenderer.maxIndices
                          BatchRenderer.stride BatchRenderer.glVBuf BatchRenderer.glIBuf].
  do 6 (split; [reflexivity|]).
  destruct (gl_create_some _ _ _ E1) as (_ & Hnext1 & _).
  destruct (gl_create_some _ _ _ E2) as (Hib & _ & Hsz2).
  match goal with
  | |- bufferSize ?G vb = _ /\ _ =>
      change G with
        (gl (popOn ElementArrayBuffer
               (with_gl
                  (gl_bufferData ElementArrayBuffer (maxIndices * 2)
                     (gl (pushOn ElementArrayBuffer (Some ib) (with_gl g2 cA))))
                  (pushOn ElementArrayBuffer (Some ib) (with_gl g2 cA)))))
  end.
  rewrite Hs2. cbn [gl with_gl]. rewrite Hsz2, Hs1. cbn [gl with_gl].
  assert (ib <> vb) by (cbn [gl with_gl] in Hn1; lia).
  split.
  - rewrite upd_other by assumption. apply upd_same.
  - apply upd_same.
Qed.

Lemma constructor_tracked (format : VertexFormat) (maxVertices maxIndices : nat)
    (c c0 : GfxCtx) (r : BatchRenderer.t) :
  BatchRenderer.constructor format maxVertices maxIndices c = Ok r c0 ->
  tracked maxVertices maxIndices (r, c0).
Proof.
  intros H.
  destruct (BatchRenderer_constructor_ok _ _ _ _ _ _ H)
    as (Hv & Hi & Hp & Hmv & Hmi & _ & Hsv & Hsi).
  unfold tracked. cbn [fst snd]. rewrite Hv, Hi. cbn.
  repeat split; auto; try lia; congruence.
Qed.

(** On a tracked renderer [flush] leaves both queues empty: it returns early
    only when they are empty already, and otherwise it draws. *)
Lemma flush_empties (maxVertices maxIndices : nat) (width height : Z)
    (s : BatchRenderer.t * GfxCtx) :
  tracked maxVertices maxIndices s ->
  let s' := BatchRenderer.flush width height s in
  BatchRenderer.vqueue (fst s') = [] /\ BatchRenderer.iqueue (fst s') = []
  /\ (BatchRenderer.vqueue (fst s) <> [] ->
      BatchRenderer.numDraws (fst s') = S (BatchRenderer.numDraws (fst s))).
Proof.
  intros (_ & _ & _ & Hlv & Hli & Hiff & Hcur & Hsv & Hsi).
  unfold BatchRenderer.flush.
  cbn [BatchRenderer.curShader BatchRenderer.curPrimitive BatchRenderer.vqueue
         BatchRenderer.iqueue BatchRenderer.enter].
  destruct (BatchRenderer.vqueue (fst s)) as [|v vq] eqn:Hv.
  - assert (Hi : BatchRenderer.iqueue (fst s) = []) by now apply Hiff.
    rewrite Hi. cbn [length]. rewrite orb_true_r. cbn [orb].
    destruct (BatchRenderer.curShader (fst s)); cbn; rewrite Hv, Hi; repeat split; congruence.
  - destruct Hcur as [Hprim Hshader]; [discriminate|].
    destruct (BatchRenderer.curShader (fst s)) as [shader|]; [|congruence].
    destruct (BatchRenderer.iqueue (fst s)) as [|i iq] eqn:Hi.
    { exfalso. assert (v :: vq = []) by now apply Hiff. discriminate. }
    rewrite Hprim. cbn [length orb].
    rewrite !bool_decide_eq_false_2 by discriminate. cbn [orb].
    destruct (bind_and_upload_buffers width height shader
                (BatchRenderer.enter (BatchRenderer.EnterFlush width height) (fst s)) (snd s))
      as (Ha & He & Hs).
    cbv zeta in Ha, He, Hs.
    unfold gl_getBufferParameter. rewrite Ha, He, Hs. cbn [BatchRenderer.glVBuf
      BatchRenderer.glIBuf BatchRenderer.enter]. rewrite Hsv, Hsi.
    cbn [length] in Hlv, Hli.
    assert (Hbigv : BatchRenderer.too_small (Some (maxVertices * 4))
                      (S (length vq) * 4) = false)
      by (apply Nat.ltb_ge; lia).
    assert (Hbigi : BatchRenderer.too_small (Some (maxIndices * 2))
                      (S (length iq) * 2) = false)
      by (apply Nat.ltb_ge; lia).
    rewrite Hbigv, Hbigi. cbn. auto.
Qed.

Lemma setBlend_queues (blend : BlendMode.t) (s : BatchRenderer.t * GfxCtx) :
  let r' := fst (BatchRenderer.setBlend blend s) in
  BatchRenderer.vqueue r' = BatchRenderer.vqueue (fst s)
  /\ BatchRenderer.iqueue r' = BatchRenderer.iqueue (fst s)
  /\ BatchRenderer.numDraws r' = BatchRenderer.numDraws (fst s).
Proof.
  destruct (setBlend_cases blend s) as [c' [H|[H _]]]; cbv zeta; rewrite H; auto.
Qed.

Lemma overflow_must_flush (a : BatchRenderer.Submission) (r : BatchRenderer.t) :
  BatchRenderer.must_flush (BatchRenderer.primitive a) (BatchRenderer.vertices a)
    (BatchRenderer.indices a) (BatchRenderer.shader a) (BatchRenderer.tex a)
    (BatchRenderer.uniform a) (BatchRenderer.blend a) (BatchRenderer.fixed a) r = false ->
  fits a r.
Proof.
  unfold BatchRenderer.must_flush. rewrite !orb_false_iff.
  intros [[_ Hv] Hi]. apply fits_no_overflow. auto.
Qed.

(** A live [push] of an admissible submission keeps the renderer tracked;
    when the submission does not fit, the queues are drawn and emptied
    before it is appended. *)
Lemma submit_tracked (maxVertices maxIndices : nat) (a : BatchRenderer.Submission)
    (s : BatchRenderer.t * GfxCtx) :
  tracked maxVertices maxIndices s ->
  admissible maxVertices maxIndices a ->
  let s' := BatchRenderer.submit a s in
  tracked maxVertices maxIndices s'
  /\ (~ fits a (fst s) ->
      BatchRenderer.entered (fst s')
      = BatchRenderer.entered (fst s)
        ++ [BatchRenderer.EnterFlush (BatchRenderer.width a) (BatchRenderer.height a);
            BatchRenderer.EnterSetBlend (BatchRenderer.blend a)]
      /\ BatchRenderer.numDraws (fst s') = S (BatchRenderer.numDraws (fst s))
      /\ BatchRenderer.vqueue (fst s') = BatchRenderer.vertices a
      /\ length (BatchRenderer.iqueue (fst s')) = length (BatchRenderer.indices a)).
Proof.
  intros Ht (Hav & Hai & Hprim & Hboth).
  pose proof Ht as (Hlive & Hmv & Hmi & Hlv & Hli & Hiff & Hcur & Hsv & Hsi).
  cbv zeta. rewrite (submit_live a s Hlive). cbv zeta.
  assert (Hnoprim : BatchRenderer.no_primitive (Some (BatchRenderer.primitive a)) = false)
    by (cbn; now apply Z.eqb_neq).
  destruct (BatchRenderer.must_flush _ _ _ _ _ _ _ _ _) eqn:Hm.
  - set (f := BatchRenderer.flush (BatchRenderer.width a) (BatchRenderer.height a) s).
    set (fb := BatchRenderer.setBlend (BatchRenderer.blend a) f).
    destruct (flush_empties maxVertices maxIndices (BatchRenderer.width a)
                (BatchRenderer.height a) s Ht) as (Hfv & Hfi & Hfn).
    fold f in Hfv, Hfi, Hfn.
    destruct (setBlend_queues (BatchRenderer.blend a) f) as (Hbv & Hbi & Hbn).
    fold fb in Hbv, Hbi, Hbn. cbv zeta in Hbv, Hbi, Hbn.
    destruct (flush_setBlend_fields (BatchRenderer.blend a) (BatchRenderer.width a)
                (BatchRenderer.height a) s)
      as (_ & He & Hp & Hxv & Hxi & _ & Hgv & Hgi).
    cbv zeta in He, Hp, Hxv, Hxi, Hgv, Hgi.
    fold f in He, Hp, Hxv, Hxi, Hgv, Hgi. fold fb in He, Hp, Hxv, Hxi, Hgv, Hgi.
    assert (Hsize : bufferSize (gl (snd fb)) = bufferSize (gl (snd s))).
    { unfold fb. rewrite setBlend_bufferSize. apply flush_bufferSize. }
    rewrite Hfv in Hbv. rewrite Hfi in Hbi.
    split.
    + unfold tracked.
      cbn [fst snd BatchRenderer.append BatchRenderer.picture BatchRenderer.maxVertices
             BatchRenderer.maxIndices BatchRenderer.vqueue BatchRenderer.iqueue
             BatchRenderer.curPrimitive BatchRenderer.curShader
             BatchRenderer.glVBuf BatchRenderer.glIBuf].
      rewrite Hbv, Hbi, Hp, Hxv, Hxi, Hgv, Hgi, Hsize, Hnoprim. cbn [app].
      rewrite length_map.
      repeat split; auto; try congruence.
      * intros Hnil. apply Hboth in Hnil. now rewrite Hnil.
      * intros Hnil. apply Hboth. destruct (BatchRenderer.indices a); [reflexivity|].
        discriminate.
    + intros Hnot.
      cbn [fst BatchRenderer.append BatchRenderer.entered BatchRenderer.numDraws
             BatchRenderer.vqueue BatchRenderer.iqueue].
      rewrite He, Hbn, Hbv, Hbi. cbn [app]. rewrite length_map.
      repeat split; auto.
      apply Hfn. intros Hnil. apply Hnot.
      assert (Hinil : BatchRenderer.iqueue (fst s) = []) by now apply Hiff.
      unfold fits. rewrite Hnil, Hinil, Hmv, Hmi. cbn. auto.
  - apply overflow_must_flush in Hm. destruct Hm as [Hfv Hfi].
    rewrite Hmv in Hfv. rewrite Hmi in Hfi.
    split.
    + unfold tracked.
      cbn [fst snd BatchRenderer.append BatchRenderer.picture BatchRenderer.maxVertices
             BatchRenderer.maxIndices BatchRenderer.vqueue BatchRenderer.iqueue
             BatchRenderer.curPrimitive BatchRenderer.curShader
             BatchRenderer.glVBuf BatchRenderer.glIBuf].
      rewrite !length_app, length_map, Hnoprim.
      repeat split; auto; try congruence.
      * intros [Hq Ha]%app_eq_nil. apply Hiff in Hq. apply Hboth in Ha.
        now rewrite Hq, Ha.
      * intros [Hq Ha]%app_eq_nil. apply Hiff in Hq.
        assert (BatchRenderer.indices a = [])
          by (destruct (BatchRenderer.indices a); [reflexivity|discriminate]).
        apply Hboth in H. now rewrite Hq, H.
    + intros Hnot. exfalso. apply Hnot. unfold fits. rewrite Hmv, Hmi. auto.
Qed.

Lemma submit_all_tracked (maxVertices maxIndices : nat) (l : list BatchRenderer.Submission)
    (s : BatchRenderer.t * GfxCtx) :
  tracked maxVertices maxIndices s ->
  Forall (admissible maxVertices maxIndices) l ->
  tracked maxVertices maxIndices (BatchRenderer.submit_all l s).
Proof.
  intros Ht Hl. revert s Ht. induction Hl as [|a l Ha _ IH]; intros s Ht; simpl.
  - exact Ht.
  - apply IH. now apply submit_tracked.
Qed.

(** C2 (as amended).  Take a renderer as its constructor returns it, and
    push any sequence of submissions each of which fits into the queues on
    its own, has a primitive other than the enum value 0, and brings indices
    exactly when it brings vertices.  After every push the vertex queue is no
    longer than [maxVertices] and the index queue no longer than
    [maxIndices]; and whenever appending the incoming data would exceed a
    maximum, the push enters [flush], which draws and empties the queues,
    before the data is appended. *)
Theorem queues_stay_within_maxima (format : VertexFormat) (maxVertices maxIndices : nat)
    (c c0 : GfxCtx) (r : BatchRenderer.t)
    (earlier : list BatchRenderer.Submission) (a : BatchRenderer.Submission) :
  BatchRenderer.constructor format maxVertices maxIndices c = Ok r c0 ->
  Forall (admissible maxVertices maxIndices) earlier ->
  admissible maxVertices maxIndices a ->
  let s := BatchRenderer.submit_all earlier (r, c0) in
  let s' := BatchRenderer.submit a s in
  BatchRenderer.maxVertices (fst s') = maxVertices
  /\ BatchRenderer.maxIndices (fst s') = maxIndices
  /\ length (BatchRenderer.vqueue (fst s')) <= maxVertices
  /\ length (BatchRenderer.iqueue (fst s')) <= maxIndices
  /\ (~ fits a (fst s) ->
      BatchRenderer.entered (fst s')
      = BatchRenderer.entered (fst s)
        ++ [BatchRenderer.EnterFlush (BatchRenderer.width a) (BatchRenderer.height a);
            BatchRenderer.EnterSetBlend (BatchRenderer.blend a)]
      /\ BatchRenderer.numDraws (fst s') = S (BatchRenderer.numDraws (fst s))
      /\ BatchRenderer.vqueue (fst s') = BatchRenderer.vertices a
      /\ length (BatchRenderer.iqueue (fst s')) = length (BatchRenderer.indices a)).
Proof.
  intros Hnew Hearlier Ha s s'.
  assert (Hs : tracked maxVertices maxIndices s).
  { apply submit_all_tracked; [|exact Hearlier]. now apply (constructor_tracked format _ _ c). }
  destruct (submit_tracked maxVertices maxIndices a s Hs Ha) as [Ht Hflush].
  fold s' in Ht, Hflush.
  destruct Ht as (_ & Hmv & Hmi & Hlv & Hli & _).
  auto 10.
Qed.

Lemma queues_stay_within_maxima_witness :
  exists (r : BatchRenderer.t) (c0 : GfxCtx),
    let p := point_sub TRIANGLES None in
    let s := BatchRenderer.submit_all [p; p] (r, c0) in
    let s' := BatchRenderer.submit p s in
    BatchRenderer.constructor format0 4 4 ctx0 = Ok r c0
    /\ Forall (admissible 4 4) [p; p]
    /\ admissible 4 4 p
    /\ ~ fits p (fst s)
    /\ BatchRenderer.maxVertices (fst s') = 4
    /\ BatchRenderer.maxIndices (fst s') = 4
    /\ length (BatchRenderer.vqueue (fst s')) <= 4
    /\ length (BatchRenderer.iqueue (fst s')) <= 4
    /\ BatchRenderer.numDraws (fst s') = S (BatchRenderer.numDraws (fst s))
    /\ BatchRenderer.vqueue (fst s') = BatchRenderer.vertices p.
Proof.
  eexists _, _. cbv zeta.
  assert (Hadm : admissible 4 4 (point_sub TRIANGLES None)).
  { unfold admissible. cbn. repeat split; (lia || discriminate). }
  split; [lazy; reflexivity|].
  match goal with
  | |- Forall _ _ /\ _ /\ ~ fits _ (fst (BatchRenderer.submit_all _ (?r, ?c0))) /\ _ =>
      assert (Hnot : ~ fits (point_sub TRIANGLES None)
                       (fst (BatchRenderer.submit_all
                               [point_sub TRIANGLES None; point_sub TRIANGLES None]
                               (r, c0))))
        by (unfold fits; vm_compute; lia);
      pose proof (queues_stay_within_maxima format0 4 4 ctx0 c0 r
                    [point_sub TRIANGLES None; point_sub TRIANGLES None]
                    (point_sub TRIANGLES None)
                    ltac:(lazy; reflexivity)
                    ltac:(constructor; [exact Hadm | constructor; [exact Hadm | constructor]])
                    Hadm) as H
  end.
  cbv zeta in H. destruct H as (Hmv & Hmi & Hlv & Hli & Hflush).
  destruct (Hflush Hnot) as (_ & Hn & Hv & _).
  split; [constructor; [exact Hadm | constructor; [exact Hadm | constructor]]|].
  split; [exact Hadm|].
  split; [exact Hnot|].
  split; [exact Hmv|]. split; [exact Hmi|]. split; [exact Hlv|]. split; [exact Hli|].
  split; [exact Hn | exact Hv].
Defined.

(** C2 (as stated) fails for a push that is larger than the queue: on a
    renderer with room for four floats, one push of six floats enters
    [flush] and is then appended whole. *)
Lemma push_can_exceed_maxVertices :
  let s' := BatchRenderer.submit triangle_sub (renderer0 4 4) in
  BatchRenderer.maxVertices (fst s') = 4
  /\ BatchRenderer.entered (fst s')
     = [BatchRenderer.EnterFlush 640 480; BatchRenderer.EnterSetBlend BlendMode.Normal]
  /\ length (BatchRenderer.vqueue (fst s')) = 6
  /\ ~ length (BatchRenderer.vqueue (fst s')) <= BatchRenderer.maxVertices (fst s').
Proof.
  cbv zeta. do 3 (split; [vm_compute; reflexivity|]). vm_compute. lia.
Qed.

(** Why [admissible] asks for a primitive other than 0: [flush] tests
    [!this.curPrimitive], and [gl.POINTS] is 0.  Three pushes of one point
    each fit a queue of four floats one at a time, the third enters [flush],
    which returns at once, and the queue grows to six floats. *)
Lemma flush_returns_early_on_points :
  let p := point_sub POINTS None in
  let s' := BatchRenderer.submit_all [p; p; p] (renderer0 4 4) in
  BatchRenderer.numDraws (fst s') = 0
  /\ length (BatchRenderer.vqueue (fst s')) = 6
  /\ BatchRenderer.maxVertices (fst s') = 4.
Proof. cbv zeta. repeat (split; [vm_compute; reflexivity|]). vm_compute. reflexivity. Qed.

(* ================================================================== *)
(** ** BatchRenderer: recording into a picture *)
(* ================================================================== *)

(** A [push] while a picture is active only rewrites the picture. *)
Lemma submit_recording (a : BatchRenderer.Submission) (s : BatchRenderer.t * GfxCtx)
    (p : Picture.t) :
  BatchRenderer.picture (fst s) = Some p ->
  BatchRenderer.submit a s
  = (BatchRenderer.set_picture
       (Some (BatchRenderer.record (BatchRenderer.vertices a) (BatchRenderer.indices a)
                (BatchRenderer.shader a) (BatchRenderer.tex a) (BatchRenderer.uniform a)
                (BatchRenderer.blend a) (BatchRenderer.stride (fst s)) p))
       (fst s),
     snd s).
Proof. intros H. unfold BatchRenderer.submit, BatchRenderer.push. now rewrite H. Qed.

Lemma record_commands (a : BatchRenderer.Submission) (stride : nat) (p : Picture.t) :
  Picture.commands
    (BatchRenderer.record (BatchRenderer.vertices a) (BatchRenderer.indices a)
       (BatchRenderer.shader a) (BatchRenderer.tex a) (BatchRenderer.uniform a)
       (BatchRenderer.blend a) stride p)
  = match last (Picture.commands p) with
    | Some lastCommand =>
        if Picture.same_material (Picture.material lastCommand) (recorded_material a)
        then removelast (Picture.commands p)
             ++ [Picture.add_count (length (BatchRenderer.indices a)) lastCommand]
        else Picture.commands p
             ++ [{| Picture.material := recorded_material a;
                    Picture.index := length (Picture.indices p);
                    Picture.count := length (BatchRenderer.indices a) |}]
    | None =>
        Picture.commands p
        ++ [{| Picture.material := recorded_material a;
               Picture.index := length (Picture.indices p);
               Picture.count := length (BatchRenderer.indices a) |}]
    end
  /\ length (Picture.indices
               (BatchRenderer.record (BatchRenderer.vertices a) (BatchRenderer.indices a)
                  (BatchRenderer.shader a) (BatchRenderer.tex a) (BatchRenderer.uniform a)
                  (BatchRenderer.blend a) stride p))
     = length (Picture.indices p) + length (BatchRenderer.indices a).
Proof.
  unfold BatchRenderer.record, recorded_material. cbn [Picture.commands Picture.indices].
  split; [reflexivity|]. now rewrite length_app, length_map.
Qed.

Lemma submit_all_cons (a : BatchRenderer.Submission) (l : list BatchRenderer.Submission)
    (s : BatchRenderer.t * GfxCtx) :
  BatchRenderer.submit_all (a :: l) s = BatchRenderer.submit_all l (BatchRenderer.submit a s).
Proof. reflexivity. Qed.

Lemma add_count_add_count (n m : nat) (cmd : Picture.Command) :
  Picture.add_count m (Picture.add_count n cmd) = Picture.add_count (n + m) cmd.
Proof. unfold Picture.add_count. cbn. f_equal. lia. Qed.

(** Pushes whose material equals that of the last command all go into that
    command. *)
Lemma recording_extends_last (rest : list BatchRenderer.Submission)
    (s : BatchRenderer.t * GfxCtx) (p : Picture.t) (before : list Picture.Command)
    (cmd : Picture.Command) :
  BatchRenderer.picture (fst s) = Some p ->
  Picture.commands p = before ++ [cmd] ->
  Forall (fun b =>
            Picture.same_material (Picture.material cmd) (recorded_material b) = true)
    rest ->
  exists p',
    BatchRenderer.picture (fst (BatchRenderer.submit_all rest s)) = Some p'
    /\ Picture.commands p' = before ++ [Picture.add_count (index_count rest) cmd]
    /\ length (Picture.indices p') = length (Picture.indices p) + index_count rest
    /\ snd (BatchRenderer.submit_all rest s) = snd s.
Proof.
  intros Hp Hc Hrest. revert s p cmd Hp Hc Hrest.
  induction rest as [|b rest IH]; intros s p cmd Hp Hc Hrest.
  - exists p. cbn. rewrite Hp, Hc. repeat split; try lia.
    destruct cmd. unfold Picture.add_count. cbn. do 3 f_equal. lia.
  - apply Forall_cons in Hrest as [Hb Hrest].
    rewrite submit_all_cons, (submit_recording b s p Hp).
    destruct (record_commands b (BatchRenderer.stride (fst s)) p) as [Hcmds Hlen].
    rewrite Hc, last_snoc, Hb, removelast_last in Hcmds.
    set (p1 := BatchRenderer.record _ _ _ _ _ _ _ p) in *.
    destruct (IH (BatchRenderer.set_picture (Some p1) (fst s), snd s) p1
                (Picture.add_count (length (BatchRenderer.indices b)) cmd)
                eq_refl Hcmds Hrest)
      as (p' & Hp' & Hc' & Hl' & Hs').
    exists p'. split; [exact Hp'|].
    rewrite Hc', add_count_add_count, Hl', Hlen, Hs'.
    unfold index_count. cbn. repeat split; lia.
Qed.

(** C4 (as amended).  While a picture is active, a material is the texture,
    the shader and the uniform, compared by identity, and the blend mode;
    primitive and fixed are not part of it.  A push whose material differs
    from that of the last command (or that finds no command) appends a new
    command, and the pushes that follow with the same material extend it: a
    run of such pushes leaves exactly one new command, which starts at the
    index count the picture had and whose count is the sum of the pushed
    index counts.  The driver is not touched. *)
Theorem recording_merges_equal_materials (first : BatchRenderer.Submission)
    (rest : list BatchRenderer.Submission) (s : BatchRenderer.t * GfxCtx)
    (p : Picture.t) :
  BatchRenderer.picture (fst s) = Some p ->
  match last (Picture.commands p) with
  | Some cmd => Picture.same_material (Picture.material cmd) (recorded_material first) = false
  | None => True
  end ->
  Forall (fun b =>
            Picture.same_material (recorded_material first) (recorded_material b) = true)
    rest ->
  exists p',
    BatchRenderer.picture (fst (BatchRenderer.submit_all (first :: rest) s)) = Some p'
    /\ Picture.commands p'
       = Picture.commands p
         ++ [{| Picture.material := recorded_material first;
                Picture.index := length (Picture.indices p);
                Picture.count := index_count (first :: rest) |}]
    /\ snd (BatchRenderer.submit_all (first :: rest) s) = snd s.
Proof.
  intros Hp Hlast Hrest.
  rewrite submit_all_cons, (submit_recording first s p Hp).
  destruct (record_commands first (BatchRenderer.stride (fst s)) p) as [Hcmds _].
  set (p1 := BatchRenderer.record _ _ _ _ _ _ _ p) in *.
  assert (Hnew : Picture.commands p1
                 = Picture.commands p
                   ++ [{| Picture.material := recorded_material first;
                          Picture.index := length (Picture.indices p);
                          Picture.count := length (BatchRenderer.indices first) |}]).
  { rewrite Hcmds. destruct (last (Picture.commands p)); [now rewrite Hlast|reflexivity]. }
  destruct (recording_extends_last rest
              (BatchRenderer.set_picture (Some p1) (fst s), snd s) p1
              (Picture.commands p) _ eq_refl Hnew Hrest)
    as (p' & Hp' & Hc' & _ & Hs').
  exists p'. split; [exact Hp'|]. split; [|exact Hs'].
  rewrite Hc'. reflexivity.
Qed.

Lemma recording_merges_equal_materials_witness :
  let p := point_sub TRIANGLES (Some uniformA) in
  BatchRenderer.picture (fst recorder0) = Some empty_picture
  /\ Forall (fun b =>
               Picture.same_material (recorded_material p) (recorded_material b) = true)
       [p; p]
  /\ exists p',
       BatchRenderer.picture (fst (BatchRenderer.submit_all (p :: [p; p]) recorder0))
       = Some p'
       /\ Picture.commands p'
          = Picture.commands empty_picture
            ++ [{| Picture.material := recorded_material p;
                   Picture.index := length (Picture.indices empty_picture);
                   Picture.count := index_count (p :: [p; p]) |}]
       /\ snd (BatchRenderer.submit_all (p :: [p; p]) recorder0) = snd recorder0.
Proof.
  cbv zeta.
  assert (Hp : BatchRenderer.picture (fst recorder0) = Some empty_picture)
    by (vm_compute; reflexivity).
  assert (Hsame : Picture.same_material
                    (recorded_material (point_sub TRIANGLES (Some uniformA)))
                    (recorded_material (point_sub TRIANGLES (Some uniformA))) = true)
    by (vm_compute; reflexivity).
  assert (Hrest : Forall (fun b =>
                            Picture.same_material
                              (recorded_material (point_sub TRIANGLES (Some uniformA)))
                              (recorded_material b) = true)
                    [point_sub TRIANGLES (Some uniformA);
                     point_sub TRIANGLES (Some uniformA)])
    by (constructor; [exact Hsame | constructor; [exact Hsame | constructor]]).
  split; [exact Hp|]. split; [exact Hrest|].
  exact (recording_merges_equal_materials (point_sub TRIANGLES (Some uniformA))
           [point_sub TRIANGLES (Some uniformA); point_sub TRIANGLES (Some uniformA)]
           recorder0 empty_picture Hp I Hrest).
Defined.

(** C4 (as stated) fails in both directions.  Two pushes whose tuples are
    equal, with two uniform objects of the same content, leave two commands;
    and two pushes whose tuples differ, in the primitive only, leave one
    command of count 2. *)
Lemma recording_ignores_primitive_and_uniform_content :
  same_tuple (point_sub TRIANGLES (Some uniformA)) (point_sub TRIANGLES (Some uniformB))
  = true
  /\ option_map (fun p => map Picture.count (Picture.commands p))
       (BatchRenderer.picture
          (fst (BatchRenderer.submit_all
                  [point_sub TRIANGLES (Some uniformA); point_sub TRIANGLES (Some uniformB)]
                  recorder0)))
     = Some [1; 1]
  /\ same_tuple (point_sub TRIANGLES None) (point_sub LINES None) = false
  /\ option_map (fun p => map Picture.count (Picture.commands p))
       (BatchRenderer.picture
          (fst (BatchRenderer.submit_all
                  [point_sub TRIANGLES None; point_sub LINES None] recorder0)))
     = Some [2].
Proof. do 3 (split; [vm_compute; reflexivity|]). vm_compute. reflexivity. Qed.

(* ================================================================== *)
(** ** FrameBuffer: the row flip of [toImageData] *)
(* ================================================================== *)

(** Reading a list in which a segment was overwritten. *)
Lemma lookup_overwrite {A : Type} (l m : list A) (a n p : nat) :
  length m = n ->
  a + n <= length l ->
  (take a l ++ m ++ drop (a + n) l) !! p
  = if decide (p < a) then l !! p
    else if decide (p < a + n) then m !! (p - a)
    else l !! p.
Proof.
  intros Hm Hl.
  destruct (decide (p < a)) as [H1|H1].
  - rewrite lookup_app_l by (rewrite length_take; lia).
    apply lookup_take_lt. lia.
  - rewrite lookup_app_r by (rewrite length_take; lia).
    rewrite length_take, Nat.min_l by lia.
    destruct (decide (p < a + n)) as [H2|H2].
    + rewrite lookup_app_l by lia. reflexivity.
    + rewrite lookup_app_r by lia. rewrite lookup_drop. f_equal. lia.
Qed.

Lemma length_overwrite {A : Type} (l m : list A) (a n : nat) :
  length m = n ->
  a + n <= length l ->
  length (take a l ++ m ++ drop (a + n) l) = length l.
Proof.
  intros Hm Hl. rewrite !length_app, length_take, length_drop. lia.
Qed.

(** Row [r], column [c], lies in the rows before row [r']. *)
Lemma row_before (r r' c n : nat) : r < r' -> c < n -> r * n + c < r' * n.
Proof. intros Hr Hc. nia. Qed.

Lemma swapRows_length (n h y : nat) (data : list Z) :
  length data = h * n ->
  2 * y + 1 < h ->
  length (swapRows n h data y) = length data.
Proof.
  intros Hlen Hy. unfold swapRows.
  assert (Htop : y * n + n <= (h - y - 1) * n) by nia.
  assert (Hbot : (h - y - 1) * n + n <= h * n) by nia.
  assert (Hinner :
    length (take (y * n) data ++ take n (drop ((h - y - 1) * n) data)
            ++ drop (y * n + n) data) = length data).
  { apply length_overwrite; [|lia].
    rewrite length_take, length_drop. lia. }
  rewrite length_overwrite; [exact Hinner| |lia].
  rewrite length_take, length_drop. lia.
Qed.

(** One pass exchanges rows [y] and [h - y - 1] and leaves the others. *)
Lemma swapRows_lookup (n h y r c : nat) (data : list Z) :
  length data = h * n ->
  2 * y + 1 < h ->
  r < h -> c < n ->
  swapRows n h data y !! (r * n + c)
  = data !! ((if decide (r = y) then h - y - 1
              else if decide (r = h - y - 1) then y else r) * n + c).
Proof.
  intros Hlen Hy Hr Hc. unfold swapRows.
  assert (Htop : y * n + n <= (h - y - 1) * n) by nia.
  assert (Hbot : (h - y - 1) * n + n <= h * n) by nia.
  set (T := y * n) in *. set (B := (h - y - 1) * n) in *.
  assert (Hinner : length (take T data ++ take n (drop B data) ++ drop (T + n) data)
                   = length data).
  { apply length_overwrite; [|lia]. rewrite length_take, length_drop. lia. }
  rewrite (lookup_overwrite _ _ B n);
    [| rewrite length_take, length_drop; lia | lia].
  rewrite !(lookup_overwrite data _ T n);
    [| rewrite length_take, length_drop; lia | lia ..].
  assert (Hrow : forall r', r < r' -> r * n + c < r' * n)
    by (intros; now apply row_before).
  assert (Hrow' : forall r', r' < r -> r' * n + n <= r * n) by (intros; nia).
  destruct (decide (r = y)) as [->|Hry].
  - fold T. repeat case_decide; try lia.
    rewrite lookup_take_lt by lia. rewrite lookup_drop. f_equal. lia.
  - destruct (decide (r = h - y - 1)) as [->|Hrb].
    + fold B. repeat case_decide; try lia.
      rewrite lookup_take_lt by lia. rewrite lookup_drop. f_equal. lia.
    + destruct (decide (r < y)) as [Hlt|Hge].
      * specialize (Hrow y Hlt). fold T in Hrow. repeat case_decide; try lia; reflexivity.
      * assert (Hy' : y < r) by lia. specialize (Hrow' y Hy'). fold T in Hrow'.
        destruct (decide (r < h - y - 1)) as [Hlt2|Hge2].
        -- specialize (Hrow (h - y - 1) Hlt2). fold B in Hrow.
           repeat case_decide; try lia; reflexivity.
        -- assert (Hb : B + n <= r * n) by (unfold B; nia).
           repeat case_decide; try lia; reflexivity.
Qed.

(** After the first [k] passes the outer [k] rows at both ends are
    exchanged. *)
Lemma flip_passes (n h k : nat) (data : list Z) :
  length data = h * n ->
  2 * k <= h ->
  length (fold_left (swapRows n h) (seq 0 k) data) = length data
  /\ forall r c, r < h -> c < n ->
       fold_left (swapRows n h) (seq 0 k) data !! (r * n + c)
       = data !! ((if decide (r < k \/ h - k <= r) then h - 1 - r else r) * n + c).
Proof.
  intros Hlen. induction k as [|k IH]; intros Hk.
  - split; [reflexivity|]. intros r c Hr Hc. cbn.
    case_decide; [lia|reflexivity].
  - destruct IH as [IHlen IHlook]; [lia|].
    rewrite seq_S, fold_left_app. cbn [fold_left Nat.add].
    split.
    + rewrite swapRows_length; [exact IHlen|congruence|lia].
    + intros r c Hr Hc.
      rewrite swapRows_lookup; [|congruence|lia|exact Hr|exact Hc].
      rewrite IHlook; [|repeat case_decide; lia|exact Hc].
      do 3 f_equal. repeat case_decide; lia.
Qed.

(** X1.  The row flip of [toImageData] keeps the size of the buffer and
    puts row [height - 1 - r] of what was read at row [r]: the returned row
    0 is the last row read, the topmost one on screen. *)
Theorem flipRows_reverses_rows (width height : nat) (data : list Z) (r c : nat) :
  length data = width * height * 4 ->
  r < height -> c < width * 4 ->
  length (flipRows width height data) = length data
  /\ flipRows width height data !! (r * (width * 4) + c)
     = data !! ((height - 1 - r) * (width * 4) + c).
Proof.
  intros Hlen Hr Hc. unfold flipRows.
  assert (Hlen' : length data = height * (width * 4)) by lia.
  assert (Hhalf : 2 * (height / 2) <= height).
  { pose proof (Nat.div_mod_eq height 2). lia. }
  destruct (flip_passes (width * 4) height (height / 2) data Hlen' Hhalf) as [Hl Hlook].
  split; [exact Hl|].
  rewrite Hlook by assumption.
  do 3 f_equal.
  pose proof (Nat.div_mod_eq height 2).
  pose proof (Nat.mod_upper_bound height 2).
  case_decide; lia.
Qed.

Lemma flipRows_reverses_rows_witness :
  length [1; 2; 3; 4; 5; 6; 7; 8]%Z = 1 * 2 * 4
  /\ 0 < 2 /\ 1 < 1 * 4
  /\ length (flipRows 1 2 [1; 2; 3; 4; 5; 6; 7; 8]%Z) = length [1; 2; 3; 4; 5; 6; 7; 8]%Z
  /\ flipRows 1 2 [1; 2; 3; 4; 5; 6; 7; 8]%Z !! (0 * (1 * 4) + 1)
     = [1; 2; 3; 4; 5; 6; 7; 8]%Z !! ((2 - 1 - 0) * (1 * 4) + 1).
Proof.
  split; [reflexivity|]. split; [lia|]. split; [lia|].
  apply (flipRows_reverses_rows 1 2 [1; 2; 3; 4; 5; 6; 7; 8]%Z 0 1); [reflexivity|lia|lia].
Defined.

(* ================================================================== *)
(** ** [setVertexFormat] *)
(* ================================================================== *)

Lemma stride_of_sum (fmt : VertexFormat) : stride_of fmt = sum_list (map snd fmt).
Proof.
  unfold stride_of.
  assert (H : forall a, fold_left (fun sum f => sum + snd f) fmt a
                        = a + sum_list (map snd fmt)).
  { induction fmt as [|f fmt IH]; intros a; cbn; [lia|]. rewrite IH. lia. }
  apply H.
Qed.

Lemma disableAttribs_calls (from upto : nat) (g : GLState) :
  calls (disableAttribs from upto g)
  = calls g ++ map DisableVertexAttribArray (seq from (upto - from))
  /\ MAX_VERTEX_ATTRIBS (disableAttribs from upto g) = MAX_VERTEX_ATTRIBS g.
Proof.
  unfold disableAttribs. generalize (seq from (upto - from)) as l. intros l.
  revert g. induction l as [|i l IH]; intros g; cbn [fold_left map].
  - now rewrite app_nil_r.
  - destruct (IH (emit (DisableVertexAttribArray i) g)) as [-> ->].
    cbn. now rewrite <- app_assoc.
Qed.

Lemma enableAttribs_calls (stride : nat) (fmt : VertexFormat) (i offset : nat) (g : GLState) :
  calls (enableAttribs stride fmt i offset g)
  = calls g
    ++ concat
         (imap (fun j f =>
                  [EnableVertexAttribArray (i + j);
                   VertexAttribPointer (i + j) (snd f) (stride * 4)
                     (offset + sum_list (map snd (take j fmt)) * 4)])
            fmt)
  /\ MAX_VERTEX_ATTRIBS (enableAttribs stride fmt i offset g) = MAX_VERTEX_ATTRIBS g.
Proof.
  revert i offset g. induction fmt as [|f fmt IH]; intros i offset g.
  - cbn. now rewrite app_nil_r.
  - cbn [enableAttribs].
    destruct (IH (S i) (offset + snd f * 4)
                (emit (VertexAttribPointer i (snd f) (stride * 4) offset)
                   (emit (EnableVertexAttribArray i) g))) as [-> ->].
    split; [|reflexivity].
    cbn [calls emit imap concat take map sum_list].
    rewrite !Nat.add_0_r, <- !app_assoc. cbn [app]. do 3 f_equal.
    f_equal. apply imap_ext. intros j f' _. cbn.
    do 2 f_equal; [lia | f_equal; lia].
Qed.

(** The two paths of [setVertexFormat]. *)
Lemma setVertexFormat_same (fmt : VertexFormat) (c : GfxCtx) :
  curVertexFormat c = Some fmt -> setVertexFormat fmt c = c.
Proof.
  intros Heq. unfold setVertexFormat. now rewrite (bool_decide_eq_true_2 _ Heq).
Qed.

Lemma setVertexFormat_changed (fmt : VertexFormat) (c : GfxCtx) :
  curVertexFormat c <> Some fmt ->
  curVertexFormat (setVertexFormat fmt c) = Some fmt
  /\ calls (gl (setVertexFormat fmt c))
     = calls (gl c)
       ++ map DisableVertexAttribArray
            (seq (length fmt) (MAX_VERTEX_ATTRIBS (gl c) - length fmt))
       ++ layout_calls fmt.
Proof.
  intros Hne. unfold setVertexFormat.
  rewrite (bool_decide_eq_false_2 _ Hne). cbn [curVertexFormat with_gl with_format gl].
  split; [reflexivity|].
  rewrite (proj1 (enableAttribs_calls _ _ _ _ _)),
    (proj1 (disableAttribs_calls _ _ _)), <- app_assoc.
  do 2 f_equal. unfold layout_calls, attrib_offset. rewrite stride_of_sum.
  reflexivity.
Qed.

(** The calls of [setVertexFormat] are attribute calls: a predicate that
    rejects those finds nothing new. *)
Lemma setVertexFormat_filter (P : GLCall -> bool) (fmt : VertexFormat) (c : GfxCtx) :
  (forall i, P (DisableVertexAttribArray i) = false) ->
  (forall i, P (EnableVertexAttribArray i) = false) ->
  (forall i size stride offset, P (VertexAttribPointer i size stride offset) = false) ->
  List.filter P (calls (gl (setVertexFormat fmt c))) = List.filter P (calls (gl c)).
Proof.
  intros Hd He Hp.
  destruct (decide (curVertexFormat c = Some fmt)) as [Heq|Hne];
    [now rewrite setVertexFormat_same|].
  destruct (setVertexFormat_changed fmt c Hne) as [_ ->]. rewrite !List.filter_app.
  assert (H1 : forall l, List.filter P (map DisableVertexAttribArray l) = []).
  { induction l as [|i l IH]; cbn; [reflexivity|]. now rewrite Hd. }
  assert (H2 : forall (F : nat -> string * nat -> list GLCall) l,
             (forall j f, List.filter P (F j f) = []) ->
             List.filter P (concat (imap F l)) = []).
  { intros F l. revert F. induction l as [|f l IH]; intros F HF; cbn; [reflexivity|].
    rewrite List.filter_app, HF. cbn. apply IH. intros j f'. apply HF. }
  rewrite H1. unfold layout_calls. rewrite H2; [now rewrite !app_nil_r|].
  intros j f. cbn. now rewrite He, Hp.
Qed.

(** X2.  [setVertexFormat(fmt)] does nothing when [fmt] is structurally the
    format set last.  Otherwise it remembers [fmt], disables the attributes
    from [fmt.length] up to the limit of the driver, and enables attribute
    [j] for every entry [j] with the size of the entry, a stride of four
    bytes per component of the whole vertex, and the byte offset of the
    components before it; a second call with the same format is then
    silent. *)
Theorem setVertexFormat_layout (fmt : VertexFormat) (c : GfxCtx) :
  (if bool_decide (curVertexFormat c = Some fmt)
   then setVertexFormat fmt c = c
   else curVertexFormat (setVertexFormat fmt c) = Some fmt
        /\ calls (gl (setVertexFormat fmt c))
           = calls (gl c)
             ++ map DisableVertexAttribArray
                  (seq (length fmt) (MAX_VERTEX_ATTRIBS (gl c) - length fmt))
             ++ layout_calls fmt)
  /\ setVertexFormat fmt (setVertexFormat fmt c) = setVertexFormat fmt c.
Proof.
  destruct (decide (curVertexFormat c = Some fmt)) as [Heq|Hne].
  - rewrite (bool_decide_eq_true_2 _ Heq).
    pose proof (setVertexFormat_same fmt c Heq) as Hid.
    split; [exact Hid|]. now rewrite !Hid.
  - rewrite (bool_decide_eq_false_2 _ Hne).
    destruct (setVertexFormat_changed fmt c Hne) as [Hcur Hcalls]. split; [auto|].
    now apply setVertexFormat_same.
Qed.

(* ================================================================== *)
(** ** Balanced use of the stacks *)
(* ================================================================== *)

Arguments upd : simpl never.

Lemma same_stacks_refl (c : GfxCtx) : same_stacks c c.
Proof. split; reflexivity. Qed.



Lemma stacks_pushOn (k : Kind) (item : option handle) (c : GfxCtx) (k' : Kind) :
  stacks (pushOn k item c) k'
  = if decide (k = k') then item :: stacks c k else stacks c k'.
Proof.
  unfold pushOn. cbn. case_decide as H; [subst; apply upd_same | now apply upd_other].
Qed.

Lemma stacks_popOn (k : Kind) (c : GfxCtx) (k' : Kind) :
  stacks (popOn k c) k' = if decide (k = k') then tail (stacks c k) else stacks c k'.
Proof.
  unfold popOn. cbn. case_decide as H; [subst; apply upd_same | now apply upd_other].
Qed.

Lemma stacks_with_gl (g : GLState) (c : GfxCtx) : stacks (with_gl g c) = stacks c.
Proof. reflexivity. Qed.

Lemma stacks_gl_do (e : GLCall) (c : GfxCtx) : stacks (gl_do e c) = stacks c.
Proof. reflexivity. Qed.

Lemma stacks_onDestroy (a : DestroyAction) (c : GfxCtx) : stacks (onDestroy a c) = stacks c.
Proof. reflexivity. Qed.

Lemma stacks_setVertexFormat (fmt : VertexFormat) (c : GfxCtx) :
  stacks (setVertexFormat fmt c) = stacks c.
Proof. unfold setVertexFormat. now destruct (bool_decide _). Qed.

Lemma stacks_pushViewport (item : option Rect.t) (c : GfxCtx) :
  stacks (pushViewport item c) = stacks c.
Proof. reflexivity. Qed.

Lemma stacks_popViewport (c : GfxCtx) : stacks (popViewport c) = stacks c.
Proof. reflexivity. Qed.

Lemma viewportStack_pushOn (k : Kind) (item : option handle) (c : GfxCtx) :
  viewportStack (pushOn k item c) = viewportStack c.
Proof. reflexivity. Qed.

Lemma viewportStack_popOn (k : Kind) (c : GfxCtx) :
  viewportStack (popOn k c) = viewportStack c.
Proof. reflexivity. Qed.

Lemma viewportStack_with_gl (g : GLState) (c : GfxCtx) :
  viewportStack (with_gl g c) = viewportStack c.
Proof. reflexivity. Qed.

Lemma viewportStack_gl_do (e : GLCall) (c : GfxCtx) :
  viewportStack (gl_do e c) = viewportStack c.
Proof. reflexivity. Qed.

Lemma viewportStack_onDestroy (a : DestroyAction) (c : GfxCtx) :
  viewportStack (onDestroy a c) = viewportStack c.
Proof. reflexivity. Qed.

Lemma viewportStack_setVertexFormat (fmt : VertexFormat) (c : GfxCtx) :
  viewportStack (setVertexFormat fmt c) = viewportStack c.
Proof. unfold setVertexFormat. now destruct (bool_decide _). Qed.

Lemma viewportStack_pushViewport (item : option Rect.t) (c : GfxCtx) :
  viewportStack (pushViewport item c) = item :: viewportStack c.
Proof. reflexivity. Qed.

Lemma viewportStack_popViewport (c : GfxCtx) :
  viewportStack (popViewport c) = tail (viewportStack c).
Proof. reflexivity. Qed.

Create Rewrite HintDb stacks.
#[local] Hint Rewrite stacks_pushOn stacks_popOn stacks_with_gl stacks_gl_do
  stacks_onDestroy stacks_setVertexFormat stacks_pushViewport stacks_popViewport
  viewportStack_pushOn viewportStack_popOn viewportStack_with_gl viewportStack_gl_do
  viewportStack_onDestroy viewportStack_setVertexFormat viewportStack_pushViewport
  viewportStack_popViewport : stacks.

(** Computing the stacks of a context built from pushes, pops and driver
    calls. *)
Ltac stacks_tac :=
  unfold pushTexture2D, popTexture2D, pushArrayBuffer, popArrayBuffer,
    pushElementArrayBuffer, popElementArrayBuffer, pushFramebuffer, popFramebuffer,
    pushRenderbuffer, popRenderbuffer, pushProgram, popProgram;
  split; [intros ?k|];
  autorewrite with stacks;
  repeat case_decide; subst; cbn [tail]; (congruence || reflexivity).


(* ================================================================== *)
(** ** Texture: the dummy texture, and [fromImage] *)
(* ================================================================== *)

Lemma gl_create_calls (g : GLState) :
  calls (snd (gl_create g)) = calls g ++ [Create (fst (gl_create g))].
Proof. unfold gl_create. destruct (alloc_script g) as [|[] rest]; reflexivity. Qed.

Lemma gl_pushOn (k : Kind) (item : option handle) (c : GfxCtx) :
  gl (pushOn k item c) = setFunc k item (gl c).
Proof. reflexivity. Qed.

Lemma gl_pushViewport (item : option Rect.t) (c : GfxCtx) :
  gl (pushViewport item c) = setViewport item (gl c).
Proof. reflexivity. Qed.

(** X4.  [unbind] does not leave the texture stack's previous state bound
    when there is none: an [update] made while the texture stack is empty
    (or has [null] on top) draws one new handle from the driver and returns
    with that handle, not the updated texture and not [null], bound. *)
Theorem update_leaves_a_new_texture_bound (img : ImageSource.t) (x y : Z)
    (this : Texture.t) (c : GfxCtx) :
  genStack.nullish (head (stacks c Texture2D)) = None ->
  head (alloc_script (gl c)) <> Some false ->
  let c' := snd (Texture.update img x y this c) in
  next_handle (gl c') = S (next_handle (gl c))
  /\ bound (gl c') Texture2D = Some (next_handle (gl c))
  /\ In (Create (Some (next_handle (gl c)))) (calls (gl c')).
Proof.
  intros Hempty Hgrant c'.
  assert (Hshape : exists g,
             gl c' = setFunc Texture2D None g
             /\ alloc_script g = alloc_script (gl c)
             /\ next_handle g = next_handle (gl c)).
  { unfold c', Texture.update, Texture.bind, Texture.unbind, popTexture2D, pushTexture2D.
    destruct (Texture._allocated this); cbn [snd];
      rewrite (proj2 (popOn_gl Texture2D _)); unfold gl_do;
      rewrite ?stacks_with_gl, stacks_pushOn; cbn [tail];
      (destruct (decide (Texture2D = Texture2D)); [|congruence]); cbn [tail];
      rewrite Hempty; eexists; (split; [reflexivity|]); split; reflexivity. }
  destruct Hshape as (g & Hg & Hscript & Hnext). rewrite Hg.
  unfold setFunc.
  destruct (gl_create_result g) as [Hfst Hsnd].
  pose proof (gl_create_calls g) as Hcalls.
  destruct (gl_create g) as [d g']. cbn [fst snd] in *.
  rewrite Hscript, Hnext in *.
  rewrite bool_decide_eq_false_2 in Hfst, Hsnd by assumption. subst d.
  cbn. rewrite upd_same, Hcalls.
  repeat split; [exact Hsnd|].
  apply in_app_iff. left. apply in_app_iff. right. now left.
Qed.

Lemma update_leaves_a_new_texture_bound_witness :
  exists (this : Texture.t) (c : GfxCtx),
    Texture.constructor 0 0 opt0 ctx0 = Ok this c
    /\ genStack.nullish (head (stacks c Texture2D)) = None
    /\ head (alloc_script (gl c)) <> Some false
    /\ next_handle (gl (snd (Texture.update img2x2 0 0 this c))) = S (next_handle (gl c))
    /\ bound (gl (snd (Texture.update img2x2 0 0 this c))) Texture2D
       = Some (next_handle (gl c))
    /\ In (Create (Some (next_handle (gl c))))
         (calls (gl (snd (Texture.update img2x2 0 0 this c)))).
Proof.
  eexists _, _. split; [lazy; reflexivity|].
  split; [reflexivity|]. split; [discriminate|].
  match goal with
  | |- next_handle (gl (snd (Texture.update _ _ _ ?t ?c))) = _ /\ _ =>
      exact (update_leaves_a_new_texture_bound img2x2 0 0 t c eq_refl
               ltac:(discriminate))
  end.
Defined.

(** X5.  [Texture.fromImage] allocates storage exactly once, with the size
    of the image, whatever that size is: in the constructor when both
    dimensions are nonzero, and in [update] otherwise.  The texture returned
    is flagged as allocated, has the dimensions of the image and keeps the
    image as [src]. *)
Theorem fromImage_allocates_once (img : ImageSource.t) (opt : TextureOpt.t)
    (c c' : GfxCtx) (tex : Texture.t) :
  Texture.fromImage img opt c = Ok tex c' ->
  storage_allocations c'
  = storage_allocations c
    ++ [TexImage2D (ImageSource.width img) (ImageSource.height img)]
  /\ Texture._allocated tex = true
  /\ Texture.src tex = Some img
  /\ Texture.width tex = ImageSource.width img
  /\ Texture.height tex = ImageSource.height img.
Proof.
  unfold Texture.fromImage, and_then.
  destruct (Texture.constructor (ImageSource.width img) (ImageSource.height img) opt c)
    as [t0 c0|] eqn:Hnew; [|discriminate].
  destruct (Texture_constructor_ok _ _ _ _ _ _ Hnew) as (_ & _ & Hw & Hh & Ha & Hs).
  destruct (Texture_update_effect img 0 0 t0 c0) as [Hfst Hsnd].
  destruct (Texture.update img 0 0 t0 c0) as [t1 c1]. cbn [fst snd] in *.
  intros [= <- <-]. subst t1. cbn. rewrite Hsnd, Hs, Ha.
  repeat split; try assumption.
  destruct (truthy _ && truthy _); cbn; now rewrite ?app_nil_r.
Qed.

Lemma fromImage_allocates_once_witness :
  exists (tex : Texture.t) (c' : GfxCtx),
    Texture.fromImage img2x2 opt0 ctx0 = Ok tex c'
    /\ storage_allocations c' = storage_allocations ctx0 ++ [TexImage2D 2 2]
    /\ Texture._allocated tex = true
    /\ Texture.src tex = Some img2x2
    /\ Texture.width tex = ImageSource.width img2x2
    /\ Texture.height tex = ImageSource.height img2x2.
Proof.
  eexists _, _. split; [lazy; reflexivity|].
  apply (fromImage_allocates_once img2x2 opt0 ctx0). lazy. reflexivity.
Defined.

(* ================================================================== *)
(** ** FrameBuffer: attachment, [bind], [unbind] and [draw] *)
(* ================================================================== *)

(** X6.  A frame buffer leaves its constructor attached exactly when its
    texture has storage, that is, when both dimensions are nonzero; its
    [width] and [height] are the constructor arguments. *)
Theorem FrameBuffer_attached_with_texture (w h : Z) (opt : TextureOpt.t)
    (c c' : GfxCtx) (fb : FrameBuffer.t) :
  FrameBuffer.constructor w h opt c = Ok fb c' ->
  FrameBuffer._attached fb = Texture._allocated (FrameBuffer.tex fb)
  /\ FrameBuffer._attached fb = truthy w && truthy h
  /\ FrameBuffer.width fb = w /\ FrameBuffer.height fb = h.
Proof.
  unfold FrameBuffer.constructor.
  unfold and_then at 1. unfold run at 1. unfold and_then at 1.
  destruct (Texture.constructor w h opt (onDestroy FreeFrameBuffer c)) as [tx c1|] eqn:Hnew;
    [|discriminate].
  destruct (Texture_constructor_ok _ _ _ _ _ _ Hnew) as (_ & _ & Hw & Hh & Ha & _).
  unfold and_then, create, ret, throw.
  destruct (gl_create (gl c1)) as [[f|] g2]; cbn [gl with_gl fst snd];
    destruct (gl_create g2) as [[rb|] g3]; try discriminate.
  unfold FrameBuffer.width, FrameBuffer.height.
  destruct (Texture._allocated tx) eqn:Halloc.
  - pose proof (FrameBuffer_bind_fields
                  {| FrameBuffer.tex := tx; FrameBuffer.glFramebuffer := f;
                     FrameBuffer.glRenderbuffer := rb; FrameBuffer._attached := false |}
                  (with_gl g3 (with_gl g2 c1))) as (Ht & _ & _).
    destruct (FrameBuffer.bind _ _) as [this' cb]. cbn [fst] in Ht.
    intros [= <- _].
    cbn [FrameBuffer.set_attached FrameBuffer.tex FrameBuffer._attached].
    rewrite Ht. cbn [FrameBuffer.tex]. rewrite Halloc. auto.
  - intros [= <- _]. cbn [FrameBuffer.tex FrameBuffer._attached].
    rewrite Halloc. auto.
Qed.

Lemma FrameBuffer_attached_with_texture_witness :
  exists (fb : FrameBuffer.t) (c' : GfxCtx),
    FrameBuffer.constructor 4 4 opt0 ctx0 = Ok fb c'
    /\ FrameBuffer._attached fb = Texture._allocated (FrameBuffer.tex fb)
    /\ FrameBuffer._attached fb = truthy 4 && truthy 4
    /\ FrameBuffer.width fb = 4%Z /\ FrameBuffer.height fb = 4%Z.
Proof.
  eexists _, _. split; [lazy; reflexivity|].
  eapply (FrameBuffer_attached_with_texture 4 4 opt0 ctx0). lazy. reflexivity.
Defined.

Lemma setViewport_some (r : Rect.t) (g : GLState) :
  viewport (setViewport (Some r) g) = r /\ bound (setViewport (Some r) g) = bound g.
Proof. split; reflexivity. Qed.

(** What [bind] leaves attached and bound. *)
Lemma FrameBuffer_bind_bound (this : FrameBuffer.t) (c : GfxCtx) :
  FrameBuffer._attached (fst (FrameBuffer.bind this c)) = true
  /\ bound (gl (snd (FrameBuffer.bind this c))) Framebuffer
     = Some (FrameBuffer.glFramebuffer this)
  /\ bound (gl (snd (FrameBuffer.bind this c))) Renderbuffer
     = Some (FrameBuffer.glRenderbuffer this).
Proof.
  unfold FrameBuffer.bind, pushFramebuffer, pushRenderbuffer.
  destruct (FrameBuffer._attached this) eqn:Hatt; cbn [fst snd];
    rewrite gl_pushViewport, !gl_pushOn;
    rewrite !(proj2 (setViewport_some _ _));
    rewrite setFunc_bound_some;
    rewrite (setFunc_bound_other Renderbuffer Framebuffer) by discriminate;
    rewrite setFunc_bound_some;
    repeat split; try assumption; reflexivity.
Qed.

(** X7.  [bind] returns with the frame buffer attached, its framebuffer and
    renderbuffer bound, and the viewport set to the rectangle of its own
    [width] and [height] at the origin, whether the attachment had been
    deferred or not; the texture it owns is not replaced. *)
Theorem FrameBuffer_bind_binds (this : FrameBuffer.t) (c : GfxCtx) :
  let this' := fst (FrameBuffer.bind this c) in
  let c' := snd (FrameBuffer.bind this c) in
  FrameBuffer._attached this' = true
  /\ FrameBuffer.tex this' = FrameBuffer.tex this
  /\ bound (gl c') Framebuffer = Some (FrameBuffer.glFramebuffer this)
  /\ bound (gl c') Renderbuffer = Some (FrameBuffer.glRenderbuffer this)
  /\ viewport (gl c')
     = {| Rect.x := 0; Rect.y := 0;
          Rect.w := FrameBuffer.width this; Rect.h := FrameBuffer.height this |}
  /\ head (viewportStack c') = Some (Some (viewport (gl c'))).
Proof.
  unfold FrameBuffer.bind, pushFramebuffer, pushRenderbuffer.
  destruct (FrameBuffer._attached this) eqn:Hatt; cbn [fst snd];
    rewrite gl_pushViewport, !gl_pushOn;
    rewrite (proj1 (setViewport_some _ _)), !(proj2 (setViewport_some _ _));
    rewrite setFunc_bound_some;
    rewrite (setFunc_bound_other Renderbuffer Framebuffer) by discriminate;
    rewrite setFunc_bound_some;
    rewrite viewportStack_pushViewport;
    repeat split; try assumption; reflexivity.
Qed.

(** What [bind] pushes. *)
Lemma FrameBuffer_bind_stacks (this : FrameBuffer.t) (c : GfxCtx) :
  same_stacks
    (pushViewport
       (Some {| Rect.x := 0; Rect.y := 0;
                Rect.w := FrameBuffer.width this; Rect.h := FrameBuffer.height this |})
       (pushRenderbuffer (Some (FrameBuffer.glRenderbuffer this))
          (pushFramebuffer (Some (FrameBuffer.glFramebuffer this)) c)))
    (snd (FrameBuffer.bind this c)).
Proof.
  unfold FrameBuffer.bind.
  destruct (FrameBuffer._attached this); cbn [snd]; [apply same_stacks_refl|].
  unfold FrameBuffer.attach. stacks_tac.
Qed.

(** X8.  [draw(action)] brackets the action: if the action returns with the
    stacks as it found them, so does [draw]; and if the viewport in force
    before [draw] was the top of the viewport stack, that viewport is in
    force again afterwards, whatever the action set. *)
Theorem FrameBuffer_draw_restores (action : GfxCtx -> GfxCtx) (this : FrameBuffer.t)
    (c : GfxCtx) :
  (forall c1, same_stacks c1 (action c1)) ->
  settled ViewportStack c = true ->
  let c' := snd (FrameBuffer.draw action this c) in
  same_stacks c c'
  /\ viewport (gl c') = viewport (gl c)
  /\ FrameBuffer._attached (fst (FrameBuffer.draw action this c)) = true.
Proof.
  intros Haction Hsettled.
  pose proof (FrameBuffer_bind_stacks this c) as [Hcb Hcbv].
  pose proof (FrameBuffer_bind_bound this c) as (Hatt & _).
  unfold FrameBuffer.draw.
  destruct (FrameBuffer.bind this c) as [this' cb]. cbn [fst snd] in *.
  destruct (Haction cb) as [Ha Hav].
  unfold pushFramebuffer, pushRenderbuffer in Hcbv.
  autorewrite with stacks in Hcbv.
  split; [|split; [|exact Hatt]].
  - unfold FrameBuffer.unbind, popFramebuffer, popRenderbuffer. split.
    + intros k. autorewrite with stacks. rewrite !Ha, !Hcb.
      unfold pushFramebuffer, pushRenderbuffer. autorewrite with stacks.
      repeat case_decide; subst; cbn [tail]; (congruence || reflexivity).
    + autorewrite with stacks. rewrite Hav, Hcbv. reflexivity.
  - unfold FrameBuffer.unbind. rewrite (proj2 (popViewport_gl _)).
    unfold popFramebuffer, popRenderbuffer. autorewrite with stacks.
    rewrite Hav, Hcbv. cbn [tail].
    cbn in Hsettled.
    destruct (viewportStack c) as [|[top|] rest]; try discriminate.
    apply bool_decide_eq_true in Hsettled.
    cbn [head genStack.nullish]. rewrite (proj1 (setViewport_some _ _)).
    exact (eq_sym Hsettled).
Qed.

Lemma FrameBuffer_draw_restores_witness :
  exists (fb : FrameBuffer.t) (c : GfxCtx),
    FrameBuffer.constructor 4 4 opt0 ctx0 = Ok fb c
    /\ (forall c1, same_stacks c1 (set_small_viewport c1))
    /\ settled ViewportStack c = true
    /\ same_stacks c (snd (FrameBuffer.draw set_small_viewport fb c))
    /\ viewport (gl (snd (FrameBuffer.draw set_small_viewport fb c))) = viewport (gl c)
    /\ FrameBuffer._attached (fst (FrameBuffer.draw set_small_viewport fb c)) = true.
Proof.
  eexists _, _. split; [lazy; reflexivity|].
  split; [intros c1; split; reflexivity|].
  split; [reflexivity|].
  match goal with
  | |- same_stacks ?c (snd (FrameBuffer.draw ?a ?fb ?c)) /\ _ =>
      exact (FrameBuffer_draw_restores a fb c
               ltac:(intros c1; split; reflexivity) eq_refl)
  end.
Defined.

(** X9.  [unbind] does not go back to the default framebuffer: when no
    other frame buffer was on the stack, [bind] followed by [unbind] leaves
    this frame buffer and its renderbuffer bound. *)
Theorem FrameBuffer_stays_bound (this : FrameBuffer.t) (c : GfxCtx) :
  stacks c Framebuffer = [] ->
  stacks c Renderbuffer = [] ->
  let c' := FrameBuffer.unbind (fst (FrameBuffer.bind this c))
              (snd (FrameBuffer.bind this c)) in
  bound (gl c') Framebuffer = Some (FrameBuffer.glFramebuffer this)
  /\ bound (gl c') Renderbuffer = Some (FrameBuffer.glRenderbuffer this).
Proof.
  intros Hf Hr.
  pose proof (FrameBuffer_bind_stacks this c) as [Hcb _].
  pose proof (FrameBuffer_bind_bound this c) as (_ & Hfb & Hrb).
  destruct (FrameBuffer.bind this c) as [this' cb]. cbn [fst snd] in *.
  assert (Hb : forall it g, bound (setViewport it g) = bound g)
    by (intros [?|] ?; reflexivity).
  assert (HF : stacks cb Framebuffer = [Some (FrameBuffer.glFramebuffer this)]).
  { rewrite Hcb. unfold pushFramebuffer, pushRenderbuffer. autorewrite with stacks.
    repeat (case_decide; try congruence); now rewrite ?Hf. }
  assert (HR : stacks cb Renderbuffer = [Some (FrameBuffer.glRenderbuffer this)]).
  { rewrite Hcb. unfold pushFramebuffer, pushRenderbuffer. autorewrite with stacks.
    repeat (case_decide; try congruence); now rewrite ?Hr. }
  cbv zeta. unfold FrameBuffer.unbind.
  rewrite (proj2 (popViewport_gl _)), Hb.
  unfold popRenderbuffer, popFramebuffer.
  rewrite (proj2 (popOn_gl Renderbuffer _)).
  rewrite stacks_popOn. case_decide; [congruence|]. rewrite HR. cbn [tail head genStack.nullish].
  rewrite (proj2 (popOn_gl Framebuffer _)), HF. cbn [tail head genStack.nullish].
  unfold setFunc. auto.
Qed.

Lemma FrameBuffer_stays_bound_witness :
  exists (fb : FrameBuffer.t) (c : GfxCtx),
    FrameBuffer.constructor 0 0 opt0 ctx0 = Ok fb c
    /\ stacks c Framebuffer = []
    /\ stacks c Renderbuffer = []
    /\ bound (gl (FrameBuffer.unbind (fst (FrameBuffer.bind fb c))
                    (snd (FrameBuffer.bind fb c)))) Framebuffer
       = Some (FrameBuffer.glFramebuffer fb)
    /\ bound (gl (FrameBuffer.unbind (fst (FrameBuffer.bind fb c))
                    (snd (FrameBuffer.bind fb c)))) Renderbuffer
       = Some (FrameBuffer.glRenderbuffer fb).
Proof.
  eexists _, _. split; [lazy; reflexivity|].
  split; [reflexivity|]. split; [reflexivity|].
  match goal with
  | |- bound (gl (FrameBuffer.unbind _ (snd (FrameBuffer.bind ?fb ?c)))) _ = _ /\ _ =>
      exact (FrameBuffer_stays_bound fb c eq_refl eq_refl)
  end.
Defined.

(* ================================================================== *)
(** ** Draw calls: Mesh and BatchRenderer *)
(* ================================================================== *)

Lemma setFunc_draws (k : Kind) (item : option handle) (g : GLState) :
  List.filter is_draw (calls (setFunc k item g)) = List.filter is_draw (calls g).
Proof.
  assert (Hbind : forall k' it g',
             List.filter is_draw (calls (gl_bind k' it g'))
             = List.filter is_draw (calls g')).
  { intros. simpl. rewrite List.filter_app. simpl. apply app_nil_r. }
  unfold setFunc. destruct k, item; try apply Hbind; try reflexivity.
  pose proof (gl_create_calls g) as Hc.
  destruct (gl_create g) as [d g']. rewrite Hbind. cbn [snd fst] in Hc.
  rewrite Hc, List.filter_app. cbn. apply app_nil_r.
Qed.

Lemma gl_bufferData_draws (k : Kind) (n : nat) (g : GLState) :
  List.filter is_draw (calls (gl_bufferData k n g)) = List.filter is_draw (calls g).
Proof.
  unfold gl_bufferData. destruct (bound g k); cbn;
    rewrite List.filter_app; cbn; apply app_nil_r.
Qed.

Lemma setVertexFormat_draws (fmt : VertexFormat) (c : GfxCtx) :
  List.filter is_draw (calls (gl (setVertexFormat fmt c)))
  = List.filter is_draw (calls (gl c)).
Proof. now apply setVertexFormat_filter. Qed.

(** Rewriting the draw calls of a context built from driver calls and
    stack operations down to those of the context it started from. *)
Ltac count_draws :=
  unfold draw_calls, pushTexture2D, popTexture2D, pushArrayBuffer, popArrayBuffer,
    pushElementArrayBuffer, popElementArrayBuffer, gl_do;
  cbn [gl with_gl with_stack pushOn popOn genStack.push genStack.pop fst snd calls emit];
  repeat (rewrite ?setFunc_draws, ?gl_bufferData_draws, ?setVertexFormat_draws,
            ?List.filter_app;
          cbn [gl with_gl with_stack pushOn popOn genStack.push genStack.pop fst snd
                 calls emit List.filter is_draw]);
  rewrite ?app_nil_r.

(** X10.  A mesh is constructed without a draw call and with the stacks as
    they were; [draw] then issues exactly one [drawElements], with the
    arguments given or else [TRIANGLES], the number of indices the mesh was
    built from and offset 0, and returns with the stacks as it found them. *)
Theorem Mesh_draw_draws_once (format : VertexFormat) (vertices indices : list number)
    (c c' : GfxCtx) (m : Mesh.t) (primitive : option GLenum) (index : option Z)
    (count : option nat) (c2 : GfxCtx) :
  Mesh.constructor format vertices indices c = Ok m c' ->
  same_stacks c c'
  /\ draw_calls c' = draw_calls c
  /\ same_stacks c2 (Mesh.draw primitive index count m c2)
  /\ draw_calls (Mesh.draw primitive index count m c2)
     = draw_calls c2
       ++ [DrawElements (default TRIANGLES primitive) (default (length indices) count)
             (default 0%Z index)].
Proof.
  unfold Mesh.constructor, and_then, create, run, call, ret, throw.
  pose proof (gl_create_calls (gl c)) as Hc1.
  destruct (gl_create (gl c)) as [[vb|] g1]; [|discriminate]. cbn [fst snd] in Hc1.
  match goal with
  | |- context [gl_create ?g] =>
      pose proof (gl_create_calls g) as Hc2; destruct (gl_create g) as [ib g2]
  end.
  cbn [fst snd] in Hc2.
  intros [= <- <-].
  split; [stacks_tac|]. split.
  - count_draws. rewrite Hc2, List.filter_app. cbn.
    count_draws. rewrite Hc1, List.filter_app. cbn. now rewrite !app_nil_r.
  - unfold Mesh.draw. cbn [Mesh.glVBuf Mesh.glIBuf Mesh.vertexFormat Mesh.count].
    split; [stacks_tac|]. count_draws. reflexivity.
Qed.

Lemma Mesh_draw_draws_once_witness :
  exists (m : Mesh.t) (c' : GfxCtx),
    Mesh.constructor format0 [int 0; int 0; int 1; int 0; int 0; int 1]
      [int 0; int 1; int 2] ctx0 = Ok m c'
    /\ same_stacks ctx0 c'
    /\ draw_calls c' = draw_calls ctx0
    /\ same_stacks c' (Mesh.draw None None None m c')
    /\ draw_calls (Mesh.draw None None None m c')
       = draw_calls c' ++ [DrawElements TRIANGLES 3 0].
Proof.
  eexists _, _. split; [lazy; reflexivity|].
  eapply (Mesh_draw_draws_once format0 [int 0; int 0; int 1; int 0; int 0; int 1]
            [int 0; int 1; int 2] ctx0 _ _ None None None).
  lazy. reflexivity.
Defined.

(** The three ways out of [flush]: the early return, the skipped draw after
    a failed size check, and the draw. *)
Lemma flush_paths (width height : Z) (s : BatchRenderer.t * GfxCtx) :
  let r := BatchRenderer.enter (BatchRenderer.EnterFlush width height) (fst s) in
  BatchRenderer.flush width height s = (r, snd s)
  \/ (exists shader,
        BatchRenderer.curShader (fst s) = Some shader
        /\ BatchRenderer.flush width height s
           = (r, popElementArrayBuffer
                   (popArrayBuffer
                      (BatchRenderer.bind_and_upload width height shader r (snd s)))))
  \/ (exists shader,
        BatchRenderer.curShader (fst s) = Some shader
        /\ BatchRenderer.flush width height s
           = (BatchRenderer.reset_queues r,
              BatchRenderer.draw_and_unbind shader r
                (BatchRenderer.bind_and_upload width height shader r (snd s)))).
Proof.
  unfold BatchRenderer.flush. cbn [BatchRenderer.curShader BatchRenderer.enter].
  destruct (BatchRenderer.curShader (fst s)) as [shader|]; [|now left].
  destruct (_ || _ || _); [now left|].
  destruct (_ || _); [right; left | right; right]; exists shader; auto.
Qed.

Lemma bind_and_upload_draws (width height : Z) (shader : Shader.t)
    (r : BatchRenderer.t) (c : GfxCtx) :
  draw_calls (BatchRenderer.bind_and_upload width height shader r c) = draw_calls c.
Proof.
  unfold BatchRenderer.bind_and_upload, Texture.bind.
  destruct (BatchRenderer.curTex r), (BatchRenderer.curUniform r); now count_draws.
Qed.

Lemma draw_and_unbind_draws (shader : Shader.t) (r : BatchRenderer.t) (c : GfxCtx) :
  draw_calls (BatchRenderer.draw_and_unbind shader r c)
  = draw_calls c
    ++ [DrawElements (default 0%Z (BatchRenderer.curPrimitive r))
          (length (BatchRenderer.iqueue r)) 0].
Proof.
  unfold BatchRenderer.draw_and_unbind, Texture.unbind.
  destruct (BatchRenderer.curTex r); now count_draws.
Qed.

Lemma flush_counts (width height : Z) (s : BatchRenderer.t * GfxCtx) :
  let s' := BatchRenderer.flush width height s in
  BatchRenderer.numDraws (fst s') + length (draw_calls (snd s))
  = BatchRenderer.numDraws (fst s) + length (draw_calls (snd s')).
Proof.
  destruct (flush_paths width height s) as [H|[(shader & _ & H)|(shader & _ & H)]];
    cbv zeta; rewrite H; cbn [fst snd BatchRenderer.numDraws BatchRenderer.enter
                                BatchRenderer.reset_queues].
  - reflexivity.
  - f_equal. f_equal. count_draws. fold (draw_calls (BatchRenderer.bind_and_upload
      width height shader
      (BatchRenderer.enter (BatchRenderer.EnterFlush width height) (fst s)) (snd s))).
    now rewrite bind_and_upload_draws.
  - rewrite draw_and_unbind_draws, bind_and_upload_draws, length_app. cbn. lia.
Qed.

Lemma setBlend_counts (blend : BlendMode.t) (s : BatchRenderer.t * GfxCtx) :
  let s' := BatchRenderer.setBlend blend s in
  BatchRenderer.numDraws (fst s') = BatchRenderer.numDraws (fst s)
  /\ draw_calls (snd s') = draw_calls (snd s).
Proof.
  unfold BatchRenderer.setBlend. destruct (bool_decide _); [|cbn; auto].
  split; [reflexivity|]. unfold draw_calls.
  destruct blend; cbn; rewrite List.filter_app; cbn; apply app_nil_r.
Qed.

Lemma submit_counts (a : BatchRenderer.Submission) (s : BatchRenderer.t * GfxCtx) :
  let s' := BatchRenderer.submit a s in
  BatchRenderer.numDraws (fst s') + length (draw_calls (snd s))
  = BatchRenderer.numDraws (fst s) + length (draw_calls (snd s')).
Proof.
  unfold BatchRenderer.submit, BatchRenderer.push.
  destruct (BatchRenderer.picture (fst s)); [reflexivity|].
  destruct (BatchRenderer.must_flush _ _ _ _ _ _ _ _ _); cbn [fst snd BatchRenderer.append
    BatchRenderer.numDraws]; [|reflexivity].
  pose proof (flush_counts (BatchRenderer.width a) (BatchRenderer.height a) s) as Hf.
  destruct (setBlend_counts (BatchRenderer.blend a)
              (BatchRenderer.flush (BatchRenderer.width a) (BatchRenderer.height a) s))
    as [Hn Hd].
  cbv zeta in *. rewrite Hn, Hd. exact Hf.
Qed.

(** X11.  The draw counter counts the draw calls: over any sequence of
    [push] calls, live or recording, and over a [flush], [numDraws] grows by
    exactly the number of [drawElements] calls issued. *)
Theorem numDraws_counts_draw_calls (l : list BatchRenderer.Submission) (width height : Z)
    (s : BatchRenderer.t * GfxCtx) :
  let s' := BatchRenderer.flush width height (BatchRenderer.submit_all l s) in
  BatchRenderer.numDraws (fst s') + length (draw_calls (snd s))
  = BatchRenderer.numDraws (fst s) + length (draw_calls (snd s')).
Proof.
  cbv zeta.
  pose proof (flush_counts width height (BatchRenderer.submit_all l s)) as Hf.
  cbv zeta in Hf.
  assert (Hl : BatchRenderer.numDraws (fst (BatchRenderer.submit_all l s))
               + length (draw_calls (snd s))
               = BatchRenderer.numDraws (fst s)
                 + length (draw_calls (snd (BatchRenderer.submit_all l s)))).
  { clear Hf. revert s. induction l as [|a l IH]; intros s; [reflexivity|].
    rewrite submit_all_cons.
    pose proof (submit_counts a s) as Ha. cbv zeta in Ha.
    specialize (IH (BatchRenderer.submit a s)). lia. }
  lia.
Qed.











(* ================================================================== *)
(** ** BatchRenderer: what is pushed is what is uploaded and drawn *)
(* ================================================================== *)







(* ================================================================== *)
(** ** BatchRenderer: a run of equal materials is one batch *)
(* ================================================================== *)

Lemma submit_batches (a b : BatchRenderer.Submission) (s : BatchRenderer.t * GfxCtx) :
  BatchRenderer.picture (fst s) = None ->
  let s1 := BatchRenderer.submit a s in
  same_tuple a b = true ->
  fits b (fst s1) ->
  BatchRenderer.submit b s1
  = (BatchRenderer.append (BatchRenderer.primitive b) (BatchRenderer.vertices b)
       (BatchRenderer.indices b) (BatchRenderer.shader b) (BatchRenderer.tex b)
       (BatchRenderer.uniform b) (BatchRenderer.fixed b) (fst s1),
     snd s1).
Proof.
  intros Hlive s1 Hsame Hfits.
  destruct (submit_live_current a s Hlive) as (_ & _ & _ & _ & _ & _ & Hlive1).
  fold s1 in Hlive1.
  rewrite (submit_live b s1 Hlive1). cbv zeta.
  pose proof (must_flush_after_submit a b s Hlive) as Hm. cbv zeta in Hm. fold s1 in Hm.
  apply fits_no_overflow in Hfits. destruct Hfits as [Hv Hi].
  rewrite Hm, Hsame, Hv, Hi. reflexivity.
Qed.

(** X14.  A run of pushes with one material tuple is one batch.  After a
    live push of [a], take pushes whose tuple equals, each, that of the push
    before it, and whose data fits into the queues together: none of them
    enters [flush] or [setBlend] or makes any driver call, and the vertex
    queue grows by their vertices in the order of the pushes, the index
    queue by as many indices as they bring. *)
Theorem same_tuple_run_is_one_batch (l : list BatchRenderer.Submission)
    (a : BatchRenderer.Submission) (s : BatchRenderer.t * GfxCtx) :
  BatchRenderer.picture (fst s) = None ->
  same_tuple_chain a l ->
  let s1 := BatchRenderer.submit a s in
  length (BatchRenderer.vqueue (fst s1)) + length (concat (map BatchRenderer.vertices l))
    <= BatchRenderer.maxVertices (fst s1) ->
  length (BatchRenderer.iqueue (fst s1)) + index_count l
    <= BatchRenderer.maxIndices (fst s1) ->
  let s2 := BatchRenderer.submit_all l s1 in
  snd s2 = snd s1
  /\ BatchRenderer.entered (fst s2) = BatchRenderer.entered (fst s1)
  /\ BatchRenderer.vqueue (fst s2)
     = BatchRenderer.vqueue (fst s1) ++ concat (map BatchRenderer.vertices l)
  /\ length (BatchRenderer.iqueue (fst s2))
     = length (BatchRenderer.iqueue (fst s1)) + index_count l.
Proof.
  revert a s. induction l as [|b l IH]; intros a s Hlive Hchain s1 Hv Hi.
  - cbn. rewrite app_nil_r, Nat.add_0_r. repeat split; reflexivity.
  - destruct Hchain as [Hsame Hchain].
    unfold index_count in Hi, IH |- *. cbn [map concat sum_list_with] in Hv, Hi |- *.
    unfold id in Hi, IH |- *. rewrite length_app in Hv.
    assert (Hfits : fits b (fst s1)) by (unfold fits; lia).
    pose proof (submit_batches a b s Hlive Hsame Hfits) as Hb. fold s1 in Hb.
    destruct (submit_live_current a s Hlive) as (_ & _ & _ & _ & _ & _ & Hlive1).
    fold s1 in Hlive1.
    cbv zeta. rewrite submit_all_cons.
    specialize (IH b s1 Hlive1 Hchain). cbv zeta in IH. rewrite Hb in IH |- *.
    cbn [fst snd BatchRenderer.append BatchRenderer.vqueue BatchRenderer.iqueue
           BatchRenderer.maxVertices BatchRenderer.maxIndices BatchRenderer.entered]
      in IH |- *.
    rewrite !length_app, length_map in IH.
    destruct (IH ltac:(lia) ltac:(lia)) as (Hc & He & Hq & Hn).
    rewrite Hc, He, Hq, Hn.
    rewrite <- app_assoc. repeat split; try reflexivity. lia.
Qed.

Lemma same_tuple_run_is_one_batch_witness :
  let p := point_sub TRIANGLES None in
  let s1 := BatchRenderer.submit p (renderer0 8 8) in
  let s2 := BatchRenderer.submit_all [p; p] s1 in
  BatchRenderer.picture (fst (renderer0 8 8)) = None
  /\ same_tuple_chain p [p; p]
  /\ length (BatchRenderer.vqueue (fst s1))
     + length (concat (map BatchRenderer.vertices [p; p]))
     <= BatchRenderer.maxVertices (fst s1)
  /\ length (BatchRenderer.iqueue (fst s1)) + index_count [p; p]
     <= BatchRenderer.maxIndices (fst s1)
  /\ snd s2 = snd s1
  /\ BatchRenderer.entered (fst s2) = BatchRenderer.entered (fst s1)
  /\ BatchRenderer.vqueue (fst s2)
     = BatchRenderer.vqueue (fst s1) ++ concat (map BatchRenderer.vertices [p; p])
  /\ length (BatchRenderer.iqueue (fst s2))
     = length (BatchRenderer.iqueue (fst s1)) + index_count [p; p].
Proof.
  cbv zeta.
  assert (Hlive : BatchRenderer.picture (fst (renderer0 8 8)) = None)
    by (vm_compute; reflexivity).
  assert (Hchain : same_tuple_chain (point_sub TRIANGLES None)
                     [point_sub TRIANGLES None; point_sub TRIANGLES None])
    by (cbn [same_tuple_chain]; split; [vm_compute; reflexivity|];
        split; [vm_compute; reflexivity|exact I]).
  assert (Hv : length (BatchRenderer.vqueue (fst one_point))
               + length (concat (map BatchRenderer.vertices
                                   [point_sub TRIANGLES None; point_sub TRIANGLES None]))
               <= BatchRenderer.maxVertices (fst one_point))
    by (vm_compute; lia).
  assert (Hi : length (BatchRenderer.iqueue (fst one_point))
               + index_count [point_sub TRIANGLES None; point_sub TRIANGLES None]
               <= BatchRenderer.maxIndices (fst one_point))
    by (vm_compute; lia).
  split; [exact Hlive|]. split; [exact Hchain|]. split; [exact Hv|]. split; [exact Hi|].
  exact (same_tuple_run_is_one_batch
           [point_sub TRIANGLES None; point_sub TRIANGLES None]
           (point_sub TRIANGLES None) (renderer0 8 8) Hlive Hchain Hv Hi).
Defined.

(* ================================================================== *)
(** ** Recording: the commands of a picture tile its indices *)
(* ================================================================== *)

Lemma commands_tile_snoc (cmds : list Picture.Command) (cmd : Picture.Command)
    (from upto : nat) :
  commands_tile from (cmds ++ [cmd]) upto
  <-> commands_tile from cmds (Picture.index cmd)
      /\ Picture.index cmd + Picture.count cmd = upto.
Proof.
  revert from. induction cmds as [|c0 cmds IH]; intros from; cbn [app commands_tile].
  - split; [intros (-> & ->)|intros (-> & ->)]; auto.
  - rewrite IH. tauto.
Qed.

Lemma record_tiles (a : BatchRenderer.Submission) (stride : nat) (p : Picture.t) :
  commands_tile 0 (Picture.commands p) (length (Picture.indices p)) ->
  let p' :=
    BatchRenderer.record (BatchRenderer.vertices a) (BatchRenderer.indices a)
      (BatchRenderer.shader a) (BatchRenderer.tex a) (BatchRenderer.uniform a)
      (BatchRenderer.blend a) stride p in
  commands_tile 0 (Picture.commands p') (length (Picture.indices p'))
  /\ Picture.vertices p' = Picture.vertices p ++ BatchRenderer.vertices a
  /\ length (Picture.indices p')
     = length (Picture.indices p) + length (BatchRenderer.indices a).
Proof.
  intros Htile. cbv zeta.
  destruct (record_commands a stride p) as [Hc Hlen].
  split; [|split; [reflexivity|exact Hlen]].
  rewrite Hc, Hlen.
  destruct (last (Picture.commands p)) as [lastCommand|] eqn:Hlast.
  - apply last_Some in Hlast. destruct Hlast as [before Hbefore].
    rewrite Hbefore in Htile |- *. apply commands_tile_snoc in Htile.
    destruct Htile as [Hbef Hend].
    destruct (Picture.same_material _ _).
    + rewrite removelast_last. apply commands_tile_snoc.
      cbn [Picture.add_count Picture.index Picture.count]. split; [exact Hbef|lia].
    + apply commands_tile_snoc. cbn [Picture.index Picture.count].
      split; [|reflexivity]. apply commands_tile_snoc. auto.
  - apply commands_tile_snoc. cbn [Picture.index Picture.count]. auto.
Qed.

(** X15.  While a picture is recorded, [push] only extends the picture.  If
    its commands tile its index array (each command starts where the one
    before it ends, the first at 0 and the last ending at the number of
    indices), they still do after any sequence of pushes; the picture's
    vertices grow by the pushed vertices in order and its indices by as many
    as were pushed; the live queues are not touched, [flush] is not entered
    and no driver call is made. *)
Theorem recording_tiles_the_indices (l : list BatchRenderer.Submission)
    (s : BatchRenderer.t * GfxCtx) (p : Picture.t) :
  BatchRenderer.picture (fst s) = Some p ->
  commands_tile 0 (Picture.commands p) (length (Picture.indices p)) ->
  let s' := BatchRenderer.submit_all l s in
  exists p',
    BatchRenderer.picture (fst s') = Some p'
    /\ commands_tile 0 (Picture.commands p') (length (Picture.indices p'))
    /\ Picture.vertices p' = Picture.vertices p ++ concat (map BatchRenderer.vertices l)
    /\ length (Picture.indices p') = length (Picture.indices p) + index_count l
    /\ BatchRenderer.vqueue (fst s') = BatchRenderer.vqueue (fst s)
    /\ BatchRenderer.iqueue (fst s') = BatchRenderer.iqueue (fst s)
    /\ BatchRenderer.entered (fst s') = BatchRenderer.entered (fst s)
    /\ snd s' = snd s.
Proof.
  revert s p. induction l as [|a l IH]; intros s p Hp Htile.
  - exists p. cbn. rewrite app_nil_r, Nat.add_0_r. auto 10.
  - cbv zeta. rewrite submit_all_cons.
    destruct (record_tiles a (BatchRenderer.stride (fst s)) p Htile) as (Ht & Hv & Hn).
    cbv zeta in Ht, Hv, Hn.
    pose proof (submit_recording a s p Hp) as Hsub.
    destruct (IH (BatchRenderer.submit a s) _
                ltac:(rewrite Hsub; reflexivity) Ht)
      as (p' & Hp' & Ht' & Hv' & Hn' & Hqv & Hqi & He & Hc).
    cbv zeta in Hp', Hqv, Hqi, He, Hc.
    assert (Hone : BatchRenderer.vqueue (fst (BatchRenderer.submit a s))
                   = BatchRenderer.vqueue (fst s)
                   /\ BatchRenderer.iqueue (fst (BatchRenderer.submit a s))
                      = BatchRenderer.iqueue (fst s)
                   /\ BatchRenderer.entered (fst (BatchRenderer.submit a s))
                      = BatchRenderer.entered (fst s)
                   /\ snd (BatchRenderer.submit a s) = snd s)
      by (rewrite Hsub; auto).
    destruct Hone as (Hqv1 & Hqi1 & He1 & Hc1).
    rewrite Hqv1 in Hqv. rewrite Hqi1 in Hqi. rewrite He1 in He. rewrite Hc1 in Hc.
    exists p'. split; [exact Hp'|]. split; [exact Ht'|].
    split; [rewrite Hv', Hv; cbn [map concat]; now rewrite <- app_assoc|].
    split; [rewrite Hn', Hn; unfold index_count; cbn [map sum_list_with]; unfold id; lia|].
    auto.
Qed.

Lemma recording_tiles_the_indices_witness :
  let l := [point_sub TRIANGLES None; point_sub LINES (Some uniformA); triangle_sub] in
  BatchRenderer.picture (fst recorder0) = Some empty_picture
  /\ commands_tile 0 (Picture.commands empty_picture)
       (length (Picture.indices empty_picture))
  /\ exists p',
       BatchRenderer.picture (fst (BatchRenderer.submit_all l recorder0)) = Some p'
       /\ commands_tile 0 (Picture.commands p') (length (Picture.indices p'))
       /\ Picture.vertices p'
          = Picture.vertices empty_picture ++ concat (map BatchRenderer.vertices l)
       /\ length (Picture.indices p')
          = length (Picture.indices empty_picture) + index_count l
       /\ BatchRenderer.vqueue (fst (BatchRenderer.submit_all l recorder0))
          = BatchRenderer.vqueue (fst recorder0)
       /\ BatchRenderer.iqueue (fst (BatchRenderer.submit_all l recorder0))
          = BatchRenderer.iqueue (fst recorder0)
       /\ BatchRenderer.entered (fst (BatchRenderer.submit_all l recorder0))
          = BatchRenderer.entered (fst recorder0)
       /\ snd (BatchRenderer.submit_all l recorder0) = snd recorder0.
Proof.
  cbv zeta.
  assert (Hp : BatchRenderer.picture (fst recorder0) = Some empty_picture)
    by reflexivity.
  assert (Ht : commands_tile 0 (Picture.commands empty_picture)
                 (length (Picture.indices empty_picture)))
    by reflexivity.
  split; [exact Hp|]. split; [exact Ht|].
  exact (recording_tiles_the_indices
           [point_sub TRIANGLES None; point_sub LINES (Some uniformA); triangle_sub]
           recorder0 empty_picture Hp Ht).
Defined.
